(** * Movie Planner front end: the three screens, embedded and verified

    Source files:
    - [src/app/page.tsx]           the entry / auth screen ([HomePage]);
    - [src/app/discover/page.tsx]  the discovery screen ([DiscoverPage]) and,
      after the separator line, the account screen ([AccountPage]).

    The event handlers of the three components are embedded as programs of a
    small state-and-completion monad: a handler reads and writes the
    component's [useState] cells and the browser's [localStorage], and leaves
    a chronological log of what it did to the outside world (navigation,
    dialogs, HTTP exchanges).  Strings are sequences of UTF-16 code units,
    numbers are binary64 floats, HTTP statuses are naturals, and the body
    of a login or registration response is any JSON value.  The components
    are the ones mounted in a browser, where [window] is defined; a handler
    is followed to its end in one piece, every awaited promise settling. *)

From Stdlib Require Import Strings.String Strings.Ascii.
From Stdlib Require Import ZArith NArith List Bool Lia.
From Stdlib Require Import PrimFloat SpecFloat FloatOps.
From Stdlib Require FloatAxioms.
From Stdlib Require Uint63.
From stdpp Require Import base option list gmap.

Import ListNotations.
Local Open Scope N_scope.

(** ** JavaScript values *)

Module JS.

(** A string is its sequence of UTF-16 code units. *)
Abbreviation jsstring := (list N).

(** Literals of the source that are plain ASCII are written as Rocq
    strings and converted unit by unit. *)
Fixpoint str (s : String.string) : jsstring :=
  match s with
  | String.EmptyString => []
  | String.String c r => Ascii.N_of_ascii c :: str r
  end.

Arguments str s%_string.

(** [!s] for a string is true exactly on the empty string. *)
Definition truthy (s : jsstring) : bool :=
  match s with [] => false | _ :: _ => true end.

(** [!v] for [string | null]. *)
Definition truthy_opt (v : option jsstring) : bool :=
  match v with Some s => truthy s | None => false end.

(** [a || b] on a possibly missing string and a string. *)
Definition or_else (v : option jsstring) (d : jsstring) : jsstring :=
  match v with
  | Some s => if truthy s then s else d
  | None => d
  end.

(** [s.trim() || null]. *)
Definition or_null (s : jsstring) : option jsstring :=
  if truthy s then Some s else None.

(** [v ?? d]. *)
Definition nullish {A} (v : option A) (d : A) : A :=
  match v with Some a => a | None => d end.

(** ECMAScript WhiteSpace and LineTerminator code points; all of them are
    single code units. *)
Definition is_space (c : N) : bool :=
  ((0x9 <=? c) && (c <=? 0xD))
  || (c =? 0x20) || (c =? 0xA0) || (c =? 0x1680)
  || ((0x2000 <=? c) && (c <=? 0x200A))
  || (c =? 0x2028) || (c =? 0x2029) || (c =? 0x202F)
  || (c =? 0x205F) || (c =? 0x3000) || (c =? 0xFEFF).

Fixpoint trimStart (s : jsstring) : jsstring :=
  match s with
  | [] => []
  | c :: r => if is_space c then trimStart r else s
  end.

Definition trimEnd (s : jsstring) : jsstring := rev (trimStart (rev s)).

(** [String.prototype.trim]. *)
Definition trim (s : jsstring) : jsstring := trimEnd (trimStart s).

Fixpoint startsWith (q s : jsstring) : bool :=
  match q, s with
  | [], _ => true
  | _ :: _, [] => false
  | a :: q', b :: s' => (a =? b) && startsWith q' s'
  end.

(** [s.includes(q)]: [q] occurs in [s] as a run of code units. *)
Fixpoint includes (s q : jsstring) : bool :=
  startsWith q s
  || match s with
     | [] => false
     | _ :: s' => includes s' q
     end.

(** [a === b] on strings. *)
Definition str_eqb (a b : jsstring) : bool := bool_decide (a = b).

(** [s.repeat(count)] for an integral [count]; a negative count raises a
    RangeError, rendered as [None]. *)
Definition repeat (s : jsstring) (count : Z) : option jsstring :=
  if (count <? 0)%Z then None
  else Some (List.concat (List.repeat s (Z.to_nat count))).

(** Decimal digits of a natural number, most significant first. *)
Fixpoint uint_units (d : Decimal.uint) : jsstring :=
  match d with
  | Decimal.Nil => []
  | Decimal.D0 r => 48 :: uint_units r
  | Decimal.D1 r => 49 :: uint_units r
  | Decimal.D2 r => 50 :: uint_units r
  | Decimal.D3 r => 51 :: uint_units r
  | Decimal.D4 r => 52 :: uint_units r
  | Decimal.D5 r => 53 :: uint_units r
  | Decimal.D6 r => 54 :: uint_units r
  | Decimal.D7 r => 55 :: uint_units r
  | Decimal.D8 r => 56 :: uint_units r
  | Decimal.D9 r => 57 :: uint_units r
  end.

(** [String(n)] / [`${n}`] for a non-negative integer. *)
Definition of_N (n : N) : jsstring := uint_units (N.to_uint n).

(** ASCII letters only: [A]-[Z] to [a]-[z]. *)
Definition ascii_lower (c : N) : N :=
  if (65 <=? c) && (c <=? 90) then c + 32 else c.

Definition is_ascii (c : N) : bool := c <? 128.

(** Truthiness of a number: false on [0], [-0] and [NaN]. *)
Definition truthy_num (x : float) : bool :=
  negb (PrimFloat.is_nan x) && negb (PrimFloat.is_zero x).

Definition truthy_num_opt (v : option float) : bool :=
  match v with Some x => truthy_num x | None => false end.

(** The integer a number is, when it is a finite number without a
    fractional part; both zeros are the integer 0. *)
Definition integer_value (x : float) : option Z :=
  match Prim2SF x with
  | S754_zero _ => Some 0%Z
  | S754_finite neg m e =>
      let signed := fun z : Z => if neg then (- z)%Z else z in
      match e with
      | Z.neg p =>
          if (Z.pos m mod 2 ^ Z.pos p =? 0)%Z
          then Some (signed (Z.pos m / 2 ^ Z.pos p)%Z)
          else None
      | _ => Some (signed (Z.pos m * 2 ^ e)%Z)
      end
  | S754_infinity _ => None
  | S754_nan => None
  end.

(** The decimal digits of an integer, with a minus sign below zero. *)
Definition integer_text (z : Z) : jsstring :=
  (if (z <? 0)%Z then str "-" else []) ++ of_N (Z.abs_N z).

(** Surrogate code units: the leading and the trailing half of a pair. *)
Definition is_lead (c : N) : bool := (0xD800 <=? c) && (c <=? 0xDBFF).
Definition is_trail (c : N) : bool := (0xDC00 <=? c) && (c <=? 0xDFFF).

(** [s.isWellFormed()]: no surrogate stands outside a pair of a leading
    one followed by a trailing one. *)
Fixpoint isWellFormed (s : jsstring) : bool :=
  match s with
  | [] => true
  | c :: r =>
      if is_lead c then
        match r with
        | d :: r' => is_trail d && isWellFormed r'
        | [] => false
        end
      else negb (is_trail c) && isWellFormed r
  end.

End JS.

Import JS.

(** ** The records exchanged with the service *)

(** [type Movie] of the account screen; [None] stands for a field that is
    [null] or missing. *)
Module Movie.
Record t := {
  id : jsstring;
  title : jsstring;
  status : jsstring;
  review : option jsstring;
  rating : option float;
  imageUrl : option jsstring
}.
End Movie.

(** [type RatingSummary]: the three numbers are as the response carries
    them, whatever their value. *)
Module RatingSummary.
Record t := {
  title : jsstring;
  averageRating : float;
  roundedRating : float;
  ratingCount : float
}.
End RatingSummary.

(** [type DiscoverMovie]: an entry of the client-embedded catalog. *)
Module DiscoverMovie.
Record t := {
  id : jsstring;
  title : jsstring;
  year : N;
  genres : list jsstring;
  description : jsstring;
  imageUrl : jsstring
}.
End DiscoverMovie.

(** ** The browser: storage, effects, and the outside world *)

Module Web.

(** A thrown value, as far as the handlers look at it: [err.message],
    which is [undefined] when the value thrown is not an [Error]. *)
Record Exn := { message : option jsstring }.

(** [new Error(msg)]. *)
Definition Error (msg : jsstring) : Exn := {| message := Some msg |}.

Inductive Method := GET | POST | PUT | DELETE.

(** A value inside a JSON request body. *)
Inductive Json :=
| JNull
| JNumber (x : float)
| JString (s : jsstring).

(** [fetch(url, { method, headers, body: JSON.stringify({...}) })]; the
    body is kept as the object's fields in insertion order. *)
Record Request := {
  method : Method;
  url : jsstring;
  headers : list (jsstring * jsstring);
  body : option (list (jsstring * Json))
}.

Inductive NavKind := Push | Replace.

(** What a handler does to the world outside the component, in order. *)
Inductive Effect :=
| Navigate (kind : NavKind) (path : jsstring)
| Alert (msg : jsstring)
| Prompt (msg default : jsstring) (reply : option jsstring)
| Confirm (msg : jsstring) (reply : bool)
| Fetched (req : Request) (result : option N)
| ConsoleError (e : Exn).

(** The HTTP response as the code reads it: [res.status] and the promise
    of [res.json()], typed by the annotation at the call site. *)
Record Response (A : Type) := {
  status : N;
  json : Exn + A
}.
Arguments status {A} _.
Arguments json {A} _.

(** [res.ok]. *)
Definition ok {A} (r : Response A) : bool :=
  (200 <=? status r) && (status r <=? 299).

(** The promise returned by [fetch] either rejects or resolves. *)
Inductive Outcome (A : Type) :=
| Rejected (e : Exn)
| Resolved (r : Response A).
Arguments Rejected {A} _.
Arguments Resolved {A} _.

Definition result_of {A} (o : Outcome A) : option N :=
  match o with
  | Rejected _ => None
  | Resolved r => Some (status r)
  end.

(** Builtins of the JavaScript host that are not part of this repository,
    with the laws about them that the examples of the specification need:
    lowering ASCII text, and printing an integer of at most 2^53 in
    magnitude by its decimal digits.  [encodeURIComponent] is the encoding
    of a well-formed string; on any other the builtin throws [uriError].
    [conversionError] is the TypeError of a conversion to a string that
    finds no primitive value. *)
Class Host := {
  API_BASE_URL : jsstring;
  toLowerCase : jsstring -> jsstring;
  StringToNumber : jsstring -> float;
  NumberToString : float -> jsstring;
  encodeURIComponent : jsstring -> jsstring;
  uriError : Exn;
  conversionError : Exn;
  nullPropertyError : jsstring -> Exn;
  toLowerCase_ascii :
    forall s, forallb is_ascii s = true -> toLowerCase s = map ascii_lower s;
  NumberToString_integer :
    forall x z,
      integer_value x = Some z -> (Z.abs z <= 2 ^ 53)%Z ->
      NumberToString x = integer_text z
}.

#[local] Set Warnings "-register-all".

(** A value as [JSON.parse] gives it, or as a property read gives it:
    an object is the list of its own properties. *)
Inductive Value :=
| VUndefined
| VNull
| VBool (b : bool)
| VNumber (x : float)
| VString (s : jsstring)
| VArray (items : list Value)
| VObject (fields : list (jsstring * Value)).

(** [!!v]. *)
Definition truthy_value (v : Value) : bool :=
  match v with
  | VUndefined => false
  | VNull => false
  | VBool b => b
  | VNumber x => truthy_num x
  | VString s => truthy s
  | VArray _ => true
  | VObject _ => true
  end.

(** The own property [key] of an object. *)
Fixpoint own_property (key : jsstring) (fields : list (jsstring * Value)) : Value :=
  match fields with
  | [] => VUndefined
  | (k, v) :: rest => if str_eqb k key then v else own_property key rest
  end.

(** [v.key] for one of the keys the code reads, [error] and
    [sessionToken], which no prototype defines: the own property of an
    object, [undefined] on any other value that has properties, and
    nothing on [null] and [undefined], where the read throws. *)
Definition property (v : Value) (key : jsstring) : option Value :=
  match v with
  | VUndefined => None
  | VNull => None
  | VObject fields => Some (own_property key fields)
  | _ => Some VUndefined
  end.

(** [parts.join(sep)]. *)
Fixpoint join_with (sep : jsstring) (parts : list jsstring) : jsstring :=
  match parts with
  | [] => []
  | [p] => p
  | p :: rest => p ++ sep ++ join_with sep rest
  end.

(** Whether an object has an own property [key]. *)
Definition has_own (key : jsstring) (fields : list (jsstring * Value)) : bool :=
  existsb (fun kv => str_eqb kv.1 key) fields.

(** ToString, as [localStorage.setItem] applies it to the value it is
    given; [None] when it throws a TypeError.  An array prints its items
    joined by commas, [null] and [undefined] among them as nothing.  An
    object prints as [Object.prototype.toString] does, unless it has an
    own property [toString]: a parsed value is never a function, and with
    it in the way no primitive value is found. *)
Fixpoint to_string `{Host} (v : Value) : option jsstring :=
  match v with
  | VUndefined => Some (str "undefined")
  | VNull => Some (str "null")
  | VBool b => Some (if b then str "true" else str "false")
  | VNumber x => Some (NumberToString x)
  | VString s => Some s
  | VArray items =>
      let fix each (l : list Value) : option (list jsstring) :=
        match l with
        | [] => Some []
        | item :: rest =>
            match
              match item with
              | VUndefined => Some []
              | VNull => Some []
              | _ => to_string item
              end
            with
            | Some part =>
                match each rest with
                | Some parts => Some (part :: parts)
                | None => None
                end
            | None => None
            end
        end in
      match each items with
      | Some parts => Some (join_with (str ",") parts)
      | None => None
      end
  | VObject fields =>
      if has_own (str "toString") fields then None
      else Some (str "[object Object]")
  end.

(** Everything that answers the handlers: the service, by the type the call
    site reads the body at, and the user in front of the blocking dialogs.
    Each answer may depend on all that has happened so far. *)
Record World := {
  auth_service : list Effect -> Request -> Outcome Value;
  movie_service : list Effect -> Request -> Outcome (list Movie.t);
  rating_service : list Effect -> Request -> Outcome (list RatingSummary.t);
  write_service : list Effect -> Request -> Outcome unit;
  prompt_reply : list Effect -> jsstring -> jsstring -> option jsstring;
  confirm_reply : list Effect -> jsstring -> bool
}.

(** [window.localStorage] and the log of effects. *)
Record Browser := {
  localStorage : gmap jsstring jsstring;
  effects : list Effect
}.

Definition mp_sessionToken : jsstring := str "mp_sessionToken".
Definition mp_username : jsstring := str "mp_username".

(** A browser in which nothing has happened yet. *)
Definition fresh (storage : gmap jsstring jsstring) : Browser :=
  {| localStorage := storage; effects := [] |}.

(** ** Completions

    A block of statements ends normally, by [return], or by a throw. *)
Inductive Completion (A : Type) :=
| Normal (a : A)
| Returned
| Thrown (e : Exn).
Arguments Normal {A} _.
Arguments Returned {A}.
Arguments Thrown {A} _.

(** A computation over the component state [S] and the browser. *)
Definition M (S A : Type) : Type := S -> Browser -> Completion A * S * Browser.

Definition ret {S A} (a : A) : M S A := fun s b => (Normal a, s, b).

Definition bind {S A B} (m : M S A) (k : A -> M S B) : M S B :=
  fun s b =>
    match m s b with
    | (Normal a, s', b') => k a s' b'
    | (Returned, s', b') => (Returned, s', b')
    | (Thrown e, s', b') => (Thrown e, s', b')
    end.

(** [return;] *)
Definition return_ {S A} : M S A := fun s b => (Returned, s, b).

(** [throw e;] *)
Definition throw {S A} (e : Exn) : M S A := fun s b => (Thrown e, s, b).

Definition skip {S} : M S unit := ret tt.

(** The current value of the state cells. *)
Definition get {S} : M S S := fun s b => (Normal s, s, b).

(** A [setX(v)] call, given as the update of the state record. *)
Definition modify {S} (f : S -> S) : M S unit := fun s b => (Normal tt, f s, b).

Definition emit {S} (e : Effect) : M S unit :=
  fun s b =>
    (Normal tt, s, {| localStorage := localStorage b; effects := effects b ++ [e] |}).

Definition history {S} : M S (list Effect) := fun s b => (Normal (effects b), s, b).

(** [try { body } catch (err) { handler } finally { fin }]: the handler runs
    on a throw of the body, and [fin] runs whatever happened; an abrupt
    completion of [fin] would replace the pending one. *)
Definition try_catch_finally {S A}
    (body : M S A) (handler : Exn -> M S A) (fin : M S unit) : M S A :=
  fun s b =>
    let '(c1, s1, b1) :=
      match body s b with
      | (Thrown e, s', b') => handler e s' b'
      | r => r
      end in
    match fin s1 b1 with
    | (Normal _, s2, b2) => (c1, s2, b2)
    | (Returned, s2, b2) => (Returned, s2, b2)
    | (Thrown e, s2, b2) => (Thrown e, s2, b2)
    end.

(** [try { body } catch (err) { handler }]. *)
Definition try_catch {S A} (body : M S A) (handler : Exn -> M S A) : M S A :=
  try_catch_finally body handler skip.

(** [await f()] for an async function [f] of the component: a [return]
    inside [f] ends [f], not its caller. *)
Definition call {S} (f : M S unit) : M S unit :=
  fun s b =>
    match f s b with
    | (Returned, s', b') => (Normal tt, s', b')
    | r => r
    end.

(** Runs a handler in a browser with the given storage and an empty log. *)
Definition run {S A} (m : M S A) (s : S) (storage : gmap jsstring jsstring)
  : Completion A * S * Browser :=
  m s (fresh storage).

Declare Scope js_scope.
Delimit Scope js_scope with js.
Notation "x <- m ;; k" := (bind m (fun x => k))
  (at level 100, m at next level, right associativity) : js_scope.
Notation "m ;; k" := (bind m (fun _ => k))
  (at level 100, right associativity) : js_scope.

(** [window.localStorage.getItem(key)]. *)
Definition getItem {S} (key : jsstring) : M S (option jsstring) :=
  fun s b => (Normal (localStorage b !! key), s, b).

Definition setItem {S} (key value : jsstring) : M S unit :=
  fun s b =>
    (Normal tt, s,
     {| localStorage := <[key := value]> (localStorage b); effects := effects b |}).

Definition removeItem {S} (key : jsstring) : M S unit :=
  fun s b =>
    (Normal tt, s,
     {| localStorage := delete key (localStorage b); effects := effects b |}).

(** [router.push(path)], [router.replace(path)]. *)
Definition router_push {S} (path : jsstring) : M S unit := emit (Navigate Push path).
Definition router_replace {S} (path : jsstring) : M S unit := emit (Navigate Replace path).

Definition alert {S} (msg : jsstring) : M S unit := emit (Alert msg).
Definition console_error {S} (e : Exn) : M S unit := emit (ConsoleError e).

(** [window.prompt(msg, default)] and [confirm(msg)]: the user's answer is
    the world's, and the dialog is logged with it. *)
Definition prompt {S} (w : World) (msg default : jsstring) : M S (option jsstring) :=
  fun s b =>
    let r := prompt_reply w (effects b) msg default in
    (Normal r, s,
     {| localStorage := localStorage b; effects := effects b ++ [Prompt msg default r] |}).

Definition confirm {S} (w : World) (msg : jsstring) : M S bool :=
  fun s b =>
    let r := confirm_reply w (effects b) msg in
    (Normal r, s,
     {| localStorage := localStorage b; effects := effects b ++ [Confirm msg r] |}).

(** [await fetch(...)] against the service [srv]: a rejected promise is a
    throw at the [await]. *)
Definition fetch {S A} (srv : list Effect -> Request -> Outcome A) (req : Request)
  : M S (Response A) :=
  fun s b =>
    let o := srv (effects b) req in
    let b' := {| localStorage := localStorage b;
                 effects := effects b ++ [Fetched req (result_of o)] |} in
    match o with
    | Rejected e => (Thrown e, s, b')
    | Resolved r => (Normal r, s, b')
    end.

(** [await res.json()]. *)
Definition res_json {S A} (r : Response A) : M S A :=
  match json r with
  | inl e => throw e
  | inr a => ret a
  end.

(** The path of the last navigation in a log: where the router ends up. *)
Fixpoint location (log : list Effect) : option jsstring :=
  match log with
  | [] => None
  | e :: rest =>
      match location rest with
      | Some p => Some p
      | None => match e with Navigate _ p => Some p | _ => None end
      end
  end.

(** The requests of a log, in order. *)
Fixpoint requests (log : list Effect) : list Request :=
  match log with
  | [] => []
  | Fetched req _ :: rest => req :: requests rest
  | _ :: rest => requests rest
  end.

(** [`HTTP ${res.status}`]. *)
Definition http_error (st : N) : Exn := Error (str "HTTP " ++ of_N st).

Definition json_headers : list (jsstring * jsstring) :=
  [(str "Content-Type", str "application/json")].

(** [Authorization: `Bearer ${sessionToken}`]. *)
Definition bearer (token : jsstring) : jsstring * jsstring :=
  (str "Authorization", str "Bearer " ++ token).

(** [rating: ratingValue] and [review: text || null] inside a JSON body. *)
Definition json_number (v : option float) : Json :=
  match v with Some x => JNumber x | None => JNull end.

Definition json_string (v : option jsstring) : Json :=
  match v with Some s => JString s | None => JNull end.

(** The session a handler closes over, when it is a non-empty string. *)
Definition present (v : option jsstring) : option jsstring :=
  match v with
  | Some s => if truthy s then Some s else None
  | None => None
  end.

(** The double quote, the en dash and the bullet of the source's texts. *)
Definition quote : jsstring := [0x22].
Definition en_dash : jsstring := [0x2013].
Definition bullet : jsstring := [0x2022].

(** [x.toFixed(1)] (ECMAScript, Number.prototype.toFixed): a value that is
    not finite, or whose magnitude reaches 10^21, prints as [String(x)]
    does; otherwise the integer [n] with [n / 10] nearest to the exact
    value of [x] is taken, the larger one on a tie, and printed with one
    digit after the point. *)
Definition toFixed1 `{Host} (x : float) : jsstring :=
  match Prim2SF x with
  | S754_nan => NumberToString x
  | S754_infinity _ => NumberToString x
  | S754_zero _ => str "0.0"
  | S754_finite neg m e =>
      let sign := if neg then str "-" else [] in
      let huge :=
        match e with
        | Z.neg _ => false
        | _ => (10 ^ 21 <=? Z.pos m * 2 ^ e)%Z
        end in
      if huge then sign ++ NumberToString (PrimFloat.abs x)
      else
        let n :=
          match e with
          | Z.neg p => ((20 * Z.pos m + 2 ^ Z.pos p) / 2 ^ (Z.pos p + 1))%Z
          | _ => (10 * Z.pos m * 2 ^ e)%Z
          end in
        sign ++ of_N (Z.to_N (n / 10)) ++ str "." ++ of_N (Z.to_N (n mod 10))
  end.

End Web.

Import Web.
Local Open Scope js_scope.

(** ** Numbers as arguments of [Math.min], [Math.max] and [repeat] *)

Module JSNumber.

(** [Math.min(a, b)]: NaN when either argument is, otherwise the smaller
    one, the negative zero below the positive one. *)
Definition math_min (a b : float) : float :=
  if PrimFloat.is_nan a || PrimFloat.is_nan b then PrimFloat.nan
  else if (a <? b)%float then a
  else if (b <? a)%float then b
  else if PrimFloat.is_zero a && PrimFloat.get_sign a then a
  else b.

(** [Math.max(a, b)]: NaN when either argument is, otherwise the larger
    one, the positive zero above the negative one. *)
Definition math_max (a b : float) : float :=
  if PrimFloat.is_nan a || PrimFloat.is_nan b then PrimFloat.nan
  else if (a <? b)%float then b
  else if (b <? a)%float then a
  else if PrimFloat.is_zero a && PrimFloat.get_sign a then b
  else a.

(** The result of ECMAScript's ToIntegerOrInfinity. *)
Inductive IntegerOrInfinity :=
| Finite (n : Z)
| PlusInfinity
| MinusInfinity.

(** ToIntegerOrInfinity: NaN and the zeros give 0, an infinity stays, and a
    finite number is truncated toward zero. *)
Definition toIntegerOrInfinity (x : float) : IntegerOrInfinity :=
  match Prim2SF x with
  | S754_nan => Finite 0
  | S754_zero _ => Finite 0
  | S754_infinity neg => if neg then MinusInfinity else PlusInfinity
  | S754_finite neg m e =>
      let magnitude :=
        match e with
        | Z.neg p => (Z.pos m / 2 ^ Z.pos p)%Z
        | _ => (Z.pos m * 2 ^ e)%Z
        end in
      Finite (if neg then (- magnitude)%Z else magnitude)
  end.

(** [s.repeat(count)] for any number: a RangeError ([None]) when the count
    is negative after truncation or is an infinity. *)
Definition repeat_num (s : jsstring) (count : float) : option jsstring :=
  match toIntegerOrInfinity count with
  | Finite n => repeat s n
  | PlusInfinity => None
  | MinusInfinity => None
  end.

(** The number a natural number below 2^53 is. *)
Definition of_Z (k : Z) : float := PrimFloat.of_uint63 (Uint63.of_Z k).

End JSNumber.

(** ** The discovery screen ([DiscoverPage], src/app/discover/page.tsx) *)

Module Discover.

Definition DISCOVER_MOVIES : list DiscoverMovie.t :=
  [ {| DiscoverMovie.id := str "disc-1";
       DiscoverMovie.title := str "Inception";
       DiscoverMovie.year := 2010;
       DiscoverMovie.genres := [str "Sci-Fi"; str "Thriller"];
       DiscoverMovie.description :=
         str "A thief who steals corporate secrets through the use of dream-sharing technology is given a chance at redemption.";
       DiscoverMovie.imageUrl :=
         str "https://encrypted-tbn0.gstatic.com/images?q=tbn:ANd9GcTmaTHAbTa2MTEGM_PwqBU61jEzjEcQfx-Zb39fyctMdZheq2Uj" |};
    {| DiscoverMovie.id := str "disc-2";
       DiscoverMovie.title := str "The Dark Knight";
       DiscoverMovie.year := 2008;
       DiscoverMovie.genres := [str "Action"; str "Crime"];
       DiscoverMovie.description :=
         str "Batman faces the Joker, a criminal mastermind who plunges Gotham into chaos.";
       DiscoverMovie.imageUrl :=
         str "https://encrypted-tbn1.gstatic.com/images?q=tbn:ANd9GcR2Cghv6inVgiEL-vAYFJg8Rff175LiNaWKzV4tytSLG6D0c2n_" |};
    {| DiscoverMovie.id := str "disc-3";
       DiscoverMovie.title := str "La La Land";
       DiscoverMovie.year := 2016;
       DiscoverMovie.genres := [str "Romance"; str "Drama"; str "Musical"];
       DiscoverMovie.description :=
         str "A jazz musician and an aspiring actress try to make it in Los Angeles while navigating love and ambition.";
       DiscoverMovie.imageUrl :=
         str "https://theposterdepot.com/cdn/shop/products/lala-land-poster-1120201602_d2a246ae-5c6e-44ca-8904-ba83fce4fe20_1024x1024@2x.jpg?v=1549386938" |};
    {| DiscoverMovie.id := str "disc-4";
       DiscoverMovie.title := str "Spirited Away";
       DiscoverMovie.year := 2001;
       DiscoverMovie.genres := [str "Animation"; str "Fantasy"];
       DiscoverMovie.description :=
         str "A young girl enters a world of spirits and must save her parents and find her way back.";
       DiscoverMovie.imageUrl :=
         str "https://encrypted-tbn0.gstatic.com/images?q=tbn:ANd9GcTlyek7tCF3dXq_2y6E5NGajum2a_s8clAIu6WrdOxsO_Drmi04" |} ].

(** The filled and the empty star. *)
Definition star : jsstring := [0x2605].
Definition hollow : jsstring := [0x2606].

(** [function renderStars(roundedRating: number)]; [None] when a [repeat]
    throws. *)
Definition renderStars (roundedRating : float) : option jsstring :=
  let r := JSNumber.math_max 1 (JSNumber.math_min 5 roundedRating) in
  full ← JSNumber.repeat_num star r;
  empty ← JSNumber.repeat_num hollow (5 - r)%float;
  Some (full ++ empty).

(** The [useState] cells of the component. *)
Record State := {
  sessionToken : option jsstring;
  currentUser : option jsstring;
  error : option jsstring;
  busyId : option jsstring;
  ratings : list RatingSummary.t
}.

(** The state of a freshly mounted component. *)
Definition initial : State :=
  {| sessionToken := None; currentUser := None; error := None;
     busyId := None; ratings := [] |}.

Definition setSessionToken (v : option jsstring) : M State unit :=
  modify (fun s =>
    {| sessionToken := v; currentUser := currentUser s; error := error s;
       busyId := busyId s; ratings := ratings s |}).

Definition setCurrentUser (v : option jsstring) : M State unit :=
  modify (fun s =>
    {| sessionToken := sessionToken s; currentUser := v; error := error s;
       busyId := busyId s; ratings := ratings s |}).

Definition setError (v : option jsstring) : M State unit :=
  modify (fun s =>
    {| sessionToken := sessionToken s; currentUser := currentUser s; error := v;
       busyId := busyId s; ratings := ratings s |}).

Definition setBusyId (v : option jsstring) : M State unit :=
  modify (fun s =>
    {| sessionToken := sessionToken s; currentUser := currentUser s;
       error := error s; busyId := v; ratings := ratings s |}).

Definition setRatings (v : list RatingSummary.t) : M State unit :=
  modify (fun s =>
    {| sessionToken := sessionToken s; currentUser := currentUser s;
       error := error s; busyId := busyId s; ratings := v |}).

(** [function getGlobalSummary(title)], over the [ratings] cell;
    [match.ratingCount === 0] is the equality of numbers, which holds of
    both zeros and of no other value. *)
Definition getGlobalSummary (ratings : list RatingSummary.t) (title : jsstring)
  : option RatingSummary.t :=
  match List.find (fun r => str_eqb (RatingSummary.title r) title) ratings with
  | None => None
  | Some m => if (RatingSummary.ratingCount m =? 0)%float then None else Some m
  end.

(** The texts of the two prompts and of the warning. *)
Definition rate_prompt (title : jsstring) : jsstring :=
  str "Rate " ++ quote ++ title ++ quote ++ str " (1" ++ en_dash ++ str "5):".

Definition review_prompt (title : jsstring) : jsstring :=
  str "Leave a short review for " ++ quote ++ title ++ quote ++ str " (optional):".

Definition invalid_rating : jsstring :=
  str "Invalid rating, must be 1" ++ en_dash ++ str "5. Saving with no rating.".

Section Handlers.

Context {host : Host} (world : World).

(** The effect commented [// Auth guard], run after mount. *)
Definition authGuard : M State unit :=
  token <- getItem mp_sessionToken ;;
  user <- getItem mp_username ;;
  if negb (truthy_opt token) || negb (truthy_opt user) then
    router_replace (str "/") ;; return_
  else
    setSessionToken token ;;
    setCurrentUser user.

(** [const fetchRatings = async () => ...], run after mount. *)
Definition fetchRatings : M State unit :=
  try_catch
    (res <- fetch (rating_service world)
              {| method := GET; url := API_BASE_URL ++ str "/ratings";
                 headers := []; body := None |} ;;
     if negb (ok res) then return_
     else
       data <- res_json res ;;
       setRatings data)
    (fun err => console_error err).

(** [function handleLogout()]. *)
Definition handleLogout : M State unit :=
  removeItem mp_sessionToken ;;
  removeItem mp_username ;;
  router_push (str "/").

(** [async function addToList(movie: DiscoverMovie)]. *)
Definition addToList (movie : DiscoverMovie.t) : M State unit :=
  st <- get ;;
  match present (sessionToken st) with
  | None =>
      setError (Some (str "Please log in again.")) ;;
      router_replace (str "/") ;;
      return_
  | Some token =>
      try_catch_finally
        (setError None ;;
         setBusyId (Some (DiscoverMovie.id movie)) ;;
         res <- fetch (write_service world)
                  {| method := POST; url := API_BASE_URL ++ str "/movies";
                     headers := json_headers ++ [bearer token];
                     body := Some
                       [ (str "title", JString (DiscoverMovie.title movie));
                         (str "status", JString (str "PLAN_TO_WATCH")) ] |} ;;
         (if status res =? 401 then handleLogout ;; return_ else skip) ;;
         if negb (ok res) then throw (http_error (status res)) else skip)
        (fun err =>
           console_error err ;;
           setError (Some (nullish (message err) (str "Failed to add movie"))))
        (setBusyId None)
  end.

(** [async function markWatched(movie: DiscoverMovie)]. *)
Definition markWatched (movie : DiscoverMovie.t) : M State unit :=
  st <- get ;;
  match present (sessionToken st) with
  | None =>
      setError (Some (str "Please log in again.")) ;;
      router_replace (str "/") ;;
      return_
  | Some token =>
      try_catch_finally
        (setError None ;;
         ratingInput <- prompt world (rate_prompt (DiscoverMovie.title movie)) [] ;;
         ratingValue <-
           match ratingInput with
           | Some input =>
               if negb (str_eqb (trim input) []) then
                 let parsed := StringToNumber (trim input) in
                 if negb (PrimFloat.is_nan parsed)
                    && (1 <=? parsed)%float && (parsed <=? 5)%float
                 then ret (Some parsed)
                 else alert invalid_rating ;; ret None
               else ret None
           | None => ret None
           end ;;
         reviewInput <- prompt world (review_prompt (DiscoverMovie.title movie)) [] ;;
         let reviewText := nullish reviewInput [] in
         setBusyId (Some (DiscoverMovie.id movie)) ;;
         res <- fetch (write_service world)
                  {| method := POST; url := API_BASE_URL ++ str "/movies";
                     headers := json_headers ++ [bearer token];
                     body := Some
                       [ (str "title", JString (DiscoverMovie.title movie));
                         (str "status", JString (str "HAVE_WATCHED"));
                         (str "rating", json_number ratingValue);
                         (str "review", json_string (or_null (trim reviewText))) ] |} ;;
         (if status res =? 401 then handleLogout ;; return_ else skip) ;;
         if negb (ok res) then throw (http_error (status res)) else skip)
        (fun err =>
           console_error err ;;
           setError (Some (nullish (message err) (str "Failed to add watched movie"))))
        (setBusyId None)
  end.

(** The rating badge of a card: the star string and the caption beside it. *)
Record Badge := {
  stars : jsstring;
  caption : jsstring
}.

(** A card of the catalog grid, as the component returns it. *)
Record Card := {
  key : jsstring;
  poster : jsstring;
  heading : jsstring;
  released : N;
  genre_line : jsstring;
  blurb : jsstring;
  add_disabled : bool;
  add_label : jsstring;
  mark_disabled : bool;
  mark_label : jsstring;
  badge : option Badge
}.

(** [genres.join(" • ")]. *)
Fixpoint join (sep : jsstring) (parts : list jsstring) : jsstring :=
  match parts with
  | [] => []
  | [p] => p
  | p :: rest => p ++ sep ++ join sep rest
  end.

(** The text after the stars:
    [{averageRating.toFixed(1)}/5 from {ratingCount} rating{s} (global)];
    the count is a number child, which React prints as [String] does. *)
Definition badge_caption (g : RatingSummary.t) : jsstring :=
  toFixed1 (RatingSummary.averageRating g) ++ str "/5 from" ++ str " "
  ++ NumberToString (RatingSummary.ratingCount g) ++ str " rating"
  ++ (if (RatingSummary.ratingCount g =? 1)%float then [] else str "s")
  ++ str " (global)".

(** [{global && (...)}]; [None] at the top when rendering throws. *)
Definition render_badge (global : option RatingSummary.t) : option (option Badge) :=
  match global with
  | None => Some None
  | Some g =>
      s ← renderStars (RatingSummary.roundedRating g);
      Some (Some {| stars := s; caption := badge_caption g |})
  end.

(** The body of [DISCOVER_MOVIES.map((movie) => ...)]. *)
Definition render_card (st : State) (movie : DiscoverMovie.t) : option Card :=
  let global := getGlobalSummary (ratings st) (DiscoverMovie.title movie) in
  let busy := bool_decide (busyId st = Some (DiscoverMovie.id movie)) in
  b ← render_badge global;
  Some {| key := DiscoverMovie.id movie;
          poster := DiscoverMovie.imageUrl movie;
          heading := DiscoverMovie.title movie;
          released := DiscoverMovie.year movie;
          genre_line := join (str " " ++ bullet ++ str " ") (DiscoverMovie.genres movie);
          blurb := DiscoverMovie.description movie;
          add_disabled := negb (truthy_opt (sessionToken st)) || busy;
          add_label := if busy then str "Adding..." else str "Add to My List";
          mark_disabled := negb (truthy_opt (sessionToken st)) || busy;
          mark_label := if busy then str "Saving..." else str "Mark Watched & Review";
          badge := b |}.

(** What the component returns: the user label of the header, the error
    banner, and the grid. *)
Record View := {
  user_label : jsstring;
  banner : option jsstring;
  cards : list Card
}.

Definition render (st : State) : option View :=
  cs ← mapM (render_card st) DISCOVER_MOVIES;
  Some {| user_label :=
            if truthy_opt (currentUser st)
            then str "Logged in as " ++ nullish (currentUser st) []
            else str "Loading...";
          banner := present (error st);
          cards := cs |}.

End Handlers.

End Discover.

(** ** The account screen ([AccountPage], second part of
    src/app/discover/page.tsx) *)

Module Account.

(** ["PLAN_TO_WATCH" | "HAVE_WATCHED"], the type of the form's status. *)
Inductive Status := PLAN_TO_WATCH | HAVE_WATCHED.

Definition literal (s : Status) : jsstring :=
  match s with
  | PLAN_TO_WATCH => str "PLAN_TO_WATCH"
  | HAVE_WATCHED => str "HAVE_WATCHED"
  end.

(** [type Filter = "ALL" | "PLAN_TO_WATCH" | "HAVE_WATCHED"]. *)
Inductive Filter := ALL | Only (s : Status).

(** The [useState] cells of the component. *)
Record State := {
  sessionToken : option jsstring;
  currentUser : option jsstring;
  movies : list Movie.t;
  loadingMovies : bool;
  moviesError : option jsstring;
  filter : Filter;
  title : jsstring;
  status : Status;
  review : jsstring;
  rating : option float;
  posterUrl : jsstring;
  searchQuery : jsstring
}.

Definition initial : State :=
  {| sessionToken := None; currentUser := None; movies := [];
     loadingMovies := false; moviesError := None; filter := ALL;
     title := []; status := PLAN_TO_WATCH; review := []; rating := None;
     posterUrl := []; searchQuery := [] |}.

Definition setSessionToken (v : option jsstring) : M State unit :=
  modify (fun s =>
    {| sessionToken := v; currentUser := currentUser s; movies := movies s;
       loadingMovies := loadingMovies s; moviesError := moviesError s;
       filter := filter s; title := title s; status := status s;
       review := review s; rating := rating s; posterUrl := posterUrl s;
       searchQuery := searchQuery s |}).

Definition setCurrentUser (v : option jsstring) : M State unit :=
  modify (fun s =>
    {| sessionToken := sessionToken s; currentUser := v; movies := movies s;
       loadingMovies := loadingMovies s; moviesError := moviesError s;
       filter := filter s; title := title s; status := status s;
       review := review s; rating := rating s; posterUrl := posterUrl s;
       searchQuery := searchQuery s |}).

Definition setMovies (v : list Movie.t) : M State unit :=
  modify (fun s =>
    {| sessionToken := sessionToken s; currentUser := currentUser s; movies := v;
       loadingMovies := loadingMovies s; moviesError := moviesError s;
       filter := filter s; title := title s; status := status s;
       review := review s; rating := rating s; posterUrl := posterUrl s;
       searchQuery := searchQuery s |}).

Definition setLoadingMovies (v : bool) : M State unit :=
  modify (fun s =>
    {| sessionToken := sessionToken s; currentUser := currentUser s;
       movies := movies s; loadingMovies := v; moviesError := moviesError s;
       filter := filter s; title := title s; status := status s;
       review := review s; rating := rating s; posterUrl := posterUrl s;
       searchQuery := searchQuery s |}).

Definition setMoviesError (v : option jsstring) : M State unit :=
  modify (fun s =>
    {| sessionToken := sessionToken s; currentUser := currentUser s;
       movies := movies s; loadingMovies := loadingMovies s; moviesError := v;
       filter := filter s; title := title s; status := status s;
       review := review s; rating := rating s; posterUrl := posterUrl s;
       searchQuery := searchQuery s |}).

Definition setFilter (v : Filter) : M State unit :=
  modify (fun s =>
    {| sessionToken := sessionToken s; currentUser := currentUser s;
       movies := movies s; loadingMovies := loadingMovies s;
       moviesError := moviesError s; filter := v; title := title s;
       status := status s; review := review s; rating := rating s;
       posterUrl := posterUrl s; searchQuery := searchQuery s |}).

Definition setTitle (v : jsstring) : M State unit :=
  modify (fun s =>
    {| sessionToken := sessionToken s; currentUser := currentUser s;
       movies := movies s; loadingMovies := loadingMovies s;
       moviesError := moviesError s; filter := filter s; title := v;
       status := status s; review := review s; rating := rating s;
       posterUrl := posterUrl s; searchQuery := searchQuery s |}).

Definition setStatus (v : Status) : M State unit :=
  modify (fun s =>
    {| sessionToken := sessionToken s; currentUser := currentUser s;
       movies := movies s; loadingMovies := loadingMovies s;
       moviesError := moviesError s; filter := filter s; title := title s;
       status := v; review := review s; rating := rating s;
       posterUrl := posterUrl s; searchQuery := searchQuery s |}).

Definition setReview (v : jsstring) : M State unit :=
  modify (fun s =>
    {| sessionToken := sessionToken s; currentUser := currentUser s;
       movies := movies s; loadingMovies := loadingMovies s;
       moviesError := moviesError s; filter := filter s; title := title s;
       status := status s; review := v; rating := rating s;
       posterUrl := posterUrl s; searchQuery := searchQuery s |}).

Definition setRating (v : option float) : M State unit :=
  modify (fun s =>
    {| sessionToken := sessionToken s; currentUser := currentUser s;
       movies := movies s; loadingMovies := loadingMovies s;
       moviesError := moviesError s; filter := filter s; title := title s;
       status := status s; review := review s; rating := v;
       posterUrl := posterUrl s; searchQuery := searchQuery s |}).

Definition setPosterUrl (v : jsstring) : M State unit :=
  modify (fun s =>
    {| sessionToken := sessionToken s; currentUser := currentUser s;
       movies := movies s; loadingMovies := loadingMovies s;
       moviesError := moviesError s; filter := filter s; title := title s;
       status := status s; review := review s; rating := rating s;
       posterUrl := v; searchQuery := searchQuery s |}).

Definition setSearchQuery (v : jsstring) : M State unit :=
  modify (fun s =>
    {| sessionToken := sessionToken s; currentUser := currentUser s;
       movies := movies s; loadingMovies := loadingMovies s;
       moviesError := moviesError s; filter := filter s; title := title s;
       status := status s; review := review s; rating := rating s;
       posterUrl := posterUrl s; searchQuery := v |}).

(** The texts of the dialogs. *)
Definition rate_prompt (title : jsstring) : jsstring :=
  str "How would you rate " ++ quote ++ title ++ quote ++ str " (1" ++ en_dash
  ++ str "5)? Leave blank to skip.".

Definition review_prompt (title : jsstring) : jsstring :=
  str "Leave a short review for " ++ quote ++ title ++ quote ++ str " (optional):".

Definition invalid_rating : jsstring :=
  str "Invalid rating, must be 1" ++ en_dash ++ str "5.".

Definition rating_required : jsstring :=
  str "Please select a rating 1" ++ en_dash ++ str "5 for watched movies.".

Section Handlers.

Context {host : Host} (world : World).

(** The value of [`${API_BASE_URL}/movies?id=${encodeURIComponent(id)}`]
    for a well-formed [id]. *)
Definition movie_url (id : jsstring) : jsstring :=
  API_BASE_URL ++ str "/movies?id=" ++ encodeURIComponent id.

(** Evaluating that template: [encodeURIComponent] throws a URIError on an
    [id] that holds a lone surrogate. *)
Definition movie_url_of (id : jsstring) : M State jsstring :=
  if isWellFormed id then ret (movie_url id) else throw uriError.

(** The effect commented [// Auth guard], run after mount. *)
Definition authGuard : M State unit :=
  token <- getItem mp_sessionToken ;;
  user <- getItem mp_username ;;
  if negb (truthy_opt token) || negb (truthy_opt user) then
    router_replace (str "/") ;; return_
  else
    setSessionToken token ;;
    setCurrentUser user.

(** [function handleLogout()]. *)
Definition handleLogout : M State unit :=
  removeItem mp_sessionToken ;;
  removeItem mp_username ;;
  router_push (str "/").

(** [async function fetchMovies()]. *)
Definition fetchMovies : M State unit :=
  st <- get ;;
  match present (sessionToken st) with
  | None => return_
  | Some token =>
      try_catch_finally
        (setLoadingMovies true ;;
         setMoviesError None ;;
         res <- fetch (movie_service world)
                  {| method := GET; url := API_BASE_URL ++ str "/movies";
                     headers := [bearer token]; body := None |} ;;
         (if Web.status res =? 401 then handleLogout ;; return_ else skip) ;;
         (if negb (ok res) then throw (http_error (Web.status res)) else skip) ;;
         data <- res_json res ;;
         setMovies data)
        (fun err =>
           console_error err ;;
           setMoviesError (Some (nullish (message err) (str "Failed to load movies"))))
        (setLoadingMovies false)
  end.

(** The effect [if (sessionToken) fetchMovies()], run when the session
    cell changes. *)
Definition fetchOnSession : M State unit :=
  st <- get ;;
  if truthy_opt (sessionToken st) then call fetchMovies else skip.

(** [async function handleAddMovie(e)]. *)
Definition handleAddMovie : M State unit :=
  st <- get ;;
  match present (sessionToken st) with
  | None =>
      setMoviesError (Some (str "Please log in first.")) ;;
      return_
  | Some token =>
      (if negb (truthy (trim (title st)))
       then alert (str "Please enter a title") ;; return_
       else skip) ;;
      let payload :=
        [ (str "title", JString (trim (title st)));
          (str "status", JString (literal (status st)));
          (str "imageUrl", json_string (or_null (trim (posterUrl st)))) ] in
      payload <-
        match status st with
        | HAVE_WATCHED =>
            if negb (truthy_num_opt (rating st))
            then alert rating_required ;; return_
            else ret (payload ++
                      [ (str "rating", json_number (rating st));
                        (str "review", json_string (or_null (trim (review st)))) ])
        | PLAN_TO_WATCH => ret payload
        end ;;
      try_catch
        (setMoviesError None ;;
         res <- fetch (write_service world)
                  {| method := POST; url := API_BASE_URL ++ str "/movies";
                     headers := json_headers ++ [bearer token];
                     body := Some payload |} ;;
         (if Web.status res =? 401 then handleLogout ;; return_ else skip) ;;
         (if negb (ok res) then throw (http_error (Web.status res)) else skip) ;;
         setTitle [] ;;
         setStatus PLAN_TO_WATCH ;;
         setRating None ;;
         setReview [] ;;
         setPosterUrl [] ;;
         call fetchMovies)
        (fun err =>
           console_error err ;;
           setMoviesError (Some (nullish (message err) (str "Failed to add movie"))))
  end.

(** [async function updateMovieStatus(id, newStatus)]. *)
Definition updateMovieStatus (id : jsstring) (newStatus : Status) : M State unit :=
  st <- get ;;
  match present (sessionToken st) with
  | None =>
      setMoviesError (Some (str "Please log in first.")) ;;
      return_
  | Some token =>
      try_catch
        (setMoviesError None ;;
         target <- movie_url_of id ;;
         res <- fetch (write_service world)
                  {| method := PUT; url := target;
                     headers := json_headers ++ [bearer token];
                     body := Some [ (str "status", JString (literal newStatus)) ] |} ;;
         (if Web.status res =? 401 then handleLogout ;; return_ else skip) ;;
         (if negb (ok res) then throw (http_error (Web.status res)) else skip) ;;
         call fetchMovies)
        (fun err =>
           console_error err ;;
           setMoviesError (Some (nullish (message err) (str "Failed to update movie"))))
  end.

(** [async function markWatched(movie: Movie)]. *)
Definition markWatched (movie : Movie.t) : M State unit :=
  st <- get ;;
  match present (sessionToken st) with
  | None =>
      setMoviesError (Some (str "Please log in first.")) ;;
      return_
  | Some token =>
      try_catch
        (setMoviesError None ;;
         let ratingValue := Movie.rating movie in
         let reviewText := nullish (Movie.review movie) [] in
         ratingInput <-
           prompt world (rate_prompt (Movie.title movie))
             (match ratingValue with
              | Some r => if truthy_num r then NumberToString r else []
              | None => []
              end) ;;
         ratingValue <-
           match ratingInput with
           | Some input =>
               if negb (str_eqb (trim input) []) then
                 let parsed := StringToNumber (trim input) in
                 if negb (PrimFloat.is_nan parsed)
                    && (1 <=? parsed)%float && (parsed <=? 5)%float
                 then ret (Some parsed)
                 else alert invalid_rating ;; ret ratingValue
               else ret ratingValue
           | None => ret ratingValue
           end ;;
         reviewInput <- prompt world (review_prompt (Movie.title movie)) reviewText ;;
         let reviewText := nullish reviewInput reviewText in
         let body :=
           [ (str "status", JString (str "HAVE_WATCHED"));
             (str "rating", json_number ratingValue);
             (str "review", json_string (or_null (trim reviewText))) ] in
         target <- movie_url_of (Movie.id movie) ;;
         res <- fetch (write_service world)
                  {| method := PUT; url := target;
                     headers := json_headers ++ [bearer token];
                     body := Some body |} ;;
         (if Web.status res =? 401 then handleLogout ;; return_ else skip) ;;
         (if negb (ok res) then throw (http_error (Web.status res)) else skip) ;;
         call fetchMovies)
        (fun err =>
           console_error err ;;
           setMoviesError
             (Some (nullish (message err) (str "Failed to mark movie as watched"))))
  end.

(** [async function deleteMovie(id)]. *)
Definition deleteMovie (id : jsstring) : M State unit :=
  st <- get ;;
  match present (sessionToken st) with
  | None =>
      setMoviesError (Some (str "Please log in first.")) ;;
      return_
  | Some token =>
      confirmed <- confirm world (str "Delete this movie?") ;;
      if negb confirmed then return_
      else
        try_catch
          (setMoviesError None ;;
           target <- movie_url_of id ;;
           res <- fetch (write_service world)
                    {| method := DELETE; url := target;
                       headers := [bearer token]; body := None |} ;;
           (if Web.status res =? 401 then handleLogout ;; return_ else skip) ;;
           (if negb (ok res) && negb (Web.status res =? 204)
            then throw (http_error (Web.status res)) else skip) ;;
           call fetchMovies)
          (fun err =>
             console_error err ;;
             setMoviesError (Some (nullish (message err) (str "Failed to delete movie"))))
  end.

(** [const statusFiltered = filter === "ALL" ? movies : movies.filter(...)]. *)
Definition statusFiltered (movies : list Movie.t) (filter : Filter) : list Movie.t :=
  match filter with
  | ALL => movies
  | Only s => List.filter (fun m => str_eqb (Movie.status m) (literal s)) movies
  end.

(** [const filteredMovies = statusFiltered.filter((m) => ...)]. *)
Definition filteredMovies (movies : list Movie.t) (filter : Filter)
    (searchQuery : jsstring) : list Movie.t :=
  List.filter
    (fun m =>
       let q := toLowerCase (trim searchQuery) in
       if negb (truthy q) then true
       else
         let inTitle := includes (toLowerCase (Movie.title m)) q in
         let inStatus := includes (toLowerCase (Movie.status m)) q in
         let inReview := includes (toLowerCase (nullish (Movie.review m) [])) q in
         inTitle || inStatus || inReview)
    (statusFiltered movies filter).

(** The list the component displays. *)
Definition displayed (st : State) : list Movie.t :=
  filteredMovies (movies st) (filter st) (searchQuery st).

End Handlers.

End Account.

(** ** The entry / auth screen ([HomePage], src/app/page.tsx) *)

Module Home.

(** [type AuthMode = "login" | "register"]. *)
Inductive AuthMode := login | register.

(** The [useState] cells of the component; [authError] holds whatever
    [setAuthError] is given, which may be a value of the response body. *)
Record State := {
  authMode : AuthMode;
  username : jsstring;
  password : jsstring;
  authLoading : bool;
  authError : Value;
  infoMessage : option jsstring
}.

Definition initial : State :=
  {| authMode := login; username := []; password := []; authLoading := false;
     authError := VNull; infoMessage := None |}.

Definition setAuthMode (v : AuthMode) : M State unit :=
  modify (fun s =>
    {| authMode := v; username := username s; password := password s;
       authLoading := authLoading s; authError := authError s;
       infoMessage := infoMessage s |}).

Definition setAuthLoading (v : bool) : M State unit :=
  modify (fun s =>
    {| authMode := authMode s; username := username s; password := password s;
       authLoading := v; authError := authError s;
       infoMessage := infoMessage s |}).

Definition setAuthError (v : Value) : M State unit :=
  modify (fun s =>
    {| authMode := authMode s; username := username s; password := password s;
       authLoading := authLoading s; authError := v;
       infoMessage := infoMessage s |}).

Definition setInfoMessage (v : option jsstring) : M State unit :=
  modify (fun s =>
    {| authMode := authMode s; username := username s; password := password s;
       authLoading := authLoading s; authError := authError s;
       infoMessage := v |}).

Definition required_fields : jsstring := str "Username and password are required.".
Definition no_session_token : jsstring := str "No session token returned from server.".

Section Handlers.

Context {host : Host} (world : World).

(** The effect commented "If already logged in, go straight to /discover". *)
Definition redirectIfLoggedIn : M State unit :=
  token <- getItem mp_sessionToken ;;
  user <- getItem mp_username ;;
  if truthy_opt token && truthy_opt user
  then router_replace (str "/discover")
  else skip.

(** [data?.error]: [undefined] on [null]. *)
Definition data_error (data : Value) : Value :=
  match property data (str "error") with
  | Some v => v
  | None => VUndefined
  end.

(** [data.sessionToken]: reading a property of [null] throws. *)
Definition data_sessionToken (data : Value) : M State Value :=
  match property data (str "sessionToken") with
  | Some v => ret v
  | None => throw (nullPropertyError (str "sessionToken"))
  end.

(** [async function handleAuthSubmit(e)]. *)
Definition handleAuthSubmit : M State unit :=
  st <- get ;;
  setAuthError VNull ;;
  setInfoMessage None ;;
  let trimmedUser := trim (username st) in
  let trimmedPass := trim (password st) in
  if negb (truthy trimmedUser) || negb (truthy trimmedPass) then
    setAuthError (VString required_fields) ;;
    return_
  else
    try_catch_finally
      (setAuthLoading true ;;
       let path :=
         match authMode st with
         | login => str "/auth/login"
         | register => str "/auth/register"
         end in
       res <- fetch (auth_service world)
                {| method := POST; url := API_BASE_URL ++ path;
                   headers := json_headers;
                   body := Some [ (str "username", JString trimmedUser);
                                  (str "password", JString trimmedPass) ] |} ;;
       let data :=
         match json res with
         | inl _ => VObject []
         | inr d => d
         end in
       (if negb (ok res) then
          setAuthError
            (if truthy_value (data_error data) then data_error data
             else VString (match authMode st with
                           | login => str "Login failed"
                           | register => str "Registration failed"
                           end)) ;;
          return_
        else skip) ;;
       (match authMode st with
        | register =>
            setAuthMode login ;;
            setInfoMessage (Some (str "Account created. Please log in.")) ;;
            return_
        | login => skip
        end) ;;
       token <- data_sessionToken data ;;
       if negb (truthy_value token) then
         setAuthError (VString no_session_token) ;;
         return_
       else
         match to_string token with
         | None => throw conversionError
         | Some text =>
             setItem mp_sessionToken text ;;
             setItem mp_username trimmedUser ;;
             router_push (str "/discover")
         end)
      (fun err =>
         console_error err ;;
         setAuthError (VString (nullish (message err) (str "Auth error"))))
      (setAuthLoading false).

End Handlers.

End Home.

(** ** Reading the result of a run *)

Definition completion_of {S A} (r : Completion A * S * Browser) : Completion A := r.1.1.
Definition state_after {S A} (r : Completion A * S * Browser) : S := r.1.2.
Definition browser_after {S A} (r : Completion A * S * Browser) : Browser := r.2.
Definition log_of {S A} (r : Completion A * S * Browser) : list Effect :=
  effects (browser_after r).
Definition storage_after {S A} (r : Completion A * S * Browser) : gmap jsstring jsstring :=
  localStorage (browser_after r).

(** Some response of the log carried status 401. *)
Definition unauthorized (log : list Effect) : Prop :=
  exists req, In (Fetched req (Some 401)) log.

(** Both session slots are empty and the router is on the auth screen. *)
Definition logged_out (b : Browser) : Prop :=
  localStorage b !! mp_sessionToken = None
  /\ localStorage b !! mp_username = None
  /\ location (effects b) = Some (str "/").

(** ** The words of the specification *)

Module Spec.

(** [clamp(r, lo, hi)]. *)
Definition clamp (r lo hi : Z) : Z :=
  if (r <? lo)%Z then lo else if (hi <? r)%Z then hi else r.

(** [out] is [l] with exactly the elements satisfying [P] kept, in order. *)
Inductive filtered_by {A} (P : A -> Prop) : list A -> list A -> Prop :=
| filtered_nil : filtered_by P [] []
| filtered_keep x l out :
    P x -> filtered_by P l out -> filtered_by P (x :: l) (x :: out)
| filtered_drop x l out :
    ~ P x -> filtered_by P l out -> filtered_by P (x :: l) out.

(** The status filter: ALL keeps all; otherwise the record's status equals
    the selection. *)
Definition status_selected (f : Account.Filter) (m : Movie.t) : Prop :=
  match f with
  | Account.ALL => True
  | Account.Only s => Movie.status m = Account.literal s
  end.

(** [q] is a substring of [s]. *)
Definition substring (q s : jsstring) : Prop :=
  exists before after, s = before ++ q ++ after.

(** Case-insensitive substring match. *)
Definition occurs_in `{Host} (q s : jsstring) : Prop :=
  substring (toLowerCase q) (toLowerCase s).

(** The search: a blank trimmed query keeps all; otherwise the trimmed
    query occurs in the title, the status literal, or the review text, a
    missing review being the empty string. *)
Definition query_matches `{Host} (query : jsstring) (m : Movie.t) : Prop :=
  trim query = []
  \/ occurs_in (trim query) (Movie.title m)
  \/ occurs_in (trim query) (Movie.status m)
  \/ occurs_in (trim query) (match Movie.review m with Some r => r | None => [] end).

(** A number equal to 0: one of the two zeros. *)
Definition is_zero (x : float) : Prop := x = 0%float \/ x = (-0)%float.


End Spec.

(** ** The states a mounted discovery screen can be in

    One step is one of the component's effects or handlers run to its end,
    against any world and any content of the storage. *)

Section Reachability.

Context {host : Host}.

Inductive discover_step : Discover.State -> Discover.State -> Prop :=
| step_authGuard st ls :
    discover_step st (state_after (run Discover.authGuard st ls))
| step_fetchRatings w st ls :
    discover_step st (state_after (run (Discover.fetchRatings w) st ls))
| step_addToList w movie st ls :
    discover_step st (state_after (run (Discover.addToList w movie) st ls))
| step_markWatched w movie st ls :
    discover_step st (state_after (run (Discover.markWatched w movie) st ls)).

Inductive discover_reachable : Discover.State -> Prop :=
| reachable_initial : discover_reachable Discover.initial
| reachable_step st st' :
    discover_reachable st -> discover_step st st' -> discover_reachable st'.

End Reachability.

(** ** A host and a family of worlds to run the handlers on

    [sampleHost] agrees with a browser on what the examples below give it:
    ASCII strings to lower, decimal literals made of digits only (below
    2^53) to read, integers of at most 2^53 in magnitude to print, and
    well-formed strings to encode; its messages are those of V8. *)

Module Sample.

Fixpoint digits_value (acc : N) (s : jsstring) : option N :=
  match s with
  | [] => Some acc
  | c :: r =>
      if (48 <=? c) && (c <=? 57) then digits_value (10 * acc + (c - 48)) r
      else None
  end.

(** [Number(s)] for a string of decimal digits; [NaN] on other text. *)
Definition number_of_digits (s : jsstring) : float :=
  match s with
  | [] => 0%float
  | _ =>
      match digits_value 0 s with
      | Some n => PrimFloat.of_uint63 (Uint63.of_Z (Z.of_N n))
      | None => PrimFloat.nan
      end
  end.

(** [String(x)] for an integer of at most 2^53 in magnitude, for NaN and
    for the infinities; the empty string on other values. *)
Definition string_of_integral (x : float) : jsstring :=
  match integer_value x with
  | Some z => if (Z.abs z <=? 2 ^ 53)%Z then integer_text z else []
  | None =>
      match Prim2SF x with
      | S754_nan => str "NaN"
      | S754_infinity neg => if neg then str "-Infinity" else str "Infinity"
      | _ => []
      end
  end.

Lemma string_of_integral_integer (x : float) (z : Z) :
  integer_value x = Some z -> (Z.abs z <= 2 ^ 53)%Z ->
  string_of_integral x = integer_text z.
Proof.
  intros Hx Hz. unfold string_of_integral. rewrite Hx.
  destruct (Z.leb_spec (Z.abs z) (2 ^ 53)); [reflexivity | lia].
Qed.

Definition hex_digit (n : N) : N := if n <? 10 then 48 + n else 55 + n.

(** [A-Z a-z 0-9 - _ . ! ~ * ' ( )]. *)
Definition unreserved (c : N) : bool :=
  ((65 <=? c) && (c <=? 90)) || ((97 <=? c) && (c <=? 122))
  || ((48 <=? c) && (c <=? 57))
  || (c =? 45) || (c =? 95) || (c =? 46) || (c =? 33) || (c =? 126)
  || (c =? 42) || (c =? 39) || (c =? 40) || (c =? 41).

(** The escape of a byte: a percent sign and two hexadecimal digits. *)
Definition escape (byte : N) : jsstring :=
  [37; hex_digit (byte / 16); hex_digit (byte mod 16)].

(** The escapes of the UTF-8 bytes of a code point. *)
Definition escape_code_point (cp : N) : jsstring :=
  if cp <? 0x80 then escape cp
  else if cp <? 0x800 then
    escape (0xC0 + cp / 64) ++ escape (0x80 + cp mod 64)
  else if cp <? 0x10000 then
    escape (0xE0 + cp / 4096) ++ escape (0x80 + (cp / 64) mod 64)
    ++ escape (0x80 + cp mod 64)
  else
    escape (0xF0 + cp / 262144) ++ escape (0x80 + (cp / 4096) mod 64)
    ++ escape (0x80 + (cp / 64) mod 64) ++ escape (0x80 + cp mod 64).

(** [encodeURIComponent] on a well-formed string. *)
Fixpoint percent_encode (s : jsstring) : jsstring :=
  match s with
  | [] => []
  | c :: r =>
      if unreserved c then c :: percent_encode r
      else if is_lead c then
        match r with
        | d :: r' =>
            escape_code_point (0x10000 + (c - 0xD800) * 1024 + (d - 0xDC00))
            ++ percent_encode r'
        | [] => []
        end
      else escape_code_point c ++ percent_encode r
  end.

#[export] Instance sampleHost : Host := {|
  API_BASE_URL := str "https://api.example.test";
  toLowerCase := map ascii_lower;
  StringToNumber := number_of_digits;
  NumberToString := string_of_integral;
  encodeURIComponent := percent_encode;
  uriError := Error (str "URI malformed");
  conversionError := Error (str "Cannot convert object to primitive value");
  nullPropertyError := fun field =>
    Error (str "Cannot read properties of null (reading '" ++ field ++ str "')");
  toLowerCase_ascii := fun _ _ => eq_refl;
  NumberToString_integer := string_of_integral_integer
|}.

Fixpoint prompts_so_far (log : list Effect) : nat :=
  match log with
  | [] => O
  | Prompt _ _ _ :: rest => S (prompts_so_far rest)
  | _ :: rest => prompts_so_far rest
  end.

(** A world that gives every request of a kind the same outcome, answers
    the prompts from a list, in order, and every [confirm] alike. *)
Definition scripted (auth : Outcome Value) (writes : Outcome unit)
    (listing : Outcome (list Movie.t)) (summaries : Outcome (list RatingSummary.t))
    (answers : list (option jsstring)) (yes : bool) : World :=
  {| auth_service := fun _ _ => auth;
     movie_service := fun _ _ => listing;
     rating_service := fun _ _ => summaries;
     write_service := fun _ _ => writes;
     prompt_reply := fun log _ _ => List.nth (prompts_so_far log) answers None;
     confirm_reply := fun _ _ => yes |}.

(** A response with the given status and body. *)
Definition respond {A} (st : N) (a : A) : Outcome A :=
  Resolved {| status := st; json := inr a |}.

(** The service answers every request with status [st] and empty bodies. *)
Definition answering (st : N) (answers : list (option jsstring)) (yes : bool) : World :=
  scripted (respond st (VObject [])) (respond st tt) (respond st [])
    (respond st []) answers yes.

(** A stored session. *)
Definition session_storage : gmap jsstring jsstring :=
  <[mp_sessionToken := str "tok-1"]> (<[mp_username := str "ann"]> ∅).

Definition discover_logged_in : Discover.State :=
  {| Discover.sessionToken := Some (str "tok-1");
     Discover.currentUser := Some (str "ann");
     Discover.error := None; Discover.busyId := None; Discover.ratings := [] |}.

Definition account_logged_in : Account.State :=
  {| Account.sessionToken := Some (str "tok-1");
     Account.currentUser := Some (str "ann");
     Account.movies := []; Account.loadingMovies := false;
     Account.moviesError := None; Account.filter := Account.ALL;
     Account.title := str "Heat"; Account.status := Account.PLAN_TO_WATCH;
     Account.review := []; Account.rating := None;
     Account.posterUrl := []; Account.searchQuery := [] |}.

Definition inception : DiscoverMovie.t :=
  {| DiscoverMovie.id := str "disc-1";
     DiscoverMovie.title := str "Inception";
     DiscoverMovie.year := 2010;
     DiscoverMovie.genres := [str "Sci-Fi"; str "Thriller"];
     DiscoverMovie.description := [];
     DiscoverMovie.imageUrl := [] |}.

(** A watched record rated 3. *)
Definition rated_three : Movie.t :=
  {| Movie.id := str "m1"; Movie.title := str "Heat";
     Movie.status := str "HAVE_WATCHED"; Movie.review := Some (str "fine");
     Movie.rating := Some 3%float; Movie.imageUrl := None |}.

(** The two records of the specification's filtering example. *)
Definition movie_A (id : jsstring) : Movie.t :=
  {| Movie.id := id; Movie.title := str "A";
     Movie.status := str "PLAN_TO_WATCH"; Movie.review := None;
     Movie.rating := None; Movie.imageUrl := None |}.

Definition movie_B (id : jsstring) : Movie.t :=
  {| Movie.id := id; Movie.title := str "B";
     Movie.status := str "HAVE_WATCHED"; Movie.review := Some (str "great");
     Movie.rating := None; Movie.imageUrl := None |}.

(** The ratings response of the specification's badge example; the average
    is the double nearest to 4.3. *)
Definition inception_summary : RatingSummary.t :=
  {| RatingSummary.title := str "Inception";
     RatingSummary.averageRating := 0x1.1333333333333p+2%float;
     RatingSummary.roundedRating := 4%float;
     RatingSummary.ratingCount := 10%float |}.


End Sample.

(** ** Reading a request *)

(** The value a JSON body carries under a key. *)
Fixpoint assoc (key : jsstring) (fields : list (jsstring * Json)) : option Json :=
  match fields with
  | [] => None
  | (k, v) :: rest => if str_eqb k key then Some v else assoc key rest
  end.

Definition field (key : jsstring) (req : Request) : option Json :=
  match body req with
  | Some fields => assoc key fields
  | None => None
  end.

Section Requests.

Context {host : Host}.


Definition list_request (token : jsstring) : Request :=
  {| method := GET; url := API_BASE_URL ++ str "/movies";
     headers := [bearer token]; body := None |}.

End Requests.


(** ** What the account screen displays *)

Module AccountView.

Definition star : jsstring := [0x2605].
Definition hollow : jsstring := [0x2606].

(** [function renderStars(rating?: number | null)] of the account screen;
    [None] when a [repeat] throws. *)
Definition renderStars (rating : option float) : option jsstring :=
  match rating with
  | None => Some []
  | Some r =>
      if negb (truthy_num r) || (r <? 1)%float then Some []
      else
        full ← JSNumber.repeat_num star (JSNumber.math_min 5 r);
        empty ← JSNumber.repeat_num hollow (5 - JSNumber.math_min 5 r)%float;
        Some (full ++ empty)
  end.

(** What a card shows under the title. *)
Inductive Detail :=
| Watched (stars score review : jsstring)
| Planned (note : jsstring).

(** A card of the list, as the component returns it. *)
Record Card := {
  key : jsstring;
  poster : option jsstring;
  heading : jsstring;
  detail : Detail;
  pill : jsstring
}.

(** The list area of the screen. *)
Inductive Listing :=
| LoggedOut (note : jsstring)
| Records (loading : bool) (empty_note : bool) (cards : list Card).

(** What the component returns, styling apart. *)
Record View := {
  user_label : jsstring;
  count_label : jsstring;
  banner : option jsstring;
  show_form : bool;
  rating_fields : bool;
  search_hint : option jsstring;
  showing : jsstring;
  refresh_disabled : bool;
  listing : Listing
}.

Section Render.

Context {host : Host}.

(** [movie.rating ? `${movie.rating}/5` : "Not rated"]. *)
Definition score_text (rating : option float) : jsstring :=
  match rating with
  | Some r => if truthy_num r then NumberToString r ++ str "/5" else str "Not rated"
  | None => str "Not rated"
  end.

(** The body of [filteredMovies.map((movie) => ...)]. *)
Definition render_card (movie : Movie.t) : option Card :=
  let watched := str_eqb (Movie.status movie) (str "HAVE_WATCHED") in
  d ← (if watched then
         s ← renderStars (Movie.rating movie);
         Some (Watched s (score_text (Movie.rating movie))
                 (or_else (Movie.review movie) (str "No written review yet.")))
       else Some (Planned (str "Planned watch. No review yet.")));
  Some {| key := Movie.id movie;
          poster := present (Movie.imageUrl movie);
          heading := Movie.title movie;
          detail := d;
          pill := if watched then str "Have Watched" else str "Plan to Watch" |}.

(** [`${n}`] for the length of a list. *)
Definition count_text {A} (l : list A) : jsstring := of_N (N.of_nat (length l)).

Definition render (st : Account.State) : option View :=
  let filtered := Account.displayed st in
  l ← (if truthy_opt (Account.currentUser st) then
         cs ← mapM render_card filtered;
         Some (Records (Account.loadingMovies st)
                 (negb (Account.loadingMovies st)
                  && bool_decide (length filtered = 0%nat))
                 cs)
       else Some (LoggedOut (str "Log in to see your movies.")));
  Some {| user_label :=
            if truthy_opt (Account.currentUser st)
            then str "Logged in as " ++ nullish (Account.currentUser st) []
            else str "Loading...";
          count_label :=
            if Account.loadingMovies st then str "Loading..."
            else count_text (Account.movies st) ++ str " for this user";
          banner := present (Account.moviesError st);
          show_form := truthy_opt (Account.currentUser st);
          rating_fields :=
            match Account.status st with
            | Account.HAVE_WATCHED => true
            | Account.PLAN_TO_WATCH => false
            end;
          search_hint :=
            if truthy (trim (Account.searchQuery st))
            then Some (str "Showing results for " ++ quote
                       ++ Account.searchQuery st ++ quote)
            else None;
          showing :=
            str "Showing " ++ count_text filtered ++ str " of "
            ++ count_text (Account.movies st) ++ str " movies";
          refresh_disabled := negb (truthy_opt (Account.sessionToken st));
          listing := l |}.

End Render.

End AccountView.

(** ** What the auth screen displays *)

Module HomeView.

(** [{authError && (<div>{authError}</div>)}]: the banner around a truthy
    value; a falsy one is itself the child, of which React prints a number
    and nothing else. *)
Inductive ErrorSlot :=
| Banner (child : Value)
| Bare (x : float)
| NoError.

(** The title, the banners, the submit button and the toggle under the
    form. *)
Record View := {
  title : jsstring;
  error_banner : ErrorSlot;
  info_banner : option jsstring;
  submit_disabled : bool;
  submit_label : jsstring;
  toggle_label : jsstring
}.

Definition render (st : Home.State) : View :=
  {| title :=
       match Home.authMode st with
       | Home.login => str "Log in"
       | Home.register => str "Create an account"
       end;
     error_banner :=
       if truthy_value (Home.authError st) then Banner (Home.authError st)
       else match Home.authError st with
            | VNumber x => Bare x
            | _ => NoError
            end;
     info_banner := present (Home.infoMessage st);
     submit_disabled := Home.authLoading st;
     submit_label :=
       if Home.authLoading st then
         match Home.authMode st with
         | Home.login => str "Logging in..."
         | Home.register => str "Registering..."
         end
       else
         match Home.authMode st with
         | Home.login => str "Log in"
         | Home.register => str "Register"
         end;
     toggle_label :=
       match Home.authMode st with
       | Home.login => str "Need an account? Create one"
       | Home.register => str "Already have an account? Log in"
       end |}.

End HomeView.

(** ** The requests of the handlers, by their parts *)

Section MoreRequests.

Context {host : Host}.

(** The request [handleAuthSubmit] sends from a state. *)
Definition auth_request (st : Home.State) : Request :=
  {| method := POST;
     url := API_BASE_URL
            ++ match Home.authMode st with
               | Home.login => str "/auth/login"
               | Home.register => str "/auth/register"
               end;
     headers := json_headers;
     body := Some [ (str "username", JString (trim (Home.username st)));
                    (str "password", JString (trim (Home.password st))) ] |}.

(** A POST of a new record, as both screens send it. *)
Definition create_request (token : jsstring) (fields : list (jsstring * Json))
  : Request :=
  {| method := POST; url := API_BASE_URL ++ str "/movies";
     headers := json_headers ++ [bearer token];
     body := Some fields |}.

(** The unauthenticated GET of the global summaries. *)
Definition ratings_request : Request :=
  {| method := GET; url := API_BASE_URL ++ str "/ratings";
     headers := []; body := None |}.

(** A PUT on a record, as the account screen sends it. *)
Definition update_request (token id : jsstring) (fields : list (jsstring * Json))
  : Request :=
  {| method := PUT; url := Account.movie_url id;
     headers := json_headers ++ [bearer token];
     body := Some fields |}.

End MoreRequests.

(** A discovery state after an action was refused for want of a session. *)
Definition discover_refused (st : Discover.State) : Discover.State :=
  {| Discover.sessionToken := Discover.sessionToken st;
     Discover.currentUser := Discover.currentUser st;
     Discover.error := Some (str "Please log in again.");
     Discover.busyId := Discover.busyId st;
     Discover.ratings := Discover.ratings st |}.

(** An account state after an action was refused for want of a session. *)
Definition account_refused (st : Account.State) : Account.State :=
  {| Account.sessionToken := Account.sessionToken st;
     Account.currentUser := Account.currentUser st;
     Account.movies := Account.movies st;
     Account.loadingMovies := Account.loadingMovies st;
     Account.moviesError := Some (str "Please log in first.");
     Account.filter := Account.filter st;
     Account.title := Account.title st;
     Account.status := Account.status st;
     Account.review := Account.review st;
     Account.rating := Account.rating st;
     Account.posterUrl := Account.posterUrl st;
     Account.searchQuery := Account.searchQuery st |}.

(** The keys of a JSON body, in order. *)
Definition keys (req : Request) : list jsstring :=
  match body req with
  | Some fields => map fst fields
  | None => []
  end.

(** The prompts of a log, in order: message, default and reply. *)
Fixpoint prompts (log : list Effect) : list (jsstring * jsstring * option jsstring) :=
  match log with
  | [] => []
  | Prompt msg default reply :: rest => (msg, default, reply) :: prompts rest
  | _ :: rest => prompts rest
  end.

(** The alerts of a log, in order. *)
Fixpoint alerts (log : list Effect) : list jsstring :=
  match log with
  | [] => []
  | Alert msg :: rest => msg :: alerts rest
  | _ :: rest => alerts rest
  end.

(** The navigations of a log, in order. *)
Fixpoint navigations (log : list Effect) : list (NavKind * jsstring) :=
  match log with
  | [] => []
  | Navigate kind path :: rest => (kind, path) :: navigations rest
  | _ :: rest => navigations rest
  end.

(** ** More states and worlds to run the handlers on *)

Module Cases.

(** The auth form filled in by ann, in either mode. *)
Definition ann (mode : Home.AuthMode) : Home.State :=
  {| Home.authMode := mode; Home.username := str " ann ";
     Home.password := str "secret"; Home.authLoading := false;
     Home.authError := VNull; Home.infoMessage := None |}.

(** A world whose auth endpoint gives the same answer every time. *)
Definition auth_answering (st : N) (data : Value) : World :=
  Sample.scripted (Sample.respond st data) (Sample.respond 200 tt)
    (Sample.respond 200 []) (Sample.respond 200 []) [] true.

(** A world whose every request fails in transport. *)
Definition offline (answers : list (option jsstring)) : World :=
  Sample.scripted (Rejected (Error (str "Failed to fetch")))
    (Rejected (Error (str "Failed to fetch")))
    (Rejected (Error (str "Failed to fetch")))
    (Rejected (Error (str "Failed to fetch"))) answers true.

(** A logged-in discovery screen while the second card is busy. *)
Definition second_card_busy : Discover.State :=
  {| Discover.sessionToken := Some (str "tok-1");
     Discover.currentUser := Some (str "ann");
     Discover.error := None; Discover.busyId := Some (str "disc-2");
     Discover.ratings := [Sample.inception_summary] |}.

(** A storage with a session and a key of another application. *)
Definition shared_storage : gmap jsstring jsstring :=
  <[str "theme" := str "dark"]> Sample.session_storage.

(** The account form filled in for a watched movie, rated 4. *)
Definition watched_form : Account.State :=
  {| Account.sessionToken := Some (str "tok-1");
     Account.currentUser := Some (str "ann");
     Account.movies := [Sample.rated_three]; Account.loadingMovies := false;
     Account.moviesError := None; Account.filter := Account.ALL;
     Account.title := str " Heat "; Account.status := Account.HAVE_WATCHED;
     Account.review := str " tense "; Account.rating := Some 4%float;
     Account.posterUrl := str "  "; Account.searchQuery := [] |}.

(** The same form switched back to a planned movie, the rating and the
    review still in their cells. *)
Definition planned_form : Account.State :=
  {| Account.sessionToken := Some (str "tok-1");
     Account.currentUser := Some (str "ann");
     Account.movies := [Sample.rated_three]; Account.loadingMovies := false;
     Account.moviesError := None; Account.filter := Account.ALL;
     Account.title := str " Heat "; Account.status := Account.PLAN_TO_WATCH;
     Account.review := str " tense "; Account.rating := Some 4%float;
     Account.posterUrl := str "  "; Account.searchQuery := [] |}.

(** The account screen with one record cached and a search that finds
    none. *)
Definition searching : Account.State :=
  {| Account.sessionToken := Some (str "tok-1");
     Account.currentUser := Some (str "ann");
     Account.movies := [Sample.rated_three]; Account.loadingMovies := false;
     Account.moviesError := None; Account.filter := Account.ALL;
     Account.title := []; Account.status := Account.PLAN_TO_WATCH;
     Account.review := []; Account.rating := None;
     Account.posterUrl := []; Account.searchQuery := str "zzz" |}.



(** A record whose status is neither of the two literals. *)
Definition odd_status : Movie.t :=
  {| Movie.id := str "m9"; Movie.title := str "Ran";
     Movie.status := str "DROPPED"; Movie.review := Some (str "long");
     Movie.rating := Some 4%float; Movie.imageUrl := None |}.

End Cases.

(** The fields the create form sends for a planned movie. *)
Definition planned_fields (st : Account.State) : list (jsstring * Json) :=
  [ (str "title", JString (trim (Account.title st)));
    (str "status", JString (str "PLAN_TO_WATCH"));
    (str "imageUrl", json_string (or_null (trim (Account.posterUrl st)))) ].

(** The fields the create form sends for a watched movie rated [x]. *)
Definition watched_fields (st : Account.State) (x : float) : list (jsstring * Json) :=
  [ (str "title", JString (trim (Account.title st)));
    (str "status", JString (str "HAVE_WATCHED"));
    (str "imageUrl", json_string (or_null (trim (Account.posterUrl st))));
    (str "rating", JNumber x);
    (str "review", json_string (or_null (trim (Account.review st)))) ].

(** Two account states with the same session, filters and form cells:
    they may differ in the cached list, the loading flag and the error. *)
Definition same_form (a b : Account.State) : Prop :=
  Account.sessionToken a = Account.sessionToken b
  /\ Account.currentUser a = Account.currentUser b
  /\ Account.filter a = Account.filter b
  /\ Account.title a = Account.title b
  /\ Account.status a = Account.status b
  /\ Account.review a = Account.review b
  /\ Account.rating a = Account.rating b
  /\ Account.posterUrl a = Account.posterUrl b
  /\ Account.searchQuery a = Account.searchQuery b.

(** The form of the create panel is back to its defaults. *)
Definition form_reset (a : Account.State) : Prop :=
  Account.title a = []
  /\ Account.status a = Account.PLAN_TO_WATCH
  /\ Account.rating a = None
  /\ Account.review a = []
  /\ Account.posterUrl a = [].

(** The request presents the non-empty session token of the state. *)
Definition authorized_by (token : option jsstring) (req : Request) : Prop :=
  exists t, present token = Some t /\ In (bearer t) (headers req).

(** The list held now was the parsed body of a success response to the
    authenticated list request. *)
Definition refetched `{Host} (w : World) (token : option jsstring)
    (now : list Movie.t) : Prop :=
  exists log t res,
    present token = Some t
    /\ movie_service w log (list_request t) = Resolved res
    /\ ok res = true
    /\ json res = inr now.

(** A rating a mark-watched flow has validated: a number from 1 to 5. *)
Definition in_range (x : float) : Prop :=
  PrimFloat.is_nan x = false
  /\ (1 <=? x)%float = true
  /\ (x <=? 5)%float = true.

(** ** Running a handler symbolically *)

Arguments str : simpl never.

Ltac unfold_monad :=
  unfold log_of, storage_after in *;
  unfold run, completion_of, state_after, browser_after, try_catch in *;
  unfold try_catch_finally, call, router_push, router_replace, alert,
    console_error, skip, res_json in *;
  unfold bind, ret, return_, throw, get, modify, emit, history, getItem,
    setItem, removeItem, prompt, confirm, fetch, fresh in *.

Ltac unfold_discover :=
  unfold Discover.addToList, Discover.markWatched, Discover.authGuard,
    Discover.fetchRatings in *;
  unfold Discover.handleLogout, Discover.setSessionToken,
    Discover.setCurrentUser, Discover.setError, Discover.setBusyId,
    Discover.setRatings in *.

Ltac unfold_account :=
  unfold Account.handleAddMovie, Account.updateMovieStatus, Account.markWatched,
    Account.deleteMovie, Account.fetchOnSession in *;
  unfold Account.fetchMovies, Account.authGuard, Account.movie_url_of in *;
  unfold Account.handleLogout, Account.setSessionToken,
    Account.setCurrentUser, Account.setMovies, Account.setLoadingMovies,
    Account.setMoviesError, Account.setTitle, Account.setStatus,
    Account.setReview, Account.setRating, Account.setPosterUrl in *.

Ltac unfold_home :=
  unfold Home.handleAuthSubmit, Home.redirectIfLoggedIn in *;
  unfold Home.data_sessionToken, Home.data_error, Home.setAuthMode,
    Home.setAuthLoading, Home.setAuthError, Home.setInfoMessage in *.

(** Splits on an innermost scrutinee the goal is stuck on. *)
Ltac split_step :=
  match goal with
  | |- context [match ?x with _ => _ end] =>
      lazymatch x with
      | context [match _ with _ => _ end] => fail
      | _ => destruct x eqn:?
      end
  end.

(** Unfolds the handler in the goal and follows every path through it. *)
Ltac exec :=
  unfold_discover; unfold_account; unfold_home; unfold_monad;
  cbn -[str of_N];
  repeat (split_step; cbn -[str of_N]).

(** * Verification *)

(** ** Numbers *)

Lemma is_nan_spec (x : float) :
  PrimFloat.is_nan x = match Prim2SF x with S754_nan => true | _ => false end.
Proof.
  unfold PrimFloat.is_nan. rewrite FloatAxioms.eqb_spec.
  destruct (Prim2SF x) as [s|s| |s m e]; try destruct s; try reflexivity.
  all: unfold SFeqb, SFcompare; rewrite Z.compare_refl, Pos.compare_cont_refl;
    reflexivity.
Qed.

Lemma is_zero_spec (x : float) :
  PrimFloat.is_zero x = match Prim2SF x with S754_zero _ => true | _ => false end.
Proof.
  unfold PrimFloat.is_zero. rewrite FloatAxioms.eqb_spec.
  change (Prim2SF zero) with (S754_zero false).
  destruct (Prim2SF x) as [s|s| |s m e]; try destruct s; reflexivity.
Qed.



(** Below zero, or not a number: the comparison with zero fails. *)
Lemma nan_not_zero : (PrimFloat.nan =? 0)%float = false.
Proof. reflexivity. Qed.

(** *** Comparing numbers *)

Lemma SFcompare_swap (a b : spec_float) :
  SFcompare b a = option_map CompOpp (SFcompare a b).
Proof.
  destruct a as [s|s| |s m e], b as [t|t| |t n f];
    try destruct s; try destruct t; try reflexivity; simpl.
  all: rewrite (Z.compare_antisym e f); destruct (e ?= f)%Z; simpl;
    try reflexivity.
  all: f_equal; change Eq with (CompOpp Eq) at 1;
    rewrite <- Pos.compare_cont_antisym; simpl;
    try rewrite CompOpp_involutive; reflexivity.
Qed.

Lemma SFcompare_defined (a b : spec_float) :
  a <> S754_nan -> b <> S754_nan -> exists c, SFcompare a b = Some c.
Proof.
  intros Ha Hb.
  destruct a as [s|s| |s m e], b as [t|t| |t n f];
    try congruence; simpl; eexists; reflexivity.
Qed.

Lemma not_nan_spec (x : float) : PrimFloat.is_nan x = false -> Prim2SF x <> S754_nan.
Proof. rewrite is_nan_spec. intros H E. rewrite E in H. discriminate. Qed.

(** Of two numbers, the first not below the second is at least the
    second. *)
Lemma leb_of_not_ltb (a b : float) :
  PrimFloat.is_nan a = false -> PrimFloat.is_nan b = false ->
  (a <? b)%float = false -> (b <=? a)%float = true.
Proof.
  intros Ha Hb. rewrite FloatAxioms.ltb_spec, FloatAxioms.leb_spec.
  unfold SFltb, SFleb. rewrite (SFcompare_swap (Prim2SF a) (Prim2SF b)).
  destruct (SFcompare_defined _ _ (not_nan_spec a Ha) (not_nan_spec b Hb))
    as [c ->].
  destruct c; simpl; congruence.
Qed.

Lemma leb_of_ltb (a b : float) : (a <? b)%float = true -> (a <=? b)%float = true.
Proof.
  rewrite FloatAxioms.ltb_spec, FloatAxioms.leb_spec. unfold SFltb, SFleb.
  destruct (SFcompare _ _) as [[| |]|]; congruence.
Qed.

Lemma ltb_not_nan (a b : float) :
  (a <? b)%float = true -> PrimFloat.is_nan a = false /\ PrimFloat.is_nan b = false.
Proof.
  rewrite FloatAxioms.ltb_spec, !is_nan_spec. unfold SFltb.
  destruct (Prim2SF a) as [s|s| |s m e], (Prim2SF b) as [t|t| |t n f];
    simpl; try discriminate; auto.
Qed.

(** *** The mantissa of a number *)

Lemma digits2_pos_size (p : positive) : digits2_pos p = Pos.size p.
Proof. induction p; simpl; congruence. Qed.

Lemma digits2_pos_log2 (p : positive) :
  Z.pos (digits2_pos p) = Z.succ (Z.log2 (Z.pos p)).
Proof.
  rewrite digits2_pos_size.
  destruct p; simpl; try reflexivity; rewrite Pos2Z.inj_succ; reflexivity.
Qed.

Lemma digits2_pos_le (p : positive) (k : Z) :
  (Z.pos p < 2 ^ k)%Z -> (Z.pos (digits2_pos p) <= k)%Z.
Proof.
  intros H. rewrite digits2_pos_log2.
  assert (Hk : (0 <= k)%Z).
  { destruct (Z.le_gt_cases 0 k) as [?|Hneg]; [assumption|].
    rewrite (Z.pow_neg_r 2 k) in H by lia. lia. }
  apply Z.log2_lt_pow2 in H; lia.
Qed.

Lemma digits2_pos_lt (p : positive) : (Z.pos p < 2 ^ Z.pos (digits2_pos p))%Z.
Proof.
  rewrite digits2_pos_log2.
  apply (Z.log2_spec (Z.pos p)). lia.
Qed.

Lemma Zdigits2_le (m k : Z) :
  (0 <= m < 2 ^ k)%Z -> (0 <= k)%Z -> (Zdigits2 m <= k)%Z.
Proof.
  intros [H0 H1] Hk. destruct m as [|p|p]; simpl; [assumption| |lia].
  now apply digits2_pos_le.
Qed.

Lemma iter_xO (m d : positive) :
  Z.pos (Pos.iter xO m d) = (Z.pos m * 2 ^ Z.pos d)%Z.
Proof.
  induction d as [|d IH] using Pos.peano_ind.
  - simpl. lia.
  - rewrite Pos.iter_succ, Pos2Z.inj_succ, Z.pow_succ_r by lia.
    rewrite Pos2Z.inj_xO, IH. lia.
Qed.

(** The mantissa of a binary64 number has at most 53 binary digits, and
    its exponent lies between those of the format. *)
Lemma valid_finite (x : float) (s : bool) (m : positive) (e : Z) :
  Prim2SF x = S754_finite s m e ->
  (Z.pos m < 2 ^ 53)%Z /\ (-1074 <= e <= 971)%Z.
Proof.
  intros E. pose proof (FloatAxioms.Prim2SF_valid x) as V. rewrite E in V.
  unfold SpecFloat.valid_binary, bounded, canonical_mantissa, fexp in V.
  apply andb_prop in V as [C B].
  apply Z.eqb_eq in C. apply Z.leb_le in B.
  change (SpecFloat.emin prec emax) with (-1074)%Z in C.
  change prec with 53%Z in *. change emax with 1024%Z in *.
  pose proof (digits2_pos_lt m) as D.
  assert (Hd : (Z.pos (digits2_pos m) <= 53)%Z) by lia.
  split; [|lia].
  eapply Z.lt_le_trans; [exact D|]. apply Z.pow_le_mono_r; lia.
Qed.

(** The mantissa of a binary64 number has all its 53 digits unless the
    exponent is the least one. *)
Lemma valid_digits (x : float) (s : bool) (m : positive) (e : Z) :
  Prim2SF x = S754_finite s m e ->
  (2 ^ 52 <= Z.pos m)%Z \/ e = (-1074)%Z.
Proof.
  intros E. pose proof (FloatAxioms.Prim2SF_valid x) as V. rewrite E in V.
  unfold SpecFloat.valid_binary, bounded, canonical_mantissa, fexp in V.
  apply andb_prop in V as [C _]. apply Z.eqb_eq in C.
  change (SpecFloat.emin prec emax) with (-1074)%Z in C.
  change prec with 53%Z in *.
  destruct (Z.eq_dec e (-1074)%Z) as [He|He]; [now right|left].
  assert (Hd : Z.pos (digits2_pos m) = 53%Z) by lia.
  rewrite digits2_pos_log2 in Hd.
  pose proof (Z.log2_spec (Z.pos m) ltac:(lia)) as [Hlo _].
  replace (Z.log2 (Z.pos m)) with 52%Z in Hlo by lia. exact Hlo.
Qed.

(** *** Rounding a non-negative integer *)

Lemma shr_1_bound (r : shr_record) :
  (0 <= shr_m r)%Z -> (0 <= shr_m (shr_1 r) <= shr_m r)%Z.
Proof.
  destruct r as [m b c]. destruct m as [|[p|p|]|p]; simpl; lia.
Qed.

Lemma iter_shr_1_bound (p : positive) :
  forall r, (0 <= shr_m r)%Z -> (0 <= shr_m (SpecFloat.iter_pos shr_1 p r) <= shr_m r)%Z.
Proof.
  induction p as [p IH|p IH|]; intros r Hr; simpl.
  - pose proof (shr_1_bound r Hr) as H1.
    pose proof (IH _ (proj1 H1)) as H2.
    pose proof (IH _ (proj1 H2)) as H3. lia.
  - pose proof (IH _ Hr) as H2.
    pose proof (IH _ (proj1 H2)) as H3. lia.
  - apply shr_1_bound, Hr.
Qed.

Lemma shr_record_of_loc_m (m : Z) (l : SpecFloat.location) : shr_m (shr_record_of_loc m l) = m.
Proof. destruct l as [|[| |]]; reflexivity. Qed.

Lemma shr_fexp_bound (m e : Z) (l : SpecFloat.location) (k : Z) :
  (0 <= m < 2 ^ k)%Z -> (53 <= k)%Z -> (-1074 <= e)%Z ->
  (0 <= shr_m (shr_fexp prec emax m e l).1 <= m)%Z
  /\ (e <= (shr_fexp prec emax m e l).2 <= e + (k - 53))%Z.
Proof.
  intros Hm Hk He. unfold shr_fexp, shr, fexp.
  change (SpecFloat.emin prec emax) with (-1074)%Z. change prec with 53%Z.
  pose proof (Zdigits2_le m k Hm ltac:(lia)) as Hd.
  destruct (Z.max (Zdigits2 m + e - 53) (-1074) - e)%Z as [|p|p] eqn:En; simpl.
  - rewrite shr_record_of_loc_m. lia.
  - pose proof (iter_shr_1_bound p (shr_record_of_loc m l)) as Hi.
    rewrite shr_record_of_loc_m in Hi. specialize (Hi (proj1 Hm)). lia.
  - rewrite shr_record_of_loc_m. lia.
Qed.

Lemma round_nearest_even_bound (m : Z) (l : SpecFloat.location) :
  (m <= round_nearest_even m l <= m + 1)%Z.
Proof.
  unfold round_nearest_even. destruct l as [|[| |]]; try lia.
  destruct (Z.even m); lia.
Qed.

(** Rounding a positive integer scaled by a moderate power of two gives a
    zero or a positive finite number. *)
Lemma binary_round_aux_positive (m : positive) (e : Z) :
  (Z.pos m < 2 ^ 56)%Z -> (-1074 <= e <= 900)%Z ->
  match binary_round_aux prec emax false (Z.pos m) e loc_Exact with
  | S754_zero false => True
  | S754_finite false _ _ => True
  | _ => False
  end.
Proof.
  intros Hm He. unfold binary_round_aux.
  pose proof (shr_fexp_bound (Z.pos m) e loc_Exact 56 ltac:(lia) ltac:(lia) ltac:(lia))
    as [H1 H2].
  destruct (shr_fexp prec emax (Z.pos m) e loc_Exact) as [r1 e1]. simpl in H1, H2.
  pose proof (round_nearest_even_bound (shr_m r1) (loc_of_shr_record r1)) as Hr.
  set (m1 := round_nearest_even (shr_m r1) (loc_of_shr_record r1)) in *.
  assert (Hm1 : (0 <= m1 < 2 ^ 57)%Z).
  { change (2 ^ 57)%Z with (2 * 2 ^ 56)%Z. lia. }
  pose proof (shr_fexp_bound m1 e1 loc_Exact 57 Hm1 ltac:(lia) ltac:(lia))
    as [H3 H4].
  destruct (shr_fexp prec emax m1 e1 loc_Exact) as [r2 e2]. simpl in H3, H4.
  destruct (shr_m r2) as [|p|p]; [exact I| |lia].
  change (emax - prec)%Z with 971%Z.
  destruct (Z.leb_spec e2 971); [exact I | lia].
Qed.

Lemma binary_normalize_nonnegative (d e : Z) :
  (0 <= d < 2 ^ 56)%Z -> (-1074 <= e <= 900)%Z ->
  match binary_normalize prec emax d e false with
  | S754_zero false => True
  | S754_finite false _ _ => True
  | _ => False
  end.
Proof.
  intros Hd He. destruct d as [|p|p]; [exact I| |lia].
  unfold binary_normalize, binary_round, shl_align, fexp.
  change (SpecFloat.emin prec emax) with (-1074)%Z. change prec with 53%Z.
  pose proof (digits2_pos_lt p) as Hp.
  destruct (Z.max (Z.pos (digits2_pos p) + e - 53) (-1074) - e)%Z as [|q|q] eqn:En.
  - apply (binary_round_aux_positive p e); lia.
  - apply (binary_round_aux_positive p e); lia.
  - apply binary_round_aux_positive; [|lia].
    rewrite iter_xO.
    assert (Hq : (Z.pos (digits2_pos p) + Z.pos q <= 53)%Z) by lia.
    apply Z.lt_le_trans with (2 ^ Z.pos (digits2_pos p) * 2 ^ Z.pos q)%Z.
    + apply Z.mul_lt_mono_pos_r; [apply Z.pow_pos_nonneg; lia | exact Hp].
    + rewrite <- Z.pow_add_r by lia. apply Z.pow_le_mono_r; lia.
Qed.

(** *** Numbers from 1 to 5 *)

Lemma one_spec : Prim2SF 1 = S754_finite false 4503599627370496 (-52).
Proof. reflexivity. Qed.

Lemma five_spec : Prim2SF 5 = S754_finite false 5629499534213120 (-50).
Proof. reflexivity. Qed.

(** A number from 1 to 5 is positive and finite, with an exponent of the
    three that such numbers have. *)
Lemma between_one_and_five (x : float) :
  (1 <=? x)%float = true -> (x <=? 5)%float = true ->
  exists m e,
    Prim2SF x = S754_finite false m e
    /\ (-52 <= e <= -50)%Z
    /\ (2 ^ 52 <= Z.pos m < 2 ^ 53)%Z
    /\ (e = (-50)%Z -> Z.pos m <= 5629499534213120)%Z.
Proof.
  rewrite !FloatAxioms.leb_spec, one_spec, five_spec. intros H1 H5.
  destruct (Prim2SF x) as [s|s| |s m e] eqn:E;
    try destruct s; try discriminate.
  exists m, e. split; [reflexivity|].
  destruct (valid_finite x _ _ _ E) as [Hm _].
  unfold SFleb, SFcompare in H1, H5.
  assert (Hlow : (-52 <= e)%Z).
  { destruct (Z.compare_spec (-52) e) as [He|He|He]; [| |discriminate H1];
      clear H1 H5; lia. }
  assert (Hhigh : (e <= -50)%Z).
  { destruct (Z.compare_spec e (-50)) as [He|He|He]; [| |discriminate H5];
      clear H1 H5; lia. }
  split; [split; assumption|]. split.
  { split; [|exact Hm].
    destruct (valid_digits x _ _ _ E) as [Hfull|Hmin]; [exact Hfull | lia]. }
  intros He. clear H1. rewrite He, Z.compare_refl, Pos.compare_cont_spec in H5.
  destruct (Pos.compare_spec m 5629499534213120) as [Hc|Hc|Hc];
    [| |discriminate H5].
  - rewrite Hc. apply Z.le_refl.
  - apply Z.lt_le_incl, Pos2Z.pos_lt_pos, Hc.
Qed.

(** Truncating a number from 1 to 5 gives an integer from 1 to 5. *)
Lemma truncated_between (x : float) :
  (1 <=? x)%float = true -> (x <=? 5)%float = true ->
  exists n, (1 <= n <= 5)%Z /\ JSNumber.toIntegerOrInfinity x = JSNumber.Finite n.
Proof.
  intros H1 H5.
  destruct (between_one_and_five x H1 H5) as [m [e [E [He [Hm Hfive]]]]].
  unfold JSNumber.toIntegerOrInfinity. rewrite E.
  eexists. split; [|reflexivity].
  assert (Hcases : e = (-52)%Z \/ e = (-51)%Z \/ e = (-50)%Z) by lia.
  destruct Hcases as [-> | [-> | ->]].
  - change (2 ^ Z.pos 52)%Z with 4503599627370496%Z.
    change (2 ^ 52)%Z with 4503599627370496%Z in Hm.
    change (2 ^ 53)%Z with 9007199254740992%Z in Hm.
    split; [apply Z.div_le_lower_bound; lia|].
    apply Z.lt_succ_r. apply Z.div_lt_upper_bound; lia.
  - change (2 ^ Z.pos 51)%Z with 2251799813685248%Z.
    change (2 ^ 52)%Z with 4503599627370496%Z in Hm.
    change (2 ^ 53)%Z with 9007199254740992%Z in Hm.
    split; [apply Z.div_le_lower_bound; lia|].
    apply Z.lt_succ_r. apply Z.div_lt_upper_bound; lia.
  - specialize (Hfive eq_refl).
    change (2 ^ Z.pos 50)%Z with 1125899906842624%Z.
    change (2 ^ 52)%Z with 4503599627370496%Z in Hm.
    split; [apply Z.div_le_lower_bound; lia|].
    apply Z.div_le_upper_bound; lia.
Qed.

Lemma finite_nonnegative (r : spec_float) :
  match r with
  | S754_zero false => True
  | S754_finite false _ _ => True
  | _ => False
  end ->
  exists n,
    (0 <= n)%Z
    /\ match r with
       | S754_nan => JSNumber.Finite 0
       | S754_zero _ => JSNumber.Finite 0
       | S754_infinity neg =>
           if neg then JSNumber.MinusInfinity else JSNumber.PlusInfinity
       | S754_finite neg m e =>
           JSNumber.Finite
             (if neg
              then (- match e with
                      | Z.neg p => (Z.pos m / 2 ^ Z.pos p)%Z
                      | _ => (Z.pos m * 2 ^ e)%Z
                      end)%Z
              else match e with
                   | Z.neg p => (Z.pos m / 2 ^ Z.pos p)%Z
                   | _ => (Z.pos m * 2 ^ e)%Z
                   end)
       end = JSNumber.Finite n.
Proof.
  destruct r as [s|s| |s m e]; try destruct s; try contradiction; intros _.
  - exists 0%Z. split; [lia | reflexivity].
  - eexists. split; [|reflexivity].
    destruct e as [|p|p]; [lia|lia|]. apply Z.div_pos; lia.
Qed.

(** Five minus a number from 1 to 5, truncated, is an integer that is not
    negative. *)
Lemma five_minus_between (x : float) :
  (1 <=? x)%float = true -> (x <=? 5)%float = true ->
  exists n, (0 <= n)%Z /\ JSNumber.toIntegerOrInfinity (5 - x) = JSNumber.Finite n.
Proof.
  intros H1 H5.
  destruct (between_one_and_five x H1 H5) as [m [e [E [He [[_ Hm] Hfive]]]]].
  unfold JSNumber.toIntegerOrInfinity.
  rewrite FloatAxioms.sub_spec, five_spec, E.
  apply finite_nonnegative.
  unfold FloatAxioms.SF64sub, SFsub, cond_Zopp.
  assert (Hcases : e = (-52)%Z \/ e = (-51)%Z \/ e = (-50)%Z) by lia.
  destruct Hcases as [-> | [-> | ->]]; simpl.
  - apply binary_normalize_nonnegative; lia.
  - apply binary_normalize_nonnegative; lia.
  - specialize (Hfive eq_refl). apply binary_normalize_nonnegative; lia.
Qed.

(** [Math.min(5, r)] of a number that is not below 1 lies from 1 to 5. *)
Lemma math_min_five (r : float) :
  PrimFloat.is_nan r = false -> (r <? 1)%float = false ->
  (1 <=? JSNumber.math_min 5 r)%float = true
  /\ (JSNumber.math_min 5 r <=? 5)%float = true.
Proof.
  intros Hn H1. unfold JSNumber.math_min. rewrite Hn.
  change (PrimFloat.is_nan 5) with false. change (PrimFloat.is_zero 5) with false.
  simpl.
  assert (Hone : (1 <=? r)%float = true) by (apply leb_of_not_ltb; auto).
  destruct (5 <? r)%float eqn:H5; [split; reflexivity|].
  assert (Hfive : (r <=? 5)%float = true) by (apply leb_of_not_ltb; auto).
  destruct (r <? 5)%float; auto.
Qed.

(** A number above 5 is truthy and is not below 1, and [Math.min(5, r)] is
    5. *)
Lemma above_five (r : float) :
  (5 <? r)%float = true ->
  truthy_num r = true /\ (r <? 1)%float = false /\ JSNumber.math_min 5 r = 5%float.
Proof.
  intros H5. pose proof (ltb_not_nan _ _ H5) as [_ Hn].
  unfold truthy_num, JSNumber.math_min. rewrite Hn, H5.
  change (PrimFloat.is_nan 5) with false. simpl.
  rewrite is_zero_spec, FloatAxioms.ltb_spec, one_spec.
  rewrite FloatAxioms.ltb_spec, five_spec in H5.
  destruct (Prim2SF r) as [s|s| |s m e]; try destruct s; try discriminate H5;
    try (repeat split; reflexivity).
  unfold SFltb, SFcompare in *.
  destruct (Z.compare_spec (-50) e); try discriminate H5;
    destruct (Z.compare_spec e (-52)); try lia; repeat split; reflexivity.
Qed.

(** *** The clamp of the discovery screen *)

(** [Math.min(5, x)] of a number is that number or 5, and at most 5. *)
Lemma math_min_five_any (x : float) :
  PrimFloat.is_nan x = false ->
  PrimFloat.is_nan (JSNumber.math_min 5 x) = false
  /\ (JSNumber.math_min 5 x <=? 5)%float = true.
Proof.
  intros Hn. unfold JSNumber.math_min. rewrite Hn.
  change (PrimFloat.is_nan 5) with false. change (PrimFloat.is_zero 5) with false.
  simpl.
  destruct (5 <? x)%float eqn:H5; [split; reflexivity|].
  assert (Hfive : (x <=? 5)%float = true) by (apply leb_of_not_ltb; auto).
  destruct (x <? 5)%float; auto.
Qed.

(** [Math.max(1, y)] of a number that is at most 5 lies from 1 to 5. *)
Lemma math_max_one (y : float) :
  PrimFloat.is_nan y = false -> (y <=? 5)%float = true ->
  (1 <=? JSNumber.math_max 1 y)%float = true
  /\ (JSNumber.math_max 1 y <=? 5)%float = true.
Proof.
  intros Hn H5. unfold JSNumber.math_max. rewrite Hn.
  change (PrimFloat.is_nan 1) with false. change (PrimFloat.is_zero 1) with false.
  simpl.
  destruct (1 <? y)%float eqn:H1; [split; [now apply leb_of_ltb | exact H5]|].
  destruct (y <? 1)%float; split; reflexivity.
Qed.

(** The clamp of a number that is not NaN lies from 1 to 5. *)
Lemma clamped_between (x : float) :
  PrimFloat.is_nan x = false ->
  (1 <=? JSNumber.math_max 1 (JSNumber.math_min 5 x))%float = true
  /\ (JSNumber.math_max 1 (JSNumber.math_min 5 x) <=? 5)%float = true.
Proof.
  intros Hn. destruct (math_min_five_any x Hn) as [Hm H5].
  now apply math_max_one.
Qed.

Lemma nan_is_nan (x : float) : PrimFloat.is_nan x = true -> x = PrimFloat.nan.
Proof.
  rewrite is_nan_spec. intros H. apply FloatAxioms.Prim2SF_inj.
  destruct (Prim2SF x); try discriminate H. reflexivity.
Qed.

(** *** Integers among the numbers *)

(** What [integer_value] says of a positive finite number. *)
Lemma integer_value_positive (x : float) (m : positive) (e z : Z) :
  Prim2SF x = S754_finite false m e ->
  integer_value x = Some z ->
  (0 <= e /\ z = Z.pos m * 2 ^ e)%Z
  \/ exists p, e = Z.neg p /\ Z.pos m = (z * 2 ^ Z.pos p)%Z.
Proof.
  intros E. unfold integer_value. rewrite E.
  destruct e as [|q|p].
  - intros [= <-]. left. split; [lia | reflexivity].
  - intros [= <-]. left. split; [lia | reflexivity].
  - destruct (Z.eqb_spec (Z.pos m mod 2 ^ Z.pos p) 0) as [Hmod|]; [|discriminate].
    intros [= <-]. right. exists p. split; [reflexivity|].
    rewrite Z.mul_comm. apply Z.div_exact; [|exact Hmod].
    apply Z.pow_nonzero; lia.
Qed.

(** Fixes the exponent of a mantissa with all its digits. *)
Ltac pin_exponent p q :=
  assert (Z.pos p = q) by
    (destruct (Z.le_gt_cases (Z.pos p) (q - 1)) as [Hl|Hl];
     [ pose proof (Z.pow_le_mono_r 2 (Z.pos p) (q - 1) ltac:(lia) Hl); lia
     | destruct (Z.le_gt_cases (q + 1) (Z.pos p)) as [Hu|Hu];
       [ pose proof (Z.pow_le_mono_r 2 (q + 1) (Z.pos p) ltac:(lia) Hu); lia
       | lia ] ]).

(** The number whose value is an integer from 1 to 5 is that integer. *)
Lemma integer_from_one_to_five (x : float) (z : Z) :
  integer_value x = Some z -> (1 <= z <= 5)%Z -> x = JSNumber.of_Z z.
Proof.
  intros Hv Hz.
  destruct (Prim2SF x) as [s|s| |s m e] eqn:E.
  - unfold integer_value in Hv. rewrite E in Hv. injection Hv as <-. lia.
  - unfold integer_value in Hv. rewrite E in Hv. discriminate.
  - unfold integer_value in Hv. rewrite E in Hv. discriminate.
  - destruct s.
    { unfold integer_value in Hv. rewrite E in Hv.
      destruct e as [|q|p].
      - injection Hv as <-. lia.
      - injection Hv as <-. pose proof (Z.pow_nonneg 2 (Z.pos q)). nia.
      - destruct (Z.pos m mod 2 ^ Z.pos p =? 0)%Z; [|discriminate].
        injection Hv as <-.
        pose proof (Z.div_pos (Z.pos m) (2 ^ Z.pos p) ltac:(lia)
                      ltac:(apply Z.pow_pos_nonneg; lia)). lia. }
    destruct (valid_finite x _ _ _ E) as [Hm He].
    destruct (valid_digits x _ _ _ E) as [Hfull|Hmin].
    + destruct (integer_value_positive x m e z E Hv) as [[He0 Hval]|[p [-> Hval]]].
      * pose proof (Z.pow_pos_nonneg 2 e ltac:(lia) He0). nia.
      * rewrite <- (FloatAxioms.SF2Prim_Prim2SF x), E.
        assert (Hc : (z = 1 \/ z = 2 \/ z = 3 \/ z = 4 \/ z = 5)%Z) by lia.
        destruct Hc as [-> | [-> | [-> | [-> | ->]]]].
        -- pin_exponent p 52%Z.
           assert (p = 52%positive) by lia. subst p.
           assert (m = 4503599627370496%positive) by (apply Pos2Z.inj; exact Hval).
           subst m. reflexivity.
        -- pin_exponent p 51%Z.
           assert (p = 51%positive) by lia. subst p.
           assert (m = 4503599627370496%positive) by (apply Pos2Z.inj; exact Hval).
           subst m. reflexivity.
        -- pin_exponent p 51%Z.
           assert (p = 51%positive) by lia. subst p.
           assert (m = 6755399441055744%positive) by (apply Pos2Z.inj; exact Hval).
           subst m. reflexivity.
        -- pin_exponent p 50%Z.
           assert (p = 50%positive) by lia. subst p.
           assert (m = 4503599627370496%positive) by (apply Pos2Z.inj; exact Hval).
           subst m. reflexivity.
        -- pin_exponent p 50%Z.
           assert (p = 50%positive) by lia. subst p.
           assert (m = 5629499534213120%positive) by (apply Pos2Z.inj; exact Hval).
           subst m. reflexivity.
    + subst e.
      destruct (integer_value_positive x m _ z E Hv) as [[He0 _]|[p [Hp Hval]]];
        [lia|].
      injection Hp as <-.
      pose proof (Z.pow_le_mono_r 2 53 1074 ltac:(lia) ltac:(lia)). nia.
Qed.

(** The clamp of a number whose value is an integer is the clamp of that
    integer. *)
Lemma clamp_of_integer (x : float) (z : Z) :
  integer_value x = Some z ->
  JSNumber.math_max 1 (JSNumber.math_min 5 x)
  = JSNumber.of_Z (Z.max 1 (Z.min 5 z)).
Proof.
  intros Hv.
  destruct (Z.le_gt_cases 1 z) as [H1|H1];
    [destruct (Z.le_gt_cases z 5) as [H5|H5]|].
  - rewrite (integer_from_one_to_five x z Hv (conj H1 H5)).
    assert (Hc : (z = 1 \/ z = 2 \/ z = 3 \/ z = 4 \/ z = 5)%Z) by lia.
    destruct Hc as [-> | [-> | [-> | [-> | ->]]]]; reflexivity.
  - replace (Z.max 1 (Z.min 5 z)) with 5%Z by lia.
    assert (Hlt : (5 <? x)%float = true).
    { rewrite FloatAxioms.ltb_spec, five_spec.
      unfold integer_value in Hv.
      destruct (Prim2SF x) as [s|s| |s m e] eqn:E; try discriminate.
      - injection Hv as <-. lia.
      - destruct s.
        + destruct e as [|q|p].
          * injection Hv as <-. lia.
          * injection Hv as <-. pose proof (Z.pow_nonneg 2 (Z.pos q)). nia.
          * destruct (Z.pos m mod 2 ^ Z.pos p =? 0)%Z; [|discriminate].
            injection Hv as <-.
            pose proof (Z.div_pos (Z.pos m) (2 ^ Z.pos p) ltac:(lia)
                          ltac:(apply Z.pow_pos_nonneg; lia)). lia.
        + destruct (valid_finite x _ _ _ E) as [Hm _].
          assert (Hv' : integer_value x = Some z)
            by (unfold integer_value; rewrite E; exact Hv).
          unfold SFltb, SFcompare.
          destruct (integer_value_positive x m e z E Hv')
            as [[He0 _]|[p [-> Hval]]].
          * destruct (Z.compare_spec (-50) e); [lia | reflexivity | lia].
          * destruct (Z.compare_spec (-50) (Z.neg p)) as [Hp|Hp|Hp];
              [|reflexivity|].
            -- rewrite Pos.compare_cont_spec.
               assert (Hlt : (5629499534213120 < m)%positive).
               { assert (Hz : (Z.pos 5629499534213120 < Z.pos m)%Z).
                 { rewrite Hval. injection Hp as <-.
                   change (2 ^ Z.pos 50)%Z with 1125899906842624%Z. lia. }
                 exact Hz. }
               rewrite (proj2 (Pos.compare_lt_iff _ _) Hlt). reflexivity.
            -- assert (Hp' : (51 <= Z.pos p)%Z) by lia.
               pose proof (Z.pow_le_mono_r 2 51 (Z.pos p) ltac:(lia) Hp'). nia. }
    unfold JSNumber.math_min.
    destruct (ltb_not_nan _ _ Hlt) as [_ Hn]. rewrite Hn, Hlt. reflexivity.
  - replace (Z.max 1 (Z.min 5 z)) with 1%Z by lia.
    unfold integer_value in Hv.
    assert (Hx : JSNumber.math_min 5 x = x /\ (x <? 1)%float = true
                 /\ (1 <? x)%float = false /\ PrimFloat.is_nan x = false).
    { unfold JSNumber.math_min.
      change (PrimFloat.is_nan 5) with false.
      change (PrimFloat.is_zero 5) with false.
      rewrite !FloatAxioms.ltb_spec, (is_nan_spec x), five_spec, one_spec.
      destruct (Prim2SF x) as [s|s| |s m e] eqn:E; try discriminate.
      - cbv beta iota delta [SFltb SFcompare orb andb]. repeat split; reflexivity.
      - destruct s;
          [cbv beta iota delta [SFltb SFcompare orb andb];
           repeat split; reflexivity|].
        exfalso. destruct e as [|q|p].
        + injection Hv as <-. lia.
        + injection Hv as <-. pose proof (Z.pow_pos_nonneg 2 (Z.pos q)). nia.
        + destruct (Z.eqb_spec (Z.pos m mod 2 ^ Z.pos p) 0) as [Hmod|];
            [|discriminate].
          injection Hv as <-.
          assert (Hpow : (0 < 2 ^ Z.pos p)%Z) by (apply Z.pow_pos_nonneg; lia).
          pose proof (Z.div_exact (Z.pos m) (2 ^ Z.pos p) ltac:(lia)) as Hd.
          apply Hd in Hmod. nia. }
    destruct Hx as (-> & Hlt & Hgt & Hn).
    unfold JSNumber.math_max. rewrite Hn, Hgt, Hlt. reflexivity.
Qed.

(** ** Strings *)

Lemma startsWith_prefix (q s : jsstring) :
  startsWith q s = true <-> exists rest, s = q ++ rest.
Proof.
  revert s. induction q as [|a q IH]; intros s; simpl.
  - split; [intros _; now exists s | reflexivity].
  - destruct s as [|b s].
    + split; [discriminate | intros [rest Hr]; discriminate].
    + rewrite andb_true_iff, N.eqb_eq, IH. split.
      * intros [-> [rest ->]]. now exists rest.
      * intros [rest Hr]. injection Hr as -> ->. split; [reflexivity | now exists rest].
Qed.

Lemma includes_substring (s q : jsstring) :
  includes s q = true <-> Spec.substring q s.
Proof.
  unfold Spec.substring. induction s as [|c s IH].
  - simpl. rewrite orb_false_r, startsWith_prefix. split.
    + intros [rest Hr]. now exists [], rest.
    + intros [before [rest Hr]]. destruct before; [now exists rest | discriminate].
  - change (includes (c :: s) q) with (startsWith q (c :: s) || includes s q).
    rewrite orb_true_iff, startsWith_prefix, IH. split.
    + intros [[rest Hr] | [before [rest Hr]]].
      * now exists [], rest.
      * exists (c :: before), rest. simpl. now rewrite Hr.
    + intros [[|b before] [rest Hr]].
      * left. now exists rest.
      * right. simpl in Hr. injection Hr as -> ->. now exists before, rest.
Qed.

Lemma str_eqb_eq (a b : jsstring) : str_eqb a b = true <-> a = b.
Proof. unfold str_eqb. apply bool_decide_eq_true. Qed.

Lemma truthy_false (s : jsstring) : truthy s = false <-> s = [].
Proof. destruct s; simpl; split; congruence. Qed.

(** ** Filtering *)

Lemma filter_filtered_by {A} (P : A -> Prop) (keep : A -> bool) (l : list A) :
  (forall x, keep x = true <-> P x) ->
  Spec.filtered_by P l (List.filter keep l).
Proof.
  intros Hk. induction l as [|x l IH]; simpl.
  - constructor.
  - destruct (keep x) eqn:E.
    + apply Spec.filtered_keep; [now apply Hk | exact IH].
    + apply Spec.filtered_drop; [|exact IH].
      intros HP. apply Hk in HP. congruence.
Qed.

Lemma filtered_by_all {A} (P : A -> Prop) (l : list A) :
  (forall x, P x) -> Spec.filtered_by P l l.
Proof. intros HP. induction l; constructor; auto. Qed.

Lemma filtered_by_unique {A} (P : A -> Prop) (l out1 out2 : list A) :
  Spec.filtered_by P l out1 -> Spec.filtered_by P l out2 -> out1 = out2.
Proof.
  intros H1. revert out2.
  induction H1; intros out2 H2; inversion H2; subst; try tauto.
  - f_equal. auto.
  - auto.
Qed.

Section Search.

Context {host : Host}.

Lemma toLowerCase_empty : toLowerCase [] = [].
Proof. now rewrite toLowerCase_ascii. Qed.

Lemma statusFiltered_selected movies f :
  Spec.filtered_by (Spec.status_selected f) movies (Account.statusFiltered movies f).
Proof.
  destruct f as [|s]; simpl.
  - now apply filtered_by_all.
  - apply filter_filtered_by. intros m. apply str_eqb_eq.
Qed.

Lemma search_keeps_matches query m :
  (let q := toLowerCase (trim query) in
   if negb (truthy q) then true
   else
     includes (toLowerCase (Movie.title m)) q
     || includes (toLowerCase (Movie.status m)) q
     || includes (toLowerCase (nullish (Movie.review m) [])) q) = true
  <-> Spec.query_matches query m.
Proof.
  unfold Spec.query_matches, Spec.occurs_in. cbv zeta.
  replace (match Movie.review m with Some r => r | None => [] end)
    with (nullish (Movie.review m) []) by reflexivity.
  rewrite <- !includes_substring.
  destruct (truthy (toLowerCase (trim query))) eqn:E; simpl.
  - rewrite !orb_true_iff. split; [tauto|].
    intros [Hq|H]; [|tauto].
    rewrite Hq, toLowerCase_empty in E. discriminate.
  - apply truthy_false in E. rewrite E. split; [|reflexivity].
    intros _. right. left. apply includes_substring.
    now exists [], (toLowerCase (Movie.title m)).
Qed.

End Search.

(** C2: the displayed list is the records filtered by status and then by
    the search text.  For every list of records, status filter and query,
    [filteredMovies] is obtained by keeping first the records the status
    filter selects (ALL keeps all, otherwise the status equals the
    selection) and then those the trimmed query matches, case-insensitively
    as a substring of the title, the status literal or the review text (a
    missing review being the empty string; a blank trimmed query keeps
    all).  For the records A (PLAN_TO_WATCH) and B (HAVE_WATCHED, review
    "great") under the filter HAVE_WATCHED, the query "great" leaves
    exactly B and the query "zzz" leaves nothing. *)
Theorem C2_displayed_list_is_status_then_search `{Host} :
  (forall movies f query,
     exists selected,
       Spec.filtered_by (Spec.status_selected f) movies selected
       /\ Spec.filtered_by (Spec.query_matches query) selected
            (Account.filteredMovies movies f query))
  /\ (forall idA idB,
        Account.filteredMovies [Sample.movie_A idA; Sample.movie_B idB]
          (Account.Only Account.HAVE_WATCHED) (str "great")
        = [Sample.movie_B idB]
        /\ Account.filteredMovies [Sample.movie_A idA; Sample.movie_B idB]
             (Account.Only Account.HAVE_WATCHED) (str "zzz")
           = []).
Proof.
  split.
  - intros movies f query. exists (Account.statusFiltered movies f). split.
    + apply statusFiltered_selected.
    + unfold Account.filteredMovies. apply filter_filtered_by.
      intros m. apply search_keeps_matches.
  - intros idA idB. unfold Account.filteredMovies.
    split; lazy -[toLowerCase]; rewrite !toLowerCase_ascii by reflexivity; reflexivity.
Qed.

(** ** The star renderer *)

Lemma concat_repeat_unit (c : N) (n : nat) :
  List.concat (List.repeat [c] n) = List.repeat c n.
Proof. induction n; simpl; congruence. Qed.

Lemma clamp_max_min (r : Z) : Z.max 1 (Z.min 5 r) = Spec.clamp r 1 5.
Proof.
  unfold Spec.clamp.
  destruct (Z.ltb_spec r 1), (Z.ltb_spec 5 r); lia.
Qed.

Lemma clamp_range (r : Z) : (1 <= Spec.clamp r 1 5 <= 5)%Z.
Proof.
  unfold Spec.clamp.
  destruct (Z.ltb_spec r 1), (Z.ltb_spec 5 r); lia.
Qed.

(** The star renderer of the discovery screen never throws: both counts
    it hands to [repeat] are finite and not negative, whatever the number. *)
Lemma discover_renderStars_total (x : float) :
  exists filled empty : nat,
    Discover.renderStars x
    = Some (List.repeat 0x2605 filled ++ List.repeat 0x2606 empty).
Proof.
  unfold Discover.renderStars. cbv zeta.
  destruct (PrimFloat.is_nan x) eqn:Hn.
  - rewrite (nan_is_nan x Hn). exists O, O. vm_compute. reflexivity.
  - destruct (clamped_between x Hn) as [Hlo Hhi].
    destruct (truncated_between _ Hlo Hhi) as [n [Hn0 En]].
    destruct (five_minus_between _ Hlo Hhi) as [k [Hk0 Ek]].
    unfold JSNumber.repeat_num. rewrite En, Ek. unfold repeat.
    destruct (Z.ltb_spec n 0); [lia|]. destruct (Z.ltb_spec k 0); [lia|].
    simpl. unfold Discover.star, Discover.hollow.
    rewrite !concat_repeat_unit. eexists _, _. reflexivity.
Qed.

(** On a number whose value is the integer [r], the renderer gives the
    stars of the clamp of [r]. *)
Lemma renderStars_clamped (x : float) (r : Z) :
  integer_value x = Some r ->
  Discover.renderStars x
  = Some (List.repeat 0x2605 (Z.to_nat (Spec.clamp r 1 5))
          ++ List.repeat 0x2606 (5 - Z.to_nat (Spec.clamp r 1 5))).
Proof.
  intros Hv. unfold Discover.renderStars. cbv zeta.
  rewrite (clamp_of_integer x r Hv), clamp_max_min.
  pose proof (clamp_range r) as Hr.
  assert (Hc : (Spec.clamp r 1 5 = 1 \/ Spec.clamp r 1 5 = 2 \/ Spec.clamp r 1 5 = 3
                \/ Spec.clamp r 1 5 = 4 \/ Spec.clamp r 1 5 = 5)%Z) by lia.
  destruct Hc as [-> | [-> | [-> | [-> | ->]]]]; vm_compute; reflexivity.
Qed.

Lemma inception_badge `{Host} :
  Discover.render_badge (Some Sample.inception_summary)
  = Some (Some {| Discover.stars := [0x2605; 0x2605; 0x2605; 0x2605; 0x2606];
                  Discover.caption := str "4.3/5 from 10 ratings (global)" |}).
Proof.
  unfold Discover.render_badge, Discover.badge_caption.
  change (RatingSummary.ratingCount Sample.inception_summary) with 10%float.
  rewrite (NumberToString_integer 10%float 10%Z eq_refl
             ltac:(vm_compute; discriminate)).
  vm_compute. reflexivity.
Qed.

(** C7: for every integer rounded rating r, that is for every number
    whose value is an integer r, the star string of the
    discovery screen is clamp(r,1,5) filled stars followed by
    5 - clamp(r,1,5) empty stars, five glyphs in all; and the card of the
    catalog title "Inception", with the summary (average 4.3, rounded 4,
    10 ratings) as the fetched ratings, carries the stars of a rating of 4
    (four filled, one empty) and the caption
    "4.3/5 from 10 ratings (global)". *)
Theorem C7_star_string_and_inception_badge `{Host} :
  (forall (x : float) (r : Z),
     integer_value x = Some r ->
     let k := Z.to_nat (Spec.clamp r 1 5) in
     exists s,
       Discover.renderStars x = Some s
       /\ s = List.repeat 0x2605 k ++ List.repeat 0x2606 (5 - k)
       /\ count_occ N.eq_dec s 0x2605 = k
       /\ count_occ N.eq_dec s 0x2606 = (5 - k)%nat
       /\ length s = 5%nat)
  /\ (exists movie,
        In movie Discover.DISCOVER_MOVIES
        /\ DiscoverMovie.title movie = str "Inception")
  /\ (forall st movie,
        DiscoverMovie.title movie = str "Inception" ->
        Discover.ratings st = [Sample.inception_summary] ->
        exists card,
          Discover.render_card st movie = Some card
          /\ Discover.badge card
             = Some {| Discover.stars := [0x2605; 0x2605; 0x2605; 0x2605; 0x2606];
                       Discover.caption := str "4.3/5 from 10 ratings (global)" |}).
Proof.
  split; [|split].
  - intros x r Hx k. eexists. split; [apply (renderStars_clamped x r Hx)|]. fold k.
    pose proof (clamp_range r) as Hr.
    assert (Hk : (1 <= k <= 5)%nat) by (unfold k; lia).
    split; [reflexivity|].
    destruct k as [|[|[|[|[|[|k]]]]]]; try lia; repeat split; reflexivity.
  - eexists. split; [left; reflexivity | reflexivity].
  - intros st movie Ht Hr. unfold Discover.render_card. rewrite Hr, Ht.
    replace (Discover.getGlobalSummary [Sample.inception_summary] (str "Inception"))
      with (Some Sample.inception_summary) by (vm_compute; reflexivity).
    rewrite inception_badge. simpl. eexists. split; reflexivity.
Qed.

(** C7, run on the sample host: the card of "Inception", and the stars of
    the numbers 4, 9 and -2. *)
Lemma C7_inception_badge_witness :
  (exists card,
     @Discover.render_card Sample.sampleHost
       {| Discover.sessionToken := None; Discover.currentUser := None;
          Discover.error := None; Discover.busyId := None;
          Discover.ratings := [Sample.inception_summary] |}
       Sample.inception = Some card
     /\ Discover.badge card
        = Some {| Discover.stars := [0x2605; 0x2605; 0x2605; 0x2605; 0x2606];
                  Discover.caption := str "4.3/5 from 10 ratings (global)" |})
  /\ (exists s,
        Discover.renderStars 4%float = Some s
        /\ s = [0x2605; 0x2605; 0x2605; 0x2605; 0x2606])
  /\ (exists s,
        Discover.renderStars 9%float = Some s
        /\ s = [0x2605; 0x2605; 0x2605; 0x2605; 0x2605])
  /\ (exists s,
        Discover.renderStars (-2)%float = Some s
        /\ s = [0x2605; 0x2606; 0x2606; 0x2606; 0x2606]).
Proof.
  split; [|split; [|split]].
  - apply (proj2 (proj2 (@C7_star_string_and_inception_badge Sample.sampleHost)));
      reflexivity.
  - destruct (proj1 (@C7_star_string_and_inception_badge Sample.sampleHost)
                4%float 4%Z eq_refl) as (s & Hs & He & _).
    exists s. split; [exact Hs | exact He].
  - destruct (proj1 (@C7_star_string_and_inception_badge Sample.sampleHost)
                9%float 9%Z eq_refl) as (s & Hs & He & _).
    exists s. split; [exact Hs | exact He].
  - destruct (proj1 (@C7_star_string_and_inception_badge Sample.sampleHost)
                (-2)%float (-2)%Z eq_refl) as (s & Hs & He & _).
    exists s. split; [exact Hs | exact He].
Defined.

(** ** The global summary of a catalog entry *)






(** ** Authorization failures *)

Lemma mp_keys_distinct : mp_sessionToken <> mp_username.
Proof. discriminate. Qed.

Lemma session_removed (ls : gmap jsstring jsstring) :
  delete mp_username (delete mp_sessionToken ls) !! mp_sessionToken = None
  /\ delete mp_username (delete mp_sessionToken ls) !! mp_username = None.
Proof.
  split.
  - rewrite lookup_delete_ne by (symmetry; apply mp_keys_distinct).
    apply lookup_delete_eq.
  - apply lookup_delete_eq.
Qed.

(** Closes a goal whose hypothesis finds a 401 in a log that has none. *)
Ltac no_401 :=
  repeat match goal with
  | H : False |- _ => destruct H
  | H : _ \/ _ |- _ => destruct H as [H|H]
  | H : In _ [] |- _ => destruct H
  | H : In _ (_ :: _) |- _ => destruct H as [H|H]
  | H : Fetched _ _ = Fetched _ _ |- _ => injection H as ? ?
  | H : (?s =? 401) = false, H' : ?s = 401 |- _ =>
      rewrite H' in H; discriminate H
  | H : _ = _ |- _ => discriminate H
  end.

(** Proves [logged_out] of a browser whose two slots were removed. *)
Ltac now_logged_out :=
  split; [|reflexivity];
  split; [apply session_removed | split; [apply session_removed | reflexivity]].

Section Unauthorized.

Context {host : Host}.

Lemma addToList_401 w movie st ls :
  unauthorized (log_of (run (Discover.addToList w movie) st ls)) ->
  logged_out (browser_after (run (Discover.addToList w movie) st ls))
  /\ Discover.error (state_after (run (Discover.addToList w movie) st ls)) = None.
Proof.
  intros [req Hin]. revert Hin.
  exec; intros Hin; try solve [no_401]; now_logged_out.
Qed.

Lemma discover_markWatched_401 w movie st ls :
  unauthorized (log_of (run (Discover.markWatched w movie) st ls)) ->
  logged_out (browser_after (run (Discover.markWatched w movie) st ls))
  /\ Discover.error (state_after (run (Discover.markWatched w movie) st ls)) = None.
Proof.
  intros [req Hin]. revert Hin.
  exec; intros Hin; try solve [no_401]; now_logged_out.
Qed.

Lemma fetchMovies_401 w st ls :
  unauthorized (log_of (run (Account.fetchMovies w) st ls)) ->
  logged_out (browser_after (run (Account.fetchMovies w) st ls))
  /\ Account.moviesError (state_after (run (Account.fetchMovies w) st ls)) = None.
Proof.
  intros [req Hin]. revert Hin.
  exec; intros Hin; try solve [no_401]; now_logged_out.
Qed.

Lemma handleAddMovie_401 w st ls :
  unauthorized (log_of (run (Account.handleAddMovie w) st ls)) ->
  logged_out (browser_after (run (Account.handleAddMovie w) st ls))
  /\ Account.moviesError (state_after (run (Account.handleAddMovie w) st ls)) = None.
Proof.
  intros [req Hin]. revert Hin.
  exec; intros Hin; try solve [no_401]; now_logged_out.
Qed.

Lemma updateMovieStatus_401 w id newStatus st ls :
  unauthorized (log_of (run (Account.updateMovieStatus w id newStatus) st ls)) ->
  logged_out (browser_after (run (Account.updateMovieStatus w id newStatus) st ls))
  /\ Account.moviesError
       (state_after (run (Account.updateMovieStatus w id newStatus) st ls)) = None.
Proof.
  intros [req Hin]. revert Hin.
  exec; intros Hin; try solve [no_401]; now_logged_out.
Qed.

Lemma account_markWatched_401 w movie st ls :
  unauthorized (log_of (run (Account.markWatched w movie) st ls)) ->
  logged_out (browser_after (run (Account.markWatched w movie) st ls))
  /\ Account.moviesError (state_after (run (Account.markWatched w movie) st ls)) = None.
Proof.
  intros [req Hin]. revert Hin.
  exec; intros Hin; try solve [no_401]; now_logged_out.
Qed.

Lemma deleteMovie_401 w id st ls :
  unauthorized (log_of (run (Account.deleteMovie w id) st ls)) ->
  logged_out (browser_after (run (Account.deleteMovie w id) st ls))
  /\ Account.moviesError (state_after (run (Account.deleteMovie w id) st ls)) = None.
Proof.
  intros [req Hin]. revert Hin.
  exec; intros Hin; try solve [no_401]; now_logged_out.
Qed.

End Unauthorized.

(** C1: in each of the seven authenticated operations (Discovery
    add-to-list and mark-watched; Account fetch list, create, status
    update, mark-watched and delete), whatever the state, the storage, the
    service and the user do, a response with status 401 leaves both session
    slots of the storage empty and the router on the auth screen, and the
    screen's inline error is not set. *)
Theorem C1_unauthorized_response_logs_out `{Host} (w : World)
    (ls : gmap jsstring jsstring) :
  (forall st movie,
     let r := run (Discover.addToList w movie) st ls in
     unauthorized (log_of r) ->
     logged_out (browser_after r) /\ Discover.error (state_after r) = None)
  /\ (forall st movie,
        let r := run (Discover.markWatched w movie) st ls in
        unauthorized (log_of r) ->
        logged_out (browser_after r) /\ Discover.error (state_after r) = None)
  /\ (forall st,
        let r := run (Account.fetchMovies w) st ls in
        unauthorized (log_of r) ->
        logged_out (browser_after r) /\ Account.moviesError (state_after r) = None)
  /\ (forall st,
        let r := run (Account.handleAddMovie w) st ls in
        unauthorized (log_of r) ->
        logged_out (browser_after r) /\ Account.moviesError (state_after r) = None)
  /\ (forall st id newStatus,
        let r := run (Account.updateMovieStatus w id newStatus) st ls in
        unauthorized (log_of r) ->
        logged_out (browser_after r) /\ Account.moviesError (state_after r) = None)
  /\ (forall st movie,
        let r := run (Account.markWatched w movie) st ls in
        unauthorized (log_of r) ->
        logged_out (browser_after r) /\ Account.moviesError (state_after r) = None)
  /\ (forall st id,
        let r := run (Account.deleteMovie w id) st ls in
        unauthorized (log_of r) ->
        logged_out (browser_after r) /\ Account.moviesError (state_after r) = None).
Proof.
  repeat split; intros; cbv zeta.
  all: first
    [ apply addToList_401 | apply discover_markWatched_401
    | apply fetchMovies_401 | apply handleAddMovie_401
    | apply updateMovieStatus_401 | apply account_markWatched_401
    | apply deleteMovie_401 ]; assumption.
Qed.

(** C1, run on the sample host: every request is answered with 401. *)
Lemma C1_unauthorized_witness :
  (logged_out (browser_after
     (run (@Discover.addToList Sample.sampleHost (Sample.answering 401 [] true)
             Sample.inception)
        Sample.discover_logged_in Sample.session_storage))
   /\ logged_out (browser_after
        (run (@Discover.markWatched Sample.sampleHost
                (Sample.answering 401 [Some (str "4"); None] true) Sample.inception)
           Sample.discover_logged_in Sample.session_storage)))
  /\ (logged_out (browser_after
        (run (@Account.fetchMovies Sample.sampleHost (Sample.answering 401 [] true))
           Sample.account_logged_in Sample.session_storage))
      /\ logged_out (browser_after
           (run (@Account.handleAddMovie Sample.sampleHost (Sample.answering 401 [] true))
              Sample.account_logged_in Sample.session_storage))
      /\ logged_out (browser_after
           (run (@Account.updateMovieStatus Sample.sampleHost
                   (Sample.answering 401 [] true) (str "m1") Account.PLAN_TO_WATCH)
              Sample.account_logged_in Sample.session_storage))
      /\ logged_out (browser_after
           (run (@Account.markWatched Sample.sampleHost
                   (Sample.answering 401 [Some (str "4"); None] true) Sample.rated_three)
              Sample.account_logged_in Sample.session_storage))
      /\ logged_out (browser_after
           (run (@Account.deleteMovie Sample.sampleHost
                   (Sample.answering 401 [] true) (str "m1"))
              Sample.account_logged_in Sample.session_storage))).
Proof.
  pose proof (@C1_unauthorized_response_logs_out Sample.sampleHost
                (Sample.answering 401 [] true) Sample.session_storage)
    as (H1 & _ & H3 & H4 & H5 & _ & H7).
  pose proof (@C1_unauthorized_response_logs_out Sample.sampleHost
                (Sample.answering 401 [Some (str "4"); None] true)
                Sample.session_storage)
    as (_ & H2 & _ & _ & _ & H6 & _).
  cbv zeta in *.
  repeat split;
    first [ apply H1 | apply H2 | apply H3 | apply H4 | apply H5 | apply H6 | apply H7 ];
    eexists; vm_compute; repeat (first [left; reflexivity | right]).
Defined.

(** ** The busy indicator of the discovery screen *)

Section Busy.

Context {host : Host}.

Lemma addToList_resets_busy w movie st ls :
  present (Discover.sessionToken st) <> None \/ Discover.busyId st = None ->
  Discover.busyId (state_after (run (Discover.addToList w movie) st ls)) = None.
Proof. exec; intros [?|?]; congruence. Qed.

Lemma markWatched_resets_busy w movie st ls :
  present (Discover.sessionToken st) <> None \/ Discover.busyId st = None ->
  Discover.busyId (state_after (run (Discover.markWatched w movie) st ls)) = None.
Proof. exec; intros [?|?]; congruence. Qed.

Lemma authGuard_keeps_busy st ls :
  Discover.busyId (state_after (run Discover.authGuard st ls)) = Discover.busyId st.
Proof. exec; reflexivity. Qed.

Lemma fetchRatings_keeps_busy w st ls :
  Discover.busyId (state_after (run (Discover.fetchRatings w) st ls))
  = Discover.busyId st.
Proof. exec; reflexivity. Qed.

(** Between two steps no card is busy. *)
Lemma reachable_idle st : discover_reachable st -> Discover.busyId st = None.
Proof.
  induction 1 as [|st st' _ IH Hstep]; [reflexivity|].
  destruct Hstep.
  - now rewrite authGuard_keeps_busy.
  - now rewrite fetchRatings_keeps_busy.
  - apply addToList_resets_busy. now right.
  - apply markWatched_resets_busy. now right.
Qed.

End Busy.

(** C10: on the discovery screen, in every state the mounted component can
    be in and whatever the service answers (success, 401, another status, a
    failed transport) or the user types, the busy indicator is null once an
    add-to-list or a mark-watched action has run to its end; with a session
    in the state this holds from any state at all, so the run of the action
    itself resets the indicator it set. *)
Theorem C10_busy_indicator_is_reset `{Host} (w : World) (movie : DiscoverMovie.t)
    (st : Discover.State) (ls : gmap jsstring jsstring) :
  discover_reachable st \/ present (Discover.sessionToken st) <> None ->
  Discover.busyId (state_after (run (Discover.addToList w movie) st ls)) = None
  /\ Discover.busyId (state_after (run (Discover.markWatched w movie) st ls)) = None.
Proof.
  intros Hst.
  assert (present (Discover.sessionToken st) <> None \/ Discover.busyId st = None)
    as Hpre.
  { destruct Hst as [Hr|Hs]; [right; now apply reachable_idle | now left]. }
  split; [now apply addToList_resets_busy | now apply markWatched_resets_busy].
Qed.

(** C10, run on the sample host: a logged-in screen whose request fails
    with status 500. *)
Lemma C10_busy_indicator_witness :
  Discover.busyId
    (state_after
       (run (@Discover.addToList Sample.sampleHost (Sample.answering 500 [] true)
               Sample.inception)
          Sample.discover_logged_in Sample.session_storage)) = None
  /\ Discover.busyId
       (state_after
          (run (@Discover.markWatched Sample.sampleHost
                  (Sample.answering 500 [] true) Sample.inception)
             Sample.discover_logged_in Sample.session_storage)) = None.
Proof.
  apply C10_busy_indicator_is_reset. left.
  replace Sample.discover_logged_in
    with (state_after (run Discover.authGuard Discover.initial Sample.session_storage))
    by (vm_compute; reflexivity).
  eapply reachable_step; [apply reachable_initial | apply step_authGuard].
Defined.

(** ** Mounting the discovery screen *)

Section Mount.

Context {host : Host}.

Lemma render_card_total st movie :
  exists card,
    Discover.render_card st movie = Some card
    /\ Discover.heading card = DiscoverMovie.title movie
    /\ Discover.add_disabled card
       = negb (truthy_opt (Discover.sessionToken st))
         || bool_decide (Discover.busyId st = Some (DiscoverMovie.id movie)).
Proof.
  unfold Discover.render_card, Discover.render_badge.
  destruct (Discover.getGlobalSummary _ _) as [g|]; simpl.
  - destruct (discover_renderStars_total (RatingSummary.roundedRating g))
      as [n [k ->]].
    simpl. eexists. repeat split.
  - eexists. repeat split.
Qed.

Lemma render_cards_total st (catalog : list DiscoverMovie.t) :
  exists cs,
    mapM (Discover.render_card st) catalog = Some cs
    /\ map Discover.heading cs = map DiscoverMovie.title catalog.
Proof.
  induction catalog as [|movie rest [cs [Hcs Hh]]]; simpl.
  - now exists [].
  - destruct (render_card_total st movie) as [card [Hc [Ht _]]].
    rewrite Hc. simpl. rewrite Hcs. simpl.
    exists (card :: cs). split; [reflexivity|]. simpl. now rewrite Ht, Hh.
Qed.

Lemma authGuard_without_session st ls :
  present (ls !! mp_sessionToken) = None \/ present (ls !! mp_username) = None ->
  run Discover.authGuard st ls
  = (Returned, st, {| localStorage := ls; effects := [Navigate Replace (str "/")] |}).
Proof.
  unfold present.
  exec; intros [?|?]; repeat case_match; simplify_eq/=; reflexivity.
Qed.

Lemma authGuard_with_session st ls token user :
  present (ls !! mp_sessionToken) = Some token ->
  present (ls !! mp_username) = Some user ->
  run Discover.authGuard st ls
  = (Normal tt,
     {| Discover.sessionToken := Some token; Discover.currentUser := Some user;
        Discover.error := Discover.error st; Discover.busyId := Discover.busyId st;
        Discover.ratings := Discover.ratings st |},
     {| localStorage := ls; effects := [] |}).
Proof.
  unfold present.
  exec; intros; repeat case_match; simplify_eq/=; reflexivity.
Qed.

End Mount.

(** C3, as the code has it: mounting the discovery screen on an empty
    storage replaces the route by the auth screen's. *)
Lemma C3_mount_without_session_redirects :
  log_of (run Discover.authGuard Discover.initial ∅) = [Navigate Replace (str "/")]
  /\ location (log_of (run Discover.authGuard Discover.initial ∅)) = Some (str "/").
Proof. split; vm_compute; reflexivity. Qed.

(** C3, in the form the code satisfies: what the discovery screen returns
    lists the whole fixed catalog, in order, whatever its state (session or
    not), but its mount effect is an auth guard: when either session slot of the storage is
    absent or empty it replaces the route by the auth screen's and sets
    nothing; only with both slots filled does it stay, copying them into
    the state. *)
Theorem C3_catalog_rendered_mount_guarded `{Host} :
  (forall st,
     exists view,
       Discover.render st = Some view
       /\ map Discover.heading (Discover.cards view)
          = map DiscoverMovie.title Discover.DISCOVER_MOVIES)
  /\ (forall st ls,
        present (ls !! mp_sessionToken) = None
        \/ present (ls !! mp_username) = None ->
        let r := run Discover.authGuard st ls in
        log_of r = [Navigate Replace (str "/")]
        /\ location (log_of r) = Some (str "/")
        /\ state_after r = st
        /\ storage_after r = ls)
  /\ (forall st ls token user,
        present (ls !! mp_sessionToken) = Some token ->
        present (ls !! mp_username) = Some user ->
        let r := run Discover.authGuard st ls in
        log_of r = []
        /\ Discover.sessionToken (state_after r) = Some token
        /\ Discover.currentUser (state_after r) = Some user).
Proof.
  split; [|split].
  - intros st. unfold Discover.render.
    destruct (render_cards_total st Discover.DISCOVER_MOVIES) as [cs [Hcs Hh]].
    rewrite Hcs. simpl. eexists. split; [reflexivity | exact Hh].
  - intros st ls Hno r. subst r. rewrite (authGuard_without_session st ls Hno).
    repeat split.
  - intros st ls token user Ht Hu r. subst r.
    rewrite (authGuard_with_session st ls token user Ht Hu). repeat split.
Qed.

(** C3, run: an empty storage, and a stored session. *)
Lemma C3_mount_witness :
  log_of (run Discover.authGuard Discover.initial ∅) = [Navigate Replace (str "/")]
  /\ log_of (run Discover.authGuard Discover.initial Sample.session_storage) = [].
Proof.
  split.
  - apply (proj1 (proj2 (@C3_catalog_rendered_mount_guarded Sample.sampleHost))).
    left. vm_compute. reflexivity.
  - apply (proj2 (proj2 (@C3_catalog_rendered_mount_guarded Sample.sampleHost))
             Discover.initial Sample.session_storage (str "tok-1") (str "ann"));
      vm_compute; reflexivity.
Defined.

(** ** Marking a record watched on the account screen *)




(** ** Submitting the auth form *)

Section Login.

Context {host : Host}.

(** A login answered with a success status and a body that is not the
    literal [null] and has nothing truthy under [sessionToken] (an object
    without the field, a value that is not an object, a field holding
    [null], the empty string, [false] or zero; or a body that does not
    parse) stores nothing, goes nowhere, and shows the missing-token
    message. *)
Lemma login_without_token_field w st ls res :
  Home.authMode st = Home.login ->
  trim (Home.username st) <> [] ->
  trim (Home.password st) <> [] ->
  auth_service w []
    {| method := POST; url := API_BASE_URL ++ str "/auth/login";
       headers := json_headers;
       body := Some [ (str "username", JString (trim (Home.username st)));
                      (str "password", JString (trim (Home.password st))) ] |}
  = Resolved res ->
  ok res = true ->
  (forall d, json res = inr d ->
     exists v, property d (str "sessionToken") = Some v
               /\ truthy_value v = false) ->
  let r := run (Home.handleAuthSubmit w) st ls in
  storage_after r = ls
  /\ location (log_of r) = None
  /\ Home.authError (state_after r) = VString Home.no_session_token.
Proof.
  intros Hm Hu Hp Hsrv Hok Hbody r. subst r.
  destruct (trim (Home.username st)) as [|u us] eqn:Eu; [contradiction|].
  destruct (trim (Home.password st)) as [|p ps] eqn:Ep; [contradiction|].
  unfold_home; unfold_monad. cbn -[str of_N].
  rewrite Eu, Ep, Hm. cbn -[str of_N]. rewrite Hsrv. cbn -[str of_N].
  rewrite Hok. cbn -[str of_N].
  destruct (json res) as [e|d] eqn:Ej; cbn -[str of_N].
  - repeat split.
  - destruct (Hbody d eq_refl) as [v [-> Hv]]. cbn -[str of_N].
    rewrite Hv. cbn -[str of_N]. repeat split.
Qed.

(** With the literal [null] as the body, the read of [data.sessionToken]
    throws and the catch block shows the thrown value's message. *)
Lemma login_with_null_body w st ls res :
  Home.authMode st = Home.login ->
  trim (Home.username st) <> [] ->
  trim (Home.password st) <> [] ->
  auth_service w []
    {| method := POST; url := API_BASE_URL ++ str "/auth/login";
       headers := json_headers;
       body := Some [ (str "username", JString (trim (Home.username st)));
                      (str "password", JString (trim (Home.password st))) ] |}
  = Resolved res ->
  ok res = true ->
  json res = inr VNull ->
  let r := run (Home.handleAuthSubmit w) st ls in
  storage_after r = ls
  /\ location (log_of r) = None
  /\ Home.authError (state_after r)
     = VString (nullish (message (nullPropertyError (str "sessionToken")))
                  (str "Auth error")).
Proof.
  intros Hm Hu Hp Hsrv Hok Hbody r. subst r.
  destruct (trim (Home.username st)) as [|u us] eqn:Eu; [contradiction|].
  destruct (trim (Home.password st)) as [|p ps] eqn:Ep; [contradiction|].
  unfold_home; unfold_monad. cbn -[str of_N].
  rewrite Eu, Ep, Hm. cbn -[str of_N]. rewrite Hsrv. cbn -[str of_N].
  rewrite Hok, Hbody. cbn -[str of_N]. repeat split.
Qed.

End Login.

(** C5, on the failing input: a login answered 200 with the JSON body
    [null], which has no [sessionToken] field.  Nothing is stored and the
    router stays, but the error shown is the engine's TypeError message
    and not "No session token returned from server.". *)
Theorem C5_login_null_body_shows_type_error :
  let w := Sample.scripted (Sample.respond 200 VNull) (Sample.respond 200 tt)
             (Sample.respond 200 []) (Sample.respond 200 []) [] true in
  let st := {| Home.authMode := Home.login; Home.username := str "ann";
               Home.password := str "secret"; Home.authLoading := false;
               Home.authError := VNull; Home.infoMessage := None |} in
  let r := run (@Home.handleAuthSubmit Sample.sampleHost w) st ∅ in
  storage_after r = ∅
  /\ location (log_of r) = None
  /\ Home.authError (state_after r)
     = VString (str "Cannot read properties of null (reading 'sessionToken')")
  /\ Home.authError (state_after r) <> VString Home.no_session_token.
Proof.
  cbv zeta. repeat split; try (vm_compute; reflexivity).
  vm_compute. discriminate.
Qed.

(** ** Local validation *)

(** C6: a local validation failure sends no request and leaves the storage
    as it was.  Submitting the auth form with a username or a password
    that is blank after trimming does nothing to the outside world at all
    and shows "Username and password are required."; submitting the
    account's create form with a title that is empty after trimming, or
    with status HAVE_WATCHED and no rating selected, sends no request and
    leaves storage and cached list alone: with a session in the state the
    only effect is the alert and the state is unchanged. *)
Theorem C6_local_validation_sends_nothing `{Host} (w : World)
    (ls : gmap jsstring jsstring) :
  (forall st,
     trim (Home.username st) = [] \/ trim (Home.password st) = [] ->
     let r := run (Home.handleAuthSubmit w) st ls in
     log_of r = []
     /\ storage_after r = ls
     /\ state_after r
        = {| Home.authMode := Home.authMode st;
             Home.username := Home.username st;
             Home.password := Home.password st;
             Home.authLoading := Home.authLoading st;
             Home.authError := VString Home.required_fields;
             Home.infoMessage := None |})
  /\ (forall st,
        trim (Account.title st) = []
        \/ (Account.status st = Account.HAVE_WATCHED /\ Account.rating st = None) ->
        let r := run (Account.handleAddMovie w) st ls in
        requests (log_of r) = []
        /\ storage_after r = ls
        /\ Account.movies (state_after r) = Account.movies st
        /\ (present (Account.sessionToken st) <> None ->
            state_after r = st
            /\ (log_of r = [Alert (str "Please enter a title")]
                \/ log_of r = [Alert Account.rating_required]))).
Proof.
  split.
  - intros st Hblank r. subst r.
    unfold_home; unfold_monad. cbn -[str of_N].
    assert (Hb : negb (truthy (trim (Home.username st)))
                 || negb (truthy (trim (Home.password st))) = true).
    { destruct Hblank as [-> | ->]; [reflexivity | apply orb_true_r]. }
    rewrite Hb. cbn -[str of_N]. repeat split.
  - intros st Hbad r. subst r.
    unfold_account; unfold_monad. cbn -[str of_N].
    destruct (present (Account.sessionToken st)) as [token|] eqn:Hs;
      cbn -[str of_N].
    + destruct (negb (truthy (trim (Account.title st)))) eqn:Ht; cbn -[str of_N].
      * refine (conj eq_refl (conj eq_refl (conj eq_refl _))). intros _.
        split; [now destruct st | now left].
      * destruct Hbad as [Hblank | [Hst Hr]].
        { rewrite Hblank in Ht. discriminate. }
        rewrite Hst, Hr. cbn -[str of_N].
        refine (conj eq_refl (conj eq_refl (conj eq_refl _))). intros _.
        split; [now destruct st | now right].
    + refine (conj eq_refl (conj eq_refl (conj eq_refl _))).
      intros Hne. now contradiction Hne.
Qed.

(** C6, run on the sample host: a blank username with a password, and a
    watched movie without a rating. *)
Lemma C6_local_validation_witness :
  log_of
    (run (@Home.handleAuthSubmit Sample.sampleHost (Sample.answering 200 [] true))
       {| Home.authMode := Home.login; Home.username := str "  ";
          Home.password := str "secret"; Home.authLoading := false;
          Home.authError := VNull; Home.infoMessage := None |}
       Sample.session_storage) = []
  /\ requests
       (log_of
          (run (@Account.handleAddMovie Sample.sampleHost
                  (Sample.answering 200 [] true))
             {| Account.sessionToken := Some (str "tok-1");
                Account.currentUser := Some (str "ann");
                Account.movies := []; Account.loadingMovies := false;
                Account.moviesError := None; Account.filter := Account.ALL;
                Account.title := str "Heat";
                Account.status := Account.HAVE_WATCHED;
                Account.review := []; Account.rating := None;
                Account.posterUrl := []; Account.searchQuery := [] |}
             Sample.session_storage)) = [].
Proof.
  pose proof (@C6_local_validation_sends_nothing Sample.sampleHost
                (Sample.answering 200 [] true) Sample.session_storage)
    as [Hauth Hadd].
  split.
  - apply Hauth. left. vm_compute. reflexivity.
  - apply Hadd. right. split; reflexivity.
Defined.


(** ** Deleting a record *)

Section Delete.

Context {host : Host}.





End Delete.



(** * Further properties of the three screens *)

(** ** Tactics for the paths of a handler *)

(** Decides the comparisons of key literals in the goal. *)
Ltac compare_keys :=
  repeat match goal with
  | |- context [str_eqb (str ?a) (str ?b)] =>
      let v := eval vm_compute in (str_eqb (str a) (str b)) in
      change (str_eqb (str a) (str b)) with v
  end;
  cbn -[str of_N].

(** Takes apart the hypothesis that a request is among those of a log. *)
Ltac pick_request req :=
  repeat match goal with
  | Hor : _ \/ _ |- _ => destruct Hor as [Hor|Hor]
  | Hf : False |- _ => destruct Hf
  end;
  subst req; cbn -[str of_N].

(** Turns boolean facts about a validated rating into their parts. *)
Ltac bool_facts :=
  repeat match goal with
  | Hb : _ && _ = true |- _ => apply andb_true_iff in Hb as [? ?]
  | Hb : negb _ = true |- _ => apply negb_true_iff in Hb
  | Hb : negb _ = false |- _ => apply negb_false_iff in Hb
  end.

(** Identifies two outcomes recorded for the same request. *)
Ltac same_outcome :=
  repeat match goal with
  | H1 : ?a = Resolved ?r, H2 : ?a = Resolved ?r' |- _ =>
      assert (r' = r) by congruence; subst r'; clear H2
  | H1 : ?a = Rejected ?e, H2 : ?a = Rejected ?e' |- _ =>
      assert (e' = e) by congruence; subst e'; clear H2
  | H1 : ?a = Rejected _, H2 : ?a = Resolved _ |- _ =>
      exfalso; congruence
  end.

(** Closes a path on which a response was tested to be a 401 although it
    is assumed to be a success or not to be one. *)
Ltac absurd_status :=
  try match goal with
  | Heq : (status ?r =? 401) = true |- _ =>
      apply N.eqb_eq in Heq;
      first [ contradiction
            | match goal with
              | Hok : ok r = true |- _ =>
                  unfold ok in Hok; rewrite Heq in Hok; discriminate Hok
              end ]
  end.

(** ** Entering the application *)

(** X1: for every content of the storage exactly one of the entry guards
    fires.  With both session slots holding non-empty strings the auth
    screen replaces the route by /discover and the guards of the discovery
    and account screens let the visitor stay, copying the two slots into
    their state; with a slot missing or empty the auth screen stays and
    both guards replace the route by /, their state left alone.  None of
    the three writes to the storage, and the auth screen's effect leaves
    its state alone. *)
Theorem X1_entry_guards_complementary (ls : gmap jsstring jsstring)
    (hst : Home.State) (dst : Discover.State) (ast : Account.State) :
  let home := run Home.redirectIfLoggedIn hst ls in
  let disc := run Discover.authGuard dst ls in
  let acct := run Account.authGuard ast ls in
  (state_after home = hst /\ storage_after home = ls
   /\ storage_after disc = ls /\ storage_after acct = ls)
  /\ (forall t u,
        ls !! mp_sessionToken = Some t -> ls !! mp_username = Some u ->
        t <> [] -> u <> [] ->
        log_of home = [Navigate Replace (str "/discover")]
        /\ log_of disc = [] /\ log_of acct = []
        /\ Discover.sessionToken (state_after disc) = Some t
        /\ Discover.currentUser (state_after disc) = Some u
        /\ Account.sessionToken (state_after acct) = Some t
        /\ Account.currentUser (state_after acct) = Some u)
  /\ (ls !! mp_sessionToken = None \/ ls !! mp_sessionToken = Some []
      \/ ls !! mp_username = None \/ ls !! mp_username = Some [] ->
      log_of home = []
      /\ log_of disc = [Navigate Replace (str "/")]
      /\ log_of acct = [Navigate Replace (str "/")]
      /\ state_after disc = dst /\ state_after acct = ast).
Proof.
  cbv zeta. unfold Home.redirectIfLoggedIn, Discover.authGuard, Account.authGuard.
  unfold_discover; unfold_account; unfold_home; unfold_monad. cbn -[str of_N].
  split; [|split].
  - destruct (truthy_opt (ls !! mp_sessionToken)), (truthy_opt (ls !! mp_username));
      cbn -[str of_N]; repeat split.
  - intros t u -> -> Ht Hu. destruct t; [contradiction|]. destruct u; [contradiction|].
    cbn -[str of_N]. repeat split.
  - intros [-> | [-> | [-> | ->]]]; cbn -[str of_N];
      try (destruct (truthy_opt (ls !! mp_sessionToken)); cbn -[str of_N]);
      repeat split.
Qed.

(** X1, run: a storage with a session, and an empty storage. *)
Lemma X1_entry_guards_witness :
  (log_of (run Home.redirectIfLoggedIn Home.initial Sample.session_storage)
   = [Navigate Replace (str "/discover")]
   /\ log_of (run Discover.authGuard Discover.initial Sample.session_storage) = []
   /\ Discover.sessionToken
        (state_after (run Discover.authGuard Discover.initial Sample.session_storage))
      = Some (str "tok-1"))
  /\ (log_of (run Home.redirectIfLoggedIn Home.initial ∅) = []
      /\ log_of (run Discover.authGuard Discover.initial ∅)
         = [Navigate Replace (str "/")]
      /\ log_of (run Account.authGuard Account.initial ∅)
         = [Navigate Replace (str "/")]).
Proof.
  pose proof (proj1 (proj2 (X1_entry_guards_complementary Sample.session_storage
                              Home.initial Discover.initial Account.initial))
                (str "tok-1") (str "ann") eq_refl eq_refl
                ltac:(discriminate) ltac:(discriminate))
    as [H1 [H2 [_ [H4 _]]]].
  pose proof (proj2 (proj2 (X1_entry_guards_complementary ∅
                              Home.initial Discover.initial Account.initial))
                (or_introl eq_refl))
    as [H5 [H6 [H7 _]]].
  split; [split; [exact H1 | split; [exact H2 | exact H4]]|].
  split; [exact H5 | split; [exact H6 | exact H7]].
Defined.

(** ** Submitting credentials *)

Section Submit.

Context {host : Host}.

(** The storage after a successful login. *)
Lemma stored_session (ls : gmap jsstring jsstring) (t u : jsstring) :
  <[mp_username := u]> (<[mp_sessionToken := t]> ls) !! mp_sessionToken = Some t
  /\ <[mp_username := u]> (<[mp_sessionToken := t]> ls) !! mp_username = Some u.
Proof.
  split.
  - rewrite lookup_insert_ne by (symmetry; apply mp_keys_distinct).
    apply lookup_insert_eq.
  - apply lookup_insert_eq.
Qed.

Lemma truthy_nonempty (s : jsstring) : s <> [] -> truthy s = true.
Proof. destruct s; [contradiction | reflexivity]. Qed.

Lemma present_nonempty (s : jsstring) : s <> [] -> present (Some s) = Some s.
Proof. destruct s; [contradiction | reflexivity]. Qed.

Lemma present_some (v : option jsstring) (s : jsstring) :
  present v = Some s -> v = Some s /\ s <> [].
Proof.
  destruct v as [[|c r]|]; simpl; intros E; try discriminate.
  injection E as <-. split; [reflexivity | discriminate].
Qed.

Lemma handleAuthSubmit_storage w st ls :
  storage_after (run (Home.handleAuthSubmit w) st ls) = ls
  \/ (Home.authMode st = Home.login
      /\ exists v t,
           truthy_value v = true
           /\ to_string v = Some t
           /\ storage_after (run (Home.handleAuthSubmit w) st ls)
              = <[mp_username := trim (Home.username st)]>
                  (<[mp_sessionToken := t]> ls)
           /\ navigations (log_of (run (Home.handleAuthSubmit w) st ls))
              = [(Push, str "/discover")]).
Proof.
  unfold_home; unfold_monad. cbn -[str of_N to_string].
  repeat (split_step; cbn -[str of_N to_string]); try (left; reflexivity).
  all: right; split; [reflexivity|]; eexists _, _;
    split; [|split; [eassumption | split; reflexivity]].
  all: match goal with
       | H : negb (truthy_value _) = false |- _ => apply negb_false_iff in H; exact H
       end.
Qed.

Lemma handleAuthSubmit_navigation w st ls :
  navigations (log_of (run (Home.handleAuthSubmit w) st ls)) = []
  \/ navigations (log_of (run (Home.handleAuthSubmit w) st ls))
     = [(Push, str "/discover")].
Proof. exec; auto. Qed.

End Submit.

Section SubmitPaths.

Context {host : Host}.

Lemma validation_passes (st : Home.State) :
  trim (Home.username st) <> [] ->
  trim (Home.password st) <> [] ->
  negb (truthy (trim (Home.username st)))
  || negb (truthy (trim (Home.password st))) = false.
Proof. intros Hu Hp. now rewrite !truthy_nonempty. Qed.

End SubmitPaths.

(** X2: a registration never logs in.  In register mode, whatever the
    service answers, the storage is left as it was and the router is not
    used; on a success status the screen falls back to the login mode with
    the message "Account created. Please log in.", no error, and the
    loading flag cleared. *)
Theorem X2_register_never_logs_in `{Host} (w : World) (st : Home.State)
    (ls : gmap jsstring jsstring) :
  Home.authMode st = Home.register ->
  let r := run (Home.handleAuthSubmit w) st ls in
  storage_after r = ls
  /\ navigations (log_of r) = []
  /\ (forall res,
        trim (Home.username st) <> [] ->
        trim (Home.password st) <> [] ->
        auth_service w [] (auth_request st) = Resolved res ->
        ok res = true ->
        state_after r
        = {| Home.authMode := Home.login;
             Home.username := Home.username st;
             Home.password := Home.password st;
             Home.authLoading := false;
             Home.authError := VNull;
             Home.infoMessage := Some (str "Account created. Please log in.") |}
        /\ HomeView.title (HomeView.render (state_after r)) = str "Log in").
Proof.
  intros Hm r. subst r. split; [|split].
  - destruct (handleAuthSubmit_storage w st ls) as [E|[Hl _]]; [exact E|congruence].
  - revert Hm. exec; intros; try reflexivity; congruence.
  - intros res Hu Hp Hsrv Hok. unfold auth_request in Hsrv. rewrite Hm in Hsrv.
    unfold_home; unfold_monad. cbn -[str of_N].
    rewrite (validation_passes st Hu Hp), Hm. cbn -[str of_N].
    rewrite Hsrv. cbn -[str of_N]. rewrite Hok. cbn -[str of_N].
    split; reflexivity.
Qed.

(** X2, run on the sample host: a registration answered 201. *)
Lemma X2_register_witness :
  storage_after
    (run (@Home.handleAuthSubmit Sample.sampleHost
            (Cases.auth_answering 201 (VObject [])))
       (Cases.ann Home.register) ∅) = ∅
  /\ navigations
       (log_of
          (run (@Home.handleAuthSubmit Sample.sampleHost
                  (Cases.auth_answering 201 (VObject [])))
             (Cases.ann Home.register) ∅)) = []
  /\ Home.authMode
       (state_after
          (run (@Home.handleAuthSubmit Sample.sampleHost
                  (Cases.auth_answering 201 (VObject [])))
             (Cases.ann Home.register) ∅)) = Home.login.
Proof.
  pose proof (@X2_register_never_logs_in Sample.sampleHost
                (Cases.auth_answering 201 (VObject []))
                (Cases.ann Home.register) ∅ eq_refl) as (Hs & Hn & Hok).
  split; [exact Hs | split; [exact Hn|]].
  refine (f_equal Home.authMode
            (proj1 (Hok {| status := 201; json := inr (VObject []) |}
                      _ _ eq_refl eq_refl)));
    vm_compute; discriminate.
Defined.

(** X3: a successful login is what the guards of the other screens look
    for.  When a login with non-blank credentials is answered with a
    success status and a body with a truthy [sessionToken], of whatever
    JSON type, then the token as a string and the trimmed username are
    stored under the two session keys, the router is pushed to /discover
    and no error is shown; a token that is a string is stored as it is.
    When the stored token is not empty, as that of a string token is, then
    on the storage the login leaves behind the guards of the discovery and
    account screens do not redirect and take over exactly that token and
    that username, while the auth screen itself now redirects to
    /discover.  A token that has no string (an object with a property
    [toString], or an array holding one) stores nothing: the conversion
    throws, the router stays and the TypeError's message is shown. *)
Theorem X3_login_round_trip `{Host} (w : World) (st : Home.State)
    (ls : gmap jsstring jsstring) (res : Response Value) (d v : Value) :
  Home.authMode st = Home.login ->
  trim (Home.username st) <> [] ->
  trim (Home.password st) <> [] ->
  auth_service w [] (auth_request st) = Resolved res ->
  ok res = true ->
  json res = inr d ->
  property d (str "sessionToken") = Some v ->
  truthy_value v = true ->
  let r := run (Home.handleAuthSubmit w) st ls in
  (forall t,
     to_string v = Some t ->
     storage_after r
     = <[mp_username := trim (Home.username st)]> (<[mp_sessionToken := t]> ls)
     /\ log_of r = [Fetched (auth_request st) (Some (status res));
                    Navigate Push (str "/discover")]
     /\ Home.authError (state_after r) = VNull
     /\ Home.authLoading (state_after r) = false
     /\ (t <> [] ->
         (forall dst,
            let g := run Discover.authGuard dst (storage_after r) in
            log_of g = []
            /\ Discover.sessionToken (state_after g) = Some t
            /\ Discover.currentUser (state_after g)
               = Some (trim (Home.username st)))
         /\ (forall ast,
               let a := run Account.authGuard ast (storage_after r) in
               log_of a = []
               /\ Account.sessionToken (state_after a) = Some t
               /\ Account.currentUser (state_after a)
                  = Some (trim (Home.username st)))
         /\ (forall hst,
               log_of (run Home.redirectIfLoggedIn hst (storage_after r))
               = [Navigate Replace (str "/discover")])))
  /\ (forall t, v = VString t -> to_string v = Some t /\ t <> [])
  /\ (to_string v = None ->
      storage_after r = ls
      /\ navigations (log_of r) = []
      /\ Home.authError (state_after r)
         = VString (nullish (message conversionError) (str "Auth error"))
      /\ Home.authLoading (state_after r) = false).
Proof.
  intros Hm Hu Hp Hsrv Hok Hj Hv Ht r.
  split; [|split].
  - intros t Hs.
    assert (Hr : run (Home.handleAuthSubmit w) st ls
                 = (Normal tt,
                    {| Home.authMode := Home.login;
                       Home.username := Home.username st;
                       Home.password := Home.password st;
                       Home.authLoading := false;
                       Home.authError := VNull;
                       Home.infoMessage := None |},
                    {| localStorage :=
                         <[mp_username := trim (Home.username st)]>
                           (<[mp_sessionToken := t]> ls);
                       effects := [Fetched (auth_request st) (Some (status res));
                                   Navigate Push (str "/discover")] |})).
    { unfold auth_request in *. rewrite Hm in *.
      unfold_home; unfold_monad. cbn -[str of_N to_string].
      rewrite (validation_passes st Hu Hp), Hm. cbn -[str of_N to_string].
      rewrite Hsrv. cbn -[str of_N to_string]. rewrite Hok, Hj.
      cbn -[str of_N to_string]. rewrite Hv. cbn -[str of_N to_string].
      rewrite Ht. cbn -[str of_N to_string]. rewrite Hs. reflexivity. }
    subst r. rewrite Hr. unfold storage_after, log_of, state_after, browser_after.
    cbn -[str of_N to_string].
    destruct (stored_session ls t (trim (Home.username st))) as [Hst Hsu].
    split; [reflexivity|]. split; [reflexivity|]. split; [reflexivity|].
    split; [reflexivity|].
    intros Hne.
    assert (Htt : truthy_opt (Some t) = true) by now apply truthy_nonempty.
    assert (Htu : truthy_opt (Some (trim (Home.username st))) = true)
      by now apply truthy_nonempty.
    repeat split.
    all: intros; unfold_discover; unfold_account; unfold_home; unfold_monad;
      cbn -[str of_N to_string]; rewrite Hst, Hsu, Htt, Htu; reflexivity.
  - intros t ->. split; [reflexivity | now destruct t].
  - intros Hs. subst r. unfold auth_request in *. rewrite Hm in *.
    unfold_home; unfold_monad. cbn -[str of_N to_string].
    rewrite (validation_passes st Hu Hp), Hm. cbn -[str of_N to_string].
    rewrite Hsrv. cbn -[str of_N to_string]. rewrite Hok, Hj.
    cbn -[str of_N to_string]. rewrite Hv. cbn -[str of_N to_string].
    rewrite Ht. cbn -[str of_N to_string]. rewrite Hs. repeat split.
Qed.

(** X3, run on the sample host: a token that is a string, one that is a
    number, and one that is an object with a property [toString]. *)
Lemma X3_login_witness :
  storage_after
    (run (@Home.handleAuthSubmit Sample.sampleHost
            (Cases.auth_answering 200
               (VObject [(str "sessionToken", VString (str "tok-1"))])))
       (Cases.ann Home.login) ∅)
  = Sample.session_storage
  /\ storage_after
       (run (@Home.handleAuthSubmit Sample.sampleHost
               (Cases.auth_answering 200
                  (VObject [(str "sessionToken", VNumber 42%float)])))
          (Cases.ann Home.login) ∅)
     = <[mp_username := str "ann"]> (<[mp_sessionToken := str "42"]> ∅)
  /\ Home.authError
       (state_after
          (run (@Home.handleAuthSubmit Sample.sampleHost
                  (Cases.auth_answering 200
                     (VObject [(str "sessionToken",
                                VObject [(str "toString", VNull)])])))
             (Cases.ann Home.login) ∅))
     = VString (str "Cannot convert object to primitive value").
Proof.
  split; [|split].
  - refine (eq_trans
              (proj1 (proj1 (@X3_login_round_trip Sample.sampleHost
                        (Cases.auth_answering 200
                           (VObject [(str "sessionToken", VString (str "tok-1"))]))
                        (Cases.ann Home.login) ∅
                        {| status := 200;
                           json := inr (VObject [(str "sessionToken",
                                                  VString (str "tok-1"))]) |}
                        (VObject [(str "sessionToken", VString (str "tok-1"))])
                        (VString (str "tok-1"))
                        eq_refl _ _ eq_refl eq_refl eq_refl eq_refl eq_refl)
                     (str "tok-1") eq_refl))
              _).
    all: vm_compute; first [reflexivity | discriminate].
  - refine (eq_trans
              (proj1 (proj1 (@X3_login_round_trip Sample.sampleHost
                        (Cases.auth_answering 200
                           (VObject [(str "sessionToken", VNumber 42%float)]))
                        (Cases.ann Home.login) ∅
                        {| status := 200;
                           json := inr (VObject [(str "sessionToken",
                                                  VNumber 42%float)]) |}
                        (VObject [(str "sessionToken", VNumber 42%float)])
                        (VNumber 42%float)
                        eq_refl _ _ eq_refl eq_refl eq_refl eq_refl eq_refl)
                     (str "42") eq_refl))
              _).
    all: vm_compute; first [reflexivity | discriminate].
  - refine (proj1 (proj2 (proj2 (proj2 (proj2
              (@X3_login_round_trip Sample.sampleHost
                 (Cases.auth_answering 200
                    (VObject [(str "sessionToken",
                               VObject [(str "toString", VNull)])]))
                 (Cases.ann Home.login) ∅
                 {| status := 200;
                    json := inr (VObject [(str "sessionToken",
                                           VObject [(str "toString", VNull)])]) |}
                 (VObject [(str "sessionToken", VObject [(str "toString", VNull)])])
                 (VObject [(str "toString", VNull)])
                 eq_refl _ _ eq_refl eq_refl eq_refl eq_refl eq_refl)) eq_refl))));
      vm_compute; discriminate.
Defined.



(** X5: the submit button never stays disabled.  After any submission the
    loading flag is false when the fields passed the local validation
    (success, failure response, failed transport or thrown error alike),
    and is what it was when they did not. *)
Theorem X5_auth_loading_is_cleared `{Host} (w : World) (st : Home.State)
    (ls : gmap jsstring jsstring) :
  let r := run (Home.handleAuthSubmit w) st ls in
  Home.authLoading (state_after r)
  = (if negb (truthy (trim (Home.username st)))
        || negb (truthy (trim (Home.password st)))
     then Home.authLoading st else false)
  /\ HomeView.submit_disabled (HomeView.render (state_after r))
     = Home.authLoading (state_after r).
Proof. cbv zeta. split; [exec; reflexivity | reflexivity]. Qed.

(** ** The discovery screen beyond the catalog *)

(** X6: the fetch of the global summaries fails silently.  It sends one
    GET to /ratings without an Authorization header, and whatever comes
    back it never throws, never shows an alert, never navigates and never
    touches the storage; of the state it changes no cell but the
    summaries (session token, user, error banner and busy card stay as
    they were), and the summaries are replaced only by the parsed body of
    a success response and are otherwise kept. *)
Theorem X6_ratings_fetch_fails_silently `{Host} (w : World) (st : Discover.State)
    (ls : gmap jsstring jsstring) :
  let r := run (Discover.fetchRatings w) st ls in
  requests (log_of r) = [ratings_request]
  /\ (forall e, completion_of r <> Thrown e)
  /\ storage_after r = ls
  /\ navigations (log_of r) = []
  /\ alerts (log_of r) = []
  /\ state_after r
     = {| Discover.sessionToken := Discover.sessionToken st;
          Discover.currentUser := Discover.currentUser st;
          Discover.error := Discover.error st;
          Discover.busyId := Discover.busyId st;
          Discover.ratings := Discover.ratings (state_after r) |}
  /\ (Discover.ratings (state_after r) = Discover.ratings st
      \/ exists res,
           rating_service w [] ratings_request = Resolved res
           /\ ok res = true
           /\ json res = inr (Discover.ratings (state_after r))).
Proof.
  cbv zeta. unfold ratings_request.
  exec; repeat split; try discriminate; auto; try (now destruct st).
  all: right; eexists; split; [reflexivity|];
    split; [now apply negb_false_iff | assumption].
Qed.

(** ** Acting without a session *)

(** X7: without a session in the state no action reaches the service or
    the user.  On the discovery screen add-to-list and mark-watched set
    the error "Please log in again." and replace the route by the auth
    screen's, without a prompt; on the account screen create, status
    update, mark-watched and delete set the error "Please log in first."
    and stay, without a prompt or a confirmation, and the list fetch does
    nothing at all.  The storage is not touched. *)
Theorem X7_no_session_no_request `{Host} (w : World)
    (ls : gmap jsstring jsstring) :
  (forall st movie,
     present (Discover.sessionToken st) = None ->
     run (Discover.addToList w movie) st ls
     = (Returned, discover_refused st,
        {| localStorage := ls; effects := [Navigate Replace (str "/")] |})
     /\ run (Discover.markWatched w movie) st ls
        = (Returned, discover_refused st,
           {| localStorage := ls; effects := [Navigate Replace (str "/")] |}))
  /\ (forall st id newStatus movie,
        present (Account.sessionToken st) = None ->
        let refused :=
          (@Returned unit, account_refused st,
           {| localStorage := ls; effects := [] |}) in
        run (Account.handleAddMovie w) st ls = refused
        /\ run (Account.updateMovieStatus w id newStatus) st ls = refused
        /\ run (Account.markWatched w movie) st ls = refused
        /\ run (Account.deleteMovie w id) st ls = refused
        /\ run (Account.fetchMovies w) st ls
           = (Returned, st, {| localStorage := ls; effects := [] |})).
Proof.
  split.
  - intros st movie Hs.
    unfold_discover; unfold_monad. cbn -[str of_N]. rewrite Hs. split; reflexivity.
  - intros st id newStatus movie Hs. cbv zeta.
    unfold_account; unfold_monad. cbn -[str of_N]. rewrite Hs.
    repeat split.
Qed.

(** X7, run on the sample host from the states of freshly mounted
    screens. *)
Lemma X7_no_session_witness :
  log_of (run (@Discover.addToList Sample.sampleHost (Sample.answering 200 [] true)
                 Sample.inception) Discover.initial ∅)
  = [Navigate Replace (str "/")]
  /\ log_of (run (@Account.deleteMovie Sample.sampleHost
                    (Sample.answering 200 [] true) (str "m1"))
               Account.initial ∅) = [].
Proof.
  split.
  - exact (f_equal log_of
             (proj1 (proj1 (@X7_no_session_no_request Sample.sampleHost
                              (Sample.answering 200 [] true) ∅)
                       Discover.initial Sample.inception eq_refl))).
  - exact (f_equal log_of
             (proj1 (proj2 (proj2 (proj2
                (proj2 (@X7_no_session_no_request Sample.sampleHost
                          (Sample.answering 200 [] true) ∅)
                   Account.initial (str "m1") Account.PLAN_TO_WATCH
                   Sample.rated_three eq_refl)))))).
Defined.

(** ** Adding from the catalog *)

(** X8: what add-to-list sends and how it ends.  With a session it sends
    exactly one request, the POST to /movies with the JSON content type,
    the bearer token of the state, and the body {title, status:
    PLAN_TO_WATCH} and no other field.  A success status leaves no error,
    no navigation and the storage as it was; another status than 401 shows
    "HTTP <status>"; a failed transport shows the thrown message or
    "Failed to add movie".  Nothing is stored or navigated then either,
    and the failure is logged to the console. *)
Theorem X8_add_to_list_outcomes `{Host} (w : World) (movie : DiscoverMovie.t)
    (st : Discover.State) (ls : gmap jsstring jsstring) (token : jsstring) :
  present (Discover.sessionToken st) = Some token ->
  let req :=
    create_request token
      [ (str "title", JString (DiscoverMovie.title movie));
        (str "status", JString (str "PLAN_TO_WATCH")) ] in
  let r := run (Discover.addToList w movie) st ls in
  requests (log_of r) = [req]
  /\ (forall res,
        write_service w [] req = Resolved res ->
        (ok res = true ->
         log_of r = [Fetched req (Some (status res))]
         /\ storage_after r = ls
         /\ Discover.error (state_after r) = None)
        /\ (ok res = false -> status res <> 401 ->
            log_of r = [Fetched req (Some (status res));
                        ConsoleError (http_error (status res))]
            /\ storage_after r = ls
            /\ Discover.error (state_after r)
               = Some (str "HTTP " ++ of_N (status res))))
  /\ (forall e,
        write_service w [] req = Rejected e ->
        log_of r = [Fetched req None; ConsoleError e]
        /\ storage_after r = ls
        /\ Discover.error (state_after r)
           = Some (nullish (message e) (str "Failed to add movie"))).
Proof.
  intros Hs req r. subst req r. unfold create_request.
  unfold_discover; unfold_monad. cbn -[str of_N]. rewrite Hs. cbn -[str of_N].
  split; [|split].
  - repeat (split_step; cbn -[str of_N]); reflexivity.
  - intros res Hsrv. rewrite Hsrv. cbn -[str of_N]. split.
    + intros Hok.
      assert (H401 : (status res =? 401) = false).
      { unfold ok in Hok. apply andb_true_iff in Hok as [_ Hle].
        apply N.leb_le in Hle. apply N.eqb_neq. lia. }
      rewrite H401, Hok. cbn -[str of_N]. repeat split.
    + intros Hok H401. apply N.eqb_neq in H401.
      rewrite H401, Hok. cbn -[str of_N]. repeat split.
  - intros e Hsrv. rewrite Hsrv. cbn -[str of_N]. repeat split.
Qed.

(** X8, run on the sample host: answered 201, answered 500, and offline. *)
Lemma X8_add_to_list_witness :
  Discover.error
    (state_after
       (run (@Discover.addToList Sample.sampleHost (Sample.answering 201 [] true)
               Sample.inception)
          Sample.discover_logged_in Sample.session_storage)) = None
  /\ Discover.error
       (state_after
          (run (@Discover.addToList Sample.sampleHost (Sample.answering 500 [] true)
                  Sample.inception)
             Sample.discover_logged_in Sample.session_storage))
     = Some (str "HTTP 500")
  /\ Discover.error
       (state_after
          (run (@Discover.addToList Sample.sampleHost (Cases.offline [])
                  Sample.inception)
             Sample.discover_logged_in Sample.session_storage))
     = Some (str "Failed to fetch").
Proof.
  split; [|split].
  - exact (proj2 (proj2 (proj1 (proj1 (proj2
             (@X8_add_to_list_outcomes Sample.sampleHost
                (Sample.answering 201 [] true) Sample.inception
                Sample.discover_logged_in Sample.session_storage (str "tok-1")
                eq_refl))
             {| status := 201; json := inr tt |} eq_refl) eq_refl))).
  - refine (proj2 (proj2 (proj2 (proj1 (proj2
             (@X8_add_to_list_outcomes Sample.sampleHost
                (Sample.answering 500 [] true) Sample.inception
                Sample.discover_logged_in Sample.session_storage (str "tok-1")
                eq_refl))
             {| status := 500; json := inr tt |} eq_refl) eq_refl _))).
    discriminate.
  - exact (proj2 (proj2 (proj2 (proj2
             (@X8_add_to_list_outcomes Sample.sampleHost
                (Cases.offline []) Sample.inception
                Sample.discover_logged_in Sample.session_storage (str "tok-1")
                eq_refl))
             (Error (str "Failed to fetch")) eq_refl))).
Defined.

(** ** Marking watched from the catalog *)

(** X9: what the discovery screen's mark-watched sends.  Whatever the user
    types, every request it sends is the POST of a record with exactly the
    fields title, status, rating and review, status HAVE_WATCHED and the
    bearer token of the state; the rating is null or a number from 1 to 5
    (never NaN, never out of range), the review is null or a non-empty
    string; the only alert it can show is the invalid-rating warning, and
    when it shows it the rating sent is null.  Both prompts are shown with
    an empty default, the rating one first. *)
Theorem X9_discovery_review_is_normalised `{Host} (w : World)
    (movie : DiscoverMovie.t) (st : Discover.State) (ls : gmap jsstring jsstring) :
  let r := run (Discover.markWatched w movie) st ls in
  (forall req, In req (requests (log_of r)) ->
     method req = POST
     /\ url req = API_BASE_URL ++ str "/movies"
     /\ keys req = [str "title"; str "status"; str "rating"; str "review"]
     /\ field (str "title") req = Some (JString (DiscoverMovie.title movie))
     /\ field (str "status") req = Some (JString (str "HAVE_WATCHED"))
     /\ (field (str "rating") req = Some JNull
         \/ exists x, field (str "rating") req = Some (JNumber x)
                      /\ in_range x /\ alerts (log_of r) = [])
     /\ (field (str "review") req = Some JNull
         \/ exists s, field (str "review") req = Some (JString s) /\ s <> [])
     /\ map (fun p => (p.1.1, p.1.2)) (prompts (log_of r))
        = [ (Discover.rate_prompt (DiscoverMovie.title movie), []);
            (Discover.review_prompt (DiscoverMovie.title movie), []) ])
  /\ (alerts (log_of r) = [] \/ alerts (log_of r) = [Discover.invalid_rating]).
Proof.
  cbv zeta. split.
  - intros req. unfold in_range.
    exec; intros Hin; try solve [no_401]; pick_request req;
      unfold field, keys, or_null, json_string; cbn -[str of_N]; compare_keys;
      repeat (split_step; cbn -[str of_N]); bool_facts.
    all: repeat (split; [reflexivity|]).
    all: split; [first [left; reflexivity
                       | right; eexists; split; [reflexivity|];
                         split; [now repeat split | reflexivity]]|].
    all: split; [|reflexivity].
    all: first [left; reflexivity
               | right; eexists; split; [reflexivity|]; intros E;
                 match goal with
                 | Ht : truthy _ = true |- _ => rewrite E in Ht; discriminate Ht
                 end].
  - exec; auto.
Qed.

(** X9, run on the sample host: the user types "4" and " good ". *)
Lemma X9_discovery_review_witness :
  keys (@create_request Sample.sampleHost (str "tok-1")
          [ (str "title", JString (str "Inception"));
            (str "status", JString (str "HAVE_WATCHED"));
            (str "rating", JNumber 4%float);
            (str "review", JString (str "good")) ])
  = [str "title"; str "status"; str "rating"; str "review"].
Proof.
  refine (proj1 (proj2 (proj2
            (proj1 (@X9_discovery_review_is_normalised Sample.sampleHost
                      (Sample.answering 201 [Some (str "4"); Some (str " good ")] true)
                      Sample.inception Sample.discover_logged_in
                      Sample.session_storage)
               _ _)))).
  vm_compute. left. reflexivity.
Defined.

(** ** The busy state of the catalog cards *)

Section BusyCards.

Context {host : Host}.

Lemma render_card_buttons st movie card :
  Discover.render_card st movie = Some card ->
  Discover.key card = DiscoverMovie.id movie
  /\ Discover.mark_disabled card = Discover.add_disabled card
  /\ Discover.add_disabled card
     = negb (truthy_opt (Discover.sessionToken st))
       || bool_decide (Discover.busyId st = Some (DiscoverMovie.id movie))
  /\ Discover.add_label card
     = (if bool_decide (Discover.busyId st = Some (DiscoverMovie.id movie))
        then str "Adding..." else str "Add to My List")
  /\ Discover.mark_label card
     = (if bool_decide (Discover.busyId st = Some (DiscoverMovie.id movie))
        then str "Saving..." else str "Mark Watched & Review").
Proof.
  unfold Discover.render_card.
  destruct (Discover.render_badge _) as [b|]; simpl; [|discriminate].
  intros [= <-]. repeat split.
Qed.

Lemma Forall2_In_r {A B} (P : A -> B -> Prop) (l : list A) (k : list B) (y : B) :
  Forall2 P l k -> In y k -> exists x, In x l /\ P x y.
Proof.
  induction 1 as [|x y' l k Hp _ IH]; simpl; [intros []|].
  intros [<-|Hin].
  - exists x. split; [now left | exact Hp].
  - destruct (IH Hin) as [x' [Hx Hp']]. exists x'. split; [now right | exact Hp'].
Qed.

Lemma rendered_card_origin st view card :
  Discover.render st = Some view ->
  In card (Discover.cards view) ->
  exists movie,
    In movie Discover.DISCOVER_MOVIES
    /\ Discover.render_card st movie = Some card.
Proof.
  unfold Discover.render.
  destruct (mapM _ _) as [cs|] eqn:E; simpl; [|discriminate].
  intros [= <-]. simpl. intros Hin.
  apply mapM_Some in E. exact (Forall2_In_r _ _ _ _ E Hin).
Qed.

End BusyCards.

(** X10: the busy indicator marks one card.  In whatever the discovery
    screen renders, the two buttons of a card are disabled together;
    without a session in the state they are disabled on every card; with
    one they are disabled exactly on the card whose id is the busy id, and
    that card alone reads "Adding..." and "Saving..."; so two disabled
    cards of a logged-in screen are the same catalog entry. *)
Theorem X10_busy_marks_one_card `{Host} (st : Discover.State) (view : Discover.View) :
  Discover.render st = Some view ->
  (forall card,
     In card (Discover.cards view) ->
     Discover.mark_disabled card = Discover.add_disabled card
     /\ (truthy_opt (Discover.sessionToken st) = false ->
         Discover.add_disabled card = true)
     /\ (truthy_opt (Discover.sessionToken st) = true ->
         (Discover.add_disabled card = true
          <-> Discover.busyId st = Some (Discover.key card)))
     /\ (Discover.add_label card = str "Adding..."
         <-> Discover.busyId st = Some (Discover.key card))
     /\ (Discover.mark_label card = str "Saving..."
         <-> Discover.busyId st = Some (Discover.key card)))
  /\ (forall c1 c2,
        truthy_opt (Discover.sessionToken st) = true ->
        In c1 (Discover.cards view) -> In c2 (Discover.cards view) ->
        Discover.add_disabled c1 = true -> Discover.add_disabled c2 = true ->
        Discover.key c1 = Discover.key c2).
Proof.
  intros Hr.
  assert (Hcard : forall card,
     In card (Discover.cards view) ->
     Discover.mark_disabled card = Discover.add_disabled card
     /\ (truthy_opt (Discover.sessionToken st) = false ->
         Discover.add_disabled card = true)
     /\ (truthy_opt (Discover.sessionToken st) = true ->
         (Discover.add_disabled card = true
          <-> Discover.busyId st = Some (Discover.key card)))
     /\ (Discover.add_label card = str "Adding..."
         <-> Discover.busyId st = Some (Discover.key card))
     /\ (Discover.mark_label card = str "Saving..."
         <-> Discover.busyId st = Some (Discover.key card))).
  { intros card Hin.
    destruct (rendered_card_origin st view card Hr Hin) as [movie [_ Hc]].
    destruct (render_card_buttons st movie card Hc) as (Hk & Hm & Ha & Hal & Hml).
    rewrite Hk, Hm, Ha, Hal, Hml.
    destruct (bool_decide_reflect (Discover.busyId st = Some (DiscoverMovie.id movie)))
      as [Hb|Hb].
    - rewrite orb_true_r. repeat split; auto.
    - rewrite orb_false_r.
      refine (conj eq_refl (conj _ (conj _ (conj _ _)))).
      + now intros ->.
      + intros ->. split; [discriminate | contradiction].
      + split; [intros E; vm_compute in E; discriminate E | contradiction].
      + split; [intros E; vm_compute in E; discriminate E | contradiction]. }
  split; [exact Hcard|].
  intros c1 c2 Hs H1 H2 Hd1 Hd2.
  destruct (Hcard c1 H1) as (_ & _ & Hb1 & _).
  destruct (Hcard c2 H2) as (_ & _ & Hb2 & _).
  apply (Hb1 Hs) in Hd1. apply (Hb2 Hs) in Hd2. congruence.
Qed.

(** X10, run on the sample host: the second card is busy. *)
Lemma X10_busy_card_witness :
  exists view,
    @Discover.render Sample.sampleHost Cases.second_card_busy = Some view
    /\ map Discover.add_disabled (Discover.cards view) = [false; true; false; false]
    /\ forall card,
         In card (Discover.cards view) ->
         Discover.mark_disabled card = Discover.add_disabled card.
Proof.
  destruct (@Discover.render Sample.sampleHost Cases.second_card_busy)
    as [view|] eqn:E; [|vm_compute in E; discriminate E].
  exists view. split; [reflexivity|]. split.
  - vm_compute in E. injection E as <-. reflexivity.
  - intros card Hin.
    exact (proj1 (proj1 (@X10_busy_marks_one_card Sample.sampleHost
                           Cases.second_card_busy view E) card Hin)).
Defined.

(** ** Logging out *)

(** X11: logging out removes the session and nothing else.  On both
    screens the logout handler deletes the two session keys, keeps every
    other key of the storage and the component's state, and pushes the
    route of the auth screen; doing it again changes nothing more; and on
    the storage it leaves, the guards of the discovery and account screens
    redirect to the auth screen while the auth screen stays. *)
Theorem X11_logout_removes_only_the_session (ls : gmap jsstring jsstring)
    (dst : Discover.State) (ast : Account.State) :
  let d := run Discover.handleLogout dst ls in
  let a := run Account.handleLogout ast ls in
  state_after d = dst /\ state_after a = ast
  /\ storage_after a = storage_after d
  /\ log_of d = [Navigate Push (str "/")] /\ log_of a = [Navigate Push (str "/")]
  /\ logged_out (browser_after d)
  /\ (forall k, k <> mp_sessionToken -> k <> mp_username ->
        storage_after d !! k = ls !! k)
  /\ storage_after (run Discover.handleLogout dst (storage_after d))
     = storage_after d
  /\ (forall dst' ast' hst,
        log_of (run Discover.authGuard dst' (storage_after d))
        = [Navigate Replace (str "/")]
        /\ log_of (run Account.authGuard ast' (storage_after d))
           = [Navigate Replace (str "/")]
        /\ log_of (run Home.redirectIfLoggedIn hst (storage_after d)) = []).
Proof.
  cbv zeta.
  unfold_discover; unfold_account; unfold_home; unfold_monad. cbn -[str of_N].
  destruct (session_removed ls) as [Ht Hu].
  refine (conj eq_refl (conj eq_refl (conj eq_refl (conj eq_refl (conj eq_refl
            (conj _ (conj _ (conj _ _)))))))).
  - split; [exact Ht | split; [exact Hu | reflexivity]].
  - intros k Hkt Hku. now rewrite !lookup_delete_ne by congruence.
  - rewrite (delete_id _ mp_sessionToken) by exact Ht.
    now rewrite (delete_id _ mp_username) by exact Hu.
  - intros dst' ast' hst. rewrite Ht. cbn -[str of_N]. repeat split.
Qed.

(** ** The session and the requests *)

(** Finds the 401 of a log in which a response was tested to be one. *)
Ltac found_401 :=
  match goal with
  | Hno : ~ unauthorized _ |- _ =>
      exfalso; apply Hno; eexists;
      repeat match goal with
      | Heq : (_ =? 401) = true |- _ => apply N.eqb_eq in Heq; rewrite Heq
      end;
      cbn -[str of_N]; repeat (first [left; reflexivity | right])
  end.

Section SessionKept.

Context {host : Host}.

Lemma addToList_keeps_session w movie st ls :
  ~ unauthorized (log_of (run (Discover.addToList w movie) st ls)) ->
  storage_after (run (Discover.addToList w movie) st ls) = ls.
Proof. exec; intros Hno; try reflexivity; found_401. Qed.

Lemma discover_markWatched_keeps_session w movie st ls :
  ~ unauthorized (log_of (run (Discover.markWatched w movie) st ls)) ->
  storage_after (run (Discover.markWatched w movie) st ls) = ls.
Proof. exec; intros Hno; try reflexivity; found_401. Qed.

Lemma fetchMovies_keeps_session w st ls :
  ~ unauthorized (log_of (run (Account.fetchMovies w) st ls)) ->
  storage_after (run (Account.fetchMovies w) st ls) = ls
  /\ navigations (log_of (run (Account.fetchMovies w) st ls)) = [].
Proof. exec; intros Hno; try (split; reflexivity); found_401. Qed.

Lemma handleAddMovie_keeps_session w st ls :
  ~ unauthorized (log_of (run (Account.handleAddMovie w) st ls)) ->
  storage_after (run (Account.handleAddMovie w) st ls) = ls
  /\ navigations (log_of (run (Account.handleAddMovie w) st ls)) = [].
Proof. exec; intros Hno; try (split; reflexivity); found_401. Qed.

Lemma updateMovieStatus_keeps_session w id newStatus st ls :
  ~ unauthorized (log_of (run (Account.updateMovieStatus w id newStatus) st ls)) ->
  storage_after (run (Account.updateMovieStatus w id newStatus) st ls) = ls
  /\ navigations (log_of (run (Account.updateMovieStatus w id newStatus) st ls)) = [].
Proof. exec; intros Hno; try (split; reflexivity); found_401. Qed.

Lemma account_markWatched_keeps_session w movie st ls :
  ~ unauthorized (log_of (run (Account.markWatched w movie) st ls)) ->
  storage_after (run (Account.markWatched w movie) st ls) = ls
  /\ navigations (log_of (run (Account.markWatched w movie) st ls)) = [].
Proof. exec; intros Hno; try (split; reflexivity); found_401. Qed.

Lemma deleteMovie_keeps_session w id st ls :
  ~ unauthorized (log_of (run (Account.deleteMovie w id) st ls)) ->
  storage_after (run (Account.deleteMovie w id) st ls) = ls
  /\ navigations (log_of (run (Account.deleteMovie w id) st ls)) = [].
Proof. exec; intros Hno; try (split; reflexivity); found_401. Qed.

End SessionKept.

(** X12: only a 401 ends the session.  In each of the seven authenticated
    operations, a run in which no response carried status 401 (success,
    another failure status, a failed transport, a declined prompt or a
    local rejection) leaves the storage exactly as it was; on the account
    screen such a run does not navigate either. *)
Theorem X12_only_unauthorized_ends_session `{Host} (w : World)
    (ls : gmap jsstring jsstring) :
  (forall st movie,
     let r := run (Discover.addToList w movie) st ls in
     ~ unauthorized (log_of r) -> storage_after r = ls)
  /\ (forall st movie,
        let r := run (Discover.markWatched w movie) st ls in
        ~ unauthorized (log_of r) -> storage_after r = ls)
  /\ (forall st,
        let r := run (Account.fetchMovies w) st ls in
        ~ unauthorized (log_of r) ->
        storage_after r = ls /\ navigations (log_of r) = [])
  /\ (forall st,
        let r := run (Account.handleAddMovie w) st ls in
        ~ unauthorized (log_of r) ->
        storage_after r = ls /\ navigations (log_of r) = [])
  /\ (forall st id newStatus,
        let r := run (Account.updateMovieStatus w id newStatus) st ls in
        ~ unauthorized (log_of r) ->
        storage_after r = ls /\ navigations (log_of r) = [])
  /\ (forall st movie,
        let r := run (Account.markWatched w movie) st ls in
        ~ unauthorized (log_of r) ->
        storage_after r = ls /\ navigations (log_of r) = [])
  /\ (forall st id,
        let r := run (Account.deleteMovie w id) st ls in
        ~ unauthorized (log_of r) ->
        storage_after r = ls /\ navigations (log_of r) = []).
Proof.
  refine (conj _ (conj _ (conj _ (conj _ (conj _ (conj _ _)))))); intros; cbv zeta.
  - now apply addToList_keeps_session.
  - now apply discover_markWatched_keeps_session.
  - now apply fetchMovies_keeps_session.
  - now apply handleAddMovie_keeps_session.
  - now apply updateMovieStatus_keeps_session.
  - now apply account_markWatched_keeps_session.
  - now apply deleteMovie_keeps_session.
Qed.

(** X12, run on the sample host: the service answers 500, then 204. *)
Lemma X12_session_kept_witness :
  storage_after
    (run (@Discover.addToList Sample.sampleHost (Sample.answering 500 [] true)
            Sample.inception)
       Sample.discover_logged_in Sample.session_storage)
  = Sample.session_storage
  /\ storage_after
       (run (@Account.deleteMovie Sample.sampleHost (Sample.answering 204 [] true)
               (str "m1"))
          Sample.account_logged_in Sample.session_storage)
     = Sample.session_storage.
Proof.
  split.
  - apply (proj1 (@X12_only_unauthorized_ends_session Sample.sampleHost
                    (Sample.answering 500 [] true) Sample.session_storage)).
    intros [req Hin]. vm_compute in Hin. no_401.
  - apply (proj2 (proj2 (proj2 (proj2 (proj2 (proj2
             (@X12_only_unauthorized_ends_session Sample.sampleHost
                (Sample.answering 204 [] true) Sample.session_storage))))))).
    intros [req Hin]. vm_compute in Hin. no_401.
Defined.

(** Shows that a request of the log carries the bearer token. *)
Ltac carries_bearer req :=
  pick_request req; simplify_eq; eexists; (split; [reflexivity|]);
  cbn -[str of_N]; repeat (first [left; reflexivity | right]).

Section Bearer.

Context {host : Host}.

Lemma addToList_bearer w movie st ls req :
  In req (requests (log_of (run (Discover.addToList w movie) st ls))) ->
  authorized_by (Discover.sessionToken st) req.
Proof. unfold authorized_by. exec; intros Hin; carries_bearer req. Qed.

Lemma discover_markWatched_bearer w movie st ls req :
  In req (requests (log_of (run (Discover.markWatched w movie) st ls))) ->
  authorized_by (Discover.sessionToken st) req.
Proof. unfold authorized_by. exec; intros Hin; carries_bearer req. Qed.

Lemma fetchMovies_bearer w st ls req :
  In req (requests (log_of (run (Account.fetchMovies w) st ls))) ->
  authorized_by (Account.sessionToken st) req.
Proof. unfold authorized_by. exec; intros Hin; carries_bearer req. Qed.

Lemma handleAddMovie_bearer w st ls req :
  In req (requests (log_of (run (Account.handleAddMovie w) st ls))) ->
  authorized_by (Account.sessionToken st) req.
Proof. unfold authorized_by. exec; intros Hin; carries_bearer req. Qed.

Lemma updateMovieStatus_bearer w id newStatus st ls req :
  In req (requests (log_of (run (Account.updateMovieStatus w id newStatus) st ls))) ->
  authorized_by (Account.sessionToken st) req.
Proof. unfold authorized_by. exec; intros Hin; carries_bearer req. Qed.

Lemma account_markWatched_bearer w movie st ls req :
  In req (requests (log_of (run (Account.markWatched w movie) st ls))) ->
  authorized_by (Account.sessionToken st) req.
Proof. unfold authorized_by. exec; intros Hin; carries_bearer req. Qed.

Lemma deleteMovie_bearer w id st ls req :
  In req (requests (log_of (run (Account.deleteMovie w id) st ls))) ->
  authorized_by (Account.sessionToken st) req.
Proof. unfold authorized_by. exec; intros Hin; carries_bearer req. Qed.

End Bearer.

(** X13: every authenticated call presents the session.  Each request
    sent by any of the seven authenticated operations (the refetch of the
    list after a mutation included) carries the header
    Authorization: Bearer <token>, where the token is the non-empty session
    token of the component's state. *)
Theorem X13_requests_carry_bearer `{Host} (w : World)
    (ls : gmap jsstring jsstring) (req : Request) :
  (forall st movie,
     In req (requests (log_of (run (Discover.addToList w movie) st ls))) ->
     authorized_by (Discover.sessionToken st) req)
  /\ (forall st movie,
        In req (requests (log_of (run (Discover.markWatched w movie) st ls))) ->
        authorized_by (Discover.sessionToken st) req)
  /\ (forall st,
        In req (requests (log_of (run (Account.fetchMovies w) st ls))) ->
        authorized_by (Account.sessionToken st) req)
  /\ (forall st,
        In req (requests (log_of (run (Account.handleAddMovie w) st ls))) ->
        authorized_by (Account.sessionToken st) req)
  /\ (forall st id newStatus,
        In req (requests
                  (log_of (run (Account.updateMovieStatus w id newStatus) st ls))) ->
        authorized_by (Account.sessionToken st) req)
  /\ (forall st movie,
        In req (requests (log_of (run (Account.markWatched w movie) st ls))) ->
        authorized_by (Account.sessionToken st) req)
  /\ (forall st id,
        In req (requests (log_of (run (Account.deleteMovie w id) st ls))) ->
        authorized_by (Account.sessionToken st) req).
Proof.
  refine (conj _ (conj _ (conj _ (conj _ (conj _ (conj _ _)))))); intros.
  - now apply (addToList_bearer w movie st ls).
  - now apply (discover_markWatched_bearer w movie st ls).
  - now apply (fetchMovies_bearer w st ls).
  - now apply (handleAddMovie_bearer w st ls).
  - now apply (updateMovieStatus_bearer w id newStatus st ls).
  - now apply (account_markWatched_bearer w movie st ls).
  - now apply (deleteMovie_bearer w id st ls).
Qed.

(** X13, run on the sample host: the refetch after a status update. *)
Lemma X13_bearer_witness :
  authorized_by (Some (str "tok-1")) (@list_request Sample.sampleHost (str "tok-1")).
Proof.
  apply (proj1 (proj2 (proj2 (proj2 (proj2
           (@X13_requests_carry_bearer Sample.sampleHost
              (Sample.answering 200 [] true) Sample.session_storage
              (@list_request Sample.sampleHost (str "tok-1")))))))
           Sample.account_logged_in (str "m1") Account.PLAN_TO_WATCH).
  vm_compute. right. left. reflexivity.
Defined.

(** ** Fetching the list *)

(** X14: how the list fetch ends.  With a session it sends exactly the
    authenticated GET of /movies and never throws; afterwards the loading
    flag is false and session, filters and form cells are as before.  The
    cached list is replaced by the parsed body of a success response and
    the error cleared; a body that does not parse, another failure status
    than 401 and a failed transport keep the cached list and show the
    thrown message, "HTTP <status>", or "Failed to load movies". *)
Theorem X14_list_fetch_outcomes `{Host} (w : World) (st : Account.State)
    (ls : gmap jsstring jsstring) (token : jsstring) :
  present (Account.sessionToken st) = Some token ->
  let req := list_request token in
  let r := run (Account.fetchMovies w) st ls in
  requests (log_of r) = [req]
  /\ (forall e, completion_of r <> Thrown e)
  /\ Account.loadingMovies (state_after r) = false
  /\ same_form (state_after r) st
  /\ (forall res,
        movie_service w [] req = Resolved res ->
        (forall data, ok res = true -> json res = inr data ->
           Account.movies (state_after r) = data
           /\ Account.moviesError (state_after r) = None)
        /\ (forall e, ok res = true -> json res = inl e ->
              Account.movies (state_after r) = Account.movies st
              /\ Account.moviesError (state_after r)
                 = Some (nullish (message e) (str "Failed to load movies")))
        /\ (ok res = false -> status res <> 401 ->
            Account.movies (state_after r) = Account.movies st
            /\ Account.moviesError (state_after r)
               = Some (str "HTTP " ++ of_N (status res))))
  /\ (forall e,
        movie_service w [] req = Rejected e ->
        Account.movies (state_after r) = Account.movies st
        /\ Account.moviesError (state_after r)
           = Some (nullish (message e) (str "Failed to load movies"))).
Proof.
  intros Hs req r. subst req r. unfold list_request, same_form.
  unfold_account; unfold_monad. cbn -[str of_N]. rewrite Hs. cbn -[str of_N].
  refine (conj _ (conj _ (conj _ (conj _ (conj _ _))))).
  - repeat (split_step; cbn -[str of_N]); reflexivity.
  - intros e. repeat (split_step; cbn -[str of_N]); discriminate.
  - repeat (split_step; cbn -[str of_N]); reflexivity.
  - repeat (split_step; cbn -[str of_N]); repeat split.
  - intros res Hsrv. rewrite Hsrv. cbn -[str of_N].
    refine (conj _ (conj _ _)).
    + intros data Hok Hj.
      assert (H401 : (status res =? 401) = false).
      { unfold ok in Hok. apply andb_true_iff in Hok as [_ Hle].
        apply N.leb_le in Hle. apply N.eqb_neq. lia. }
      rewrite H401, Hok, Hj. cbn -[str of_N]. split; reflexivity.
    + intros e Hok Hj.
      assert (H401 : (status res =? 401) = false).
      { unfold ok in Hok. apply andb_true_iff in Hok as [_ Hle].
        apply N.leb_le in Hle. apply N.eqb_neq. lia. }
      rewrite H401, Hok, Hj. cbn -[str of_N]. split; reflexivity.
    + intros Hok H401. apply N.eqb_neq in H401.
      rewrite H401, Hok. cbn -[str of_N]. split; reflexivity.
  - intros e Hsrv. rewrite Hsrv. cbn -[str of_N]. split; reflexivity.
Qed.

(** X14, run on the sample host: a list of one record, and a 500. *)
Lemma X14_list_fetch_witness :
  Account.movies
    (state_after
       (run (@Account.fetchMovies Sample.sampleHost
               (Sample.scripted (Sample.respond 200 (VObject []))
                  (Sample.respond 200 tt) (Sample.respond 200 [Cases.odd_status])
                  (Sample.respond 200 []) [] true))
          Cases.watched_form Sample.session_storage)) = [Cases.odd_status]
  /\ Account.movies
       (state_after
          (run (@Account.fetchMovies Sample.sampleHost (Sample.answering 500 [] true))
             Cases.watched_form Sample.session_storage)) = [Sample.rated_three].
Proof.
  split.
  - exact (proj1 (proj1 (proj1 (proj2 (proj2 (proj2 (proj2
             (@X14_list_fetch_outcomes Sample.sampleHost
                (Sample.scripted (Sample.respond 200 (VObject []))
                   (Sample.respond 200 tt) (Sample.respond 200 [Cases.odd_status])
                   (Sample.respond 200 []) [] true)
                Cases.watched_form Sample.session_storage (str "tok-1") eq_refl)))))
             {| status := 200; json := inr [Cases.odd_status] |} eq_refl)
             [Cases.odd_status] eq_refl eq_refl)).
  - refine (proj1 (proj2 (proj2 (proj1 (proj2 (proj2 (proj2 (proj2
             (@X14_list_fetch_outcomes Sample.sampleHost
                (Sample.answering 500 [] true)
                Cases.watched_form Sample.session_storage (str "tok-1") eq_refl)))))
             {| status := 500; json := inr [] |} eq_refl)) eq_refl _)).
    discriminate.
Defined.

(** ** Creating a record *)

(** X15: what the create form sends.  With a session and a title that is
    not blank, the first request is the authenticated POST to /movies.
    For a planned movie its body is exactly {title, status, imageUrl}: the
    title trimmed, the poster URL trimmed and null when blank, and no
    rating or review even when those cells still hold values.  For a
    watched movie with a rating selected the body adds that rating and
    the trimmed review, null when blank. *)
Theorem X15_create_payload `{Host} (w : World) (st : Account.State)
    (ls : gmap jsstring jsstring) (token : jsstring) :
  present (Account.sessionToken st) = Some token ->
  trim (Account.title st) <> [] ->
  let r := run (Account.handleAddMovie w) st ls in
  (Account.status st = Account.PLAN_TO_WATCH ->
   hd_error (requests (log_of r))
   = Some (create_request token (planned_fields st)))
  /\ (forall x,
        Account.status st = Account.HAVE_WATCHED ->
        Account.rating st = Some x ->
        truthy_num x = true ->
        hd_error (requests (log_of r))
        = Some (create_request token (watched_fields st x))).
Proof.
  intros Hs Ht r. subst r. unfold create_request, planned_fields, watched_fields.
  unfold_account; unfold_monad. cbn -[str of_N]. rewrite Hs. cbn -[str of_N].
  rewrite (truthy_nonempty _ Ht). cbn -[str of_N]. split.
  - intros Hst. rewrite Hst. cbn -[str of_N].
    repeat (split_step; cbn -[str of_N]); reflexivity.
  - intros x Hst Hr Hx. rewrite Hst, Hr. cbn -[str of_N]. rewrite Hx.
    cbn -[str of_N]. repeat (split_step; cbn -[str of_N]); reflexivity.
Qed.

(** X15, run on the sample host: the form of a planned movie whose rating
    and review cells are still filled, and the same form for a watched
    one. *)
Lemma X15_create_payload_witness :
  option_map keys
    (hd_error
       (requests
          (log_of
             (run (@Account.handleAddMovie Sample.sampleHost
                     (Sample.answering 201 [] true))
                Cases.planned_form Sample.session_storage))))
  = Some [str "title"; str "status"; str "imageUrl"]
  /\ option_map (field (str "imageUrl"))
       (hd_error
          (requests
             (log_of
                (run (@Account.handleAddMovie Sample.sampleHost
                        (Sample.answering 201 [] true))
                   Cases.watched_form Sample.session_storage))))
     = Some (Some JNull).
Proof.
  split.
  - rewrite (proj1 (@X15_create_payload Sample.sampleHost
                      (Sample.answering 201 [] true) Cases.planned_form
                      Sample.session_storage (str "tok-1") eq_refl
                      ltac:(vm_compute; discriminate)) eq_refl).
    reflexivity.
  - rewrite (proj2 (@X15_create_payload Sample.sampleHost
                      (Sample.answering 201 [] true) Cases.watched_form
                      Sample.session_storage (str "tok-1") eq_refl
                      ltac:(vm_compute; discriminate)) 4%float eq_refl eq_refl eq_refl).
    vm_compute. reflexivity.
Defined.

(** X16: the create form is reset only by a success.  With a session and
    a valid form, a success status of the POST resets title, status,
    rating, review and poster URL to their defaults and is followed by the
    refetch of the list; another status than 401 or a failed transport
    keeps every cell of the form as the user left it, sends nothing
    further and shows "HTTP <status>" or the thrown message. *)
Theorem X16_create_resets_form_on_success `{Host} (w : World) (st : Account.State)
    (ls : gmap jsstring jsstring) (token : jsstring)
    (fields : list (jsstring * Json)) :
  present (Account.sessionToken st) = Some token ->
  hd_error (requests (log_of (run (Account.handleAddMovie w) st ls)))
  = Some (create_request token fields) ->
  let r := run (Account.handleAddMovie w) st ls in
  (forall res,
     write_service w [] (create_request token fields) = Resolved res ->
     (ok res = true ->
      form_reset (state_after r)
      /\ requests (log_of r) = [create_request token fields; list_request token])
     /\ (ok res = false -> status res <> 401 ->
         same_form (state_after r) st
         /\ Account.movies (state_after r) = Account.movies st
         /\ requests (log_of r) = [create_request token fields]
         /\ Account.moviesError (state_after r)
            = Some (str "HTTP " ++ of_N (status res))))
  /\ (forall e,
        write_service w [] (create_request token fields) = Rejected e ->
        same_form (state_after r) st
        /\ Account.movies (state_after r) = Account.movies st
        /\ requests (log_of r) = [create_request token fields]
        /\ Account.moviesError (state_after r)
           = Some (nullish (message e) (str "Failed to add movie"))).
Proof.
  intros Hs Hreq r. subst r. revert Hs Hreq.
  unfold create_request, list_request, same_form, form_reset.
  exec; intros Hs Hreq; try discriminate Hreq; simplify_eq.
  all: split; [intros res Hres | intros e' He']; same_outcome.
  all: try (split; [intros Hok | intros Hok H401]); bool_facts.
  all: try congruence.
  all: absurd_status.
  all: repeat split; try assumption; try congruence.
Qed.

(** X16, run on the sample host: the watched form, answered 201 and
    answered 422. *)
Lemma X16_create_reset_witness :
  form_reset
    (state_after
       (run (@Account.handleAddMovie Sample.sampleHost (Sample.answering 201 [] true))
          Cases.watched_form Sample.session_storage))
  /\ same_form
       (state_after
          (run (@Account.handleAddMovie Sample.sampleHost
                  (Sample.answering 422 [] true))
             Cases.watched_form Sample.session_storage))
       Cases.watched_form.
Proof.
  split.
  - refine (proj1 (proj1 (proj1
             (@X16_create_resets_form_on_success Sample.sampleHost
                (Sample.answering 201 [] true) Cases.watched_form
                Sample.session_storage (str "tok-1")
                (watched_fields Cases.watched_form 4%float) eq_refl _)
             {| status := 201; json := inr tt |} eq_refl) eq_refl)).
    vm_compute. reflexivity.
  - refine (proj1 (proj2 (proj1
             (@X16_create_resets_form_on_success Sample.sampleHost
                (Sample.answering 422 [] true) Cases.watched_form
                Sample.session_storage (str "tok-1")
                (watched_fields Cases.watched_form 4%float) eq_refl _)
             {| status := 422; json := inr tt |} eq_refl) eq_refl _)).
    + vm_compute. reflexivity.
    + discriminate.
Defined.

(** ** Updating the status of a record *)

(** X17: a status update sends the status and nothing else.  With a
    session and an id that is a well-formed string, the first request is
    the authenticated PUT on the record's URL (its id percent-encoded by
    the host) whose body has the single field status; a success status is
    followed by the refetch of the list; another status than 401 or a
    failed transport sends nothing further, keeps the cached list and shows
    "HTTP <status>" or the thrown message (or "Failed to update movie").
    With an id that holds a lone surrogate the URL cannot be encoded:
    nothing is sent, storage and cached list are kept, and the error shown
    is the URIError's.  Session, filters and form cells are never changed
    by it. *)
Theorem X17_status_update_sends_only_status `{Host} (w : World) (id : jsstring)
    (newStatus : Account.Status) (st : Account.State)
    (ls : gmap jsstring jsstring) (token : jsstring) :
  present (Account.sessionToken st) = Some token ->
  let req :=
    update_request token id [ (str "status", JString (Account.literal newStatus)) ] in
  let r := run (Account.updateMovieStatus w id newStatus) st ls in
  same_form (state_after r) st
  /\ (isWellFormed id = true ->
      hd_error (requests (log_of r)) = Some req
      /\ (forall res,
            write_service w [] req = Resolved res ->
            (ok res = true -> requests (log_of r) = [req; list_request token])
            /\ (ok res = false -> status res <> 401 ->
                requests (log_of r) = [req]
                /\ Account.movies (state_after r) = Account.movies st
                /\ Account.moviesError (state_after r)
                   = Some (str "HTTP " ++ of_N (status res))))
      /\ (forall e,
            write_service w [] req = Rejected e ->
            requests (log_of r) = [req]
            /\ Account.movies (state_after r) = Account.movies st
            /\ Account.moviesError (state_after r)
               = Some (nullish (message e) (str "Failed to update movie"))))
  /\ (isWellFormed id = false ->
      log_of r = [ConsoleError uriError]
      /\ storage_after r = ls
      /\ Account.movies (state_after r) = Account.movies st
      /\ Account.moviesError (state_after r)
         = Some (nullish (message uriError) (str "Failed to update movie"))).
Proof.
  intros Hs req r. subst req r. revert Hs.
  unfold update_request, list_request, same_form.
  exec; intros Hs; simplify_eq.
  all: split; [repeat split|]; split; intros Hw; try congruence.
  all: try solve [repeat split].
  all: refine (conj eq_refl (conj _ _));
    [ intros res Hres; same_outcome;
      (split; [intros Hok | intros Hok H401]); bool_facts;
      try congruence; absurd_status;
      repeat split; try assumption; try congruence
    | intros e' He'; same_outcome;
      repeat split; try assumption; try congruence ].
Qed.

(** X17, run on the sample host: a record moved back to planned, answered
    200, the same answered 404, and an id that is a lone surrogate. *)
Lemma X17_status_update_witness :
  requests
    (log_of
       (run (@Account.updateMovieStatus Sample.sampleHost
               (Sample.answering 200 [] true) (str "m 1") Account.PLAN_TO_WATCH)
          Sample.account_logged_in Sample.session_storage))
  = [ @update_request Sample.sampleHost (str "tok-1") (str "m 1")
        [ (str "status", JString (str "PLAN_TO_WATCH")) ];
      @list_request Sample.sampleHost (str "tok-1") ]
  /\ Account.moviesError
       (state_after
          (run (@Account.updateMovieStatus Sample.sampleHost
                  (Sample.answering 404 [] true) (str "m 1") Account.PLAN_TO_WATCH)
             Sample.account_logged_in Sample.session_storage))
     = Some (str "HTTP 404")
  /\ log_of
       (run (@Account.updateMovieStatus Sample.sampleHost
               (Sample.answering 200 [] true) [0xD800] Account.PLAN_TO_WATCH)
          Sample.account_logged_in Sample.session_storage)
     = [ConsoleError (Error (str "URI malformed"))].
Proof.
  split; [|split].
  - exact (proj1 (proj1 (proj2 (proj1 (proj2
             (@X17_status_update_sends_only_status Sample.sampleHost
                (Sample.answering 200 [] true) (str "m 1") Account.PLAN_TO_WATCH
                Sample.account_logged_in Sample.session_storage (str "tok-1")
                eq_refl)) eq_refl))
             {| status := 200; json := inr tt |} eq_refl) eq_refl).
  - refine (proj2 (proj2 (proj2 (proj1 (proj2 (proj1 (proj2
             (@X17_status_update_sends_only_status Sample.sampleHost
                (Sample.answering 404 [] true) (str "m 1") Account.PLAN_TO_WATCH
                Sample.account_logged_in Sample.session_storage (str "tok-1")
                eq_refl)) eq_refl))
             {| status := 404; json := inr tt |} eq_refl) eq_refl _))).
    discriminate.
  - exact (proj1 (proj2 (proj2
             (@X17_status_update_sends_only_status Sample.sampleHost
                (Sample.answering 200 [] true) [0xD800] Account.PLAN_TO_WATCH
                Sample.account_logged_in Sample.session_storage (str "tok-1")
                eq_refl)) eq_refl)).
Defined.

(** ** Marking a record watched *)






(** ** The cached list *)

(** Shows where a changed list came from. *)
Ltac from_refetch :=
  first
    [ left; reflexivity
    | right; bool_facts; simplify_eq; do 3 eexists;
      split; [reflexivity|]; split; [eassumption|]; split; assumption ].

Section Cache.

Context {host : Host}.

Lemma fetchMovies_cache w st ls :
  Account.movies (state_after (run (Account.fetchMovies w) st ls)) = Account.movies st
  \/ refetched w (Account.sessionToken st)
       (Account.movies (state_after (run (Account.fetchMovies w) st ls))).
Proof. unfold refetched, list_request. exec; from_refetch. Qed.

Lemma handleAddMovie_cache w st ls :
  Account.movies (state_after (run (Account.handleAddMovie w) st ls))
  = Account.movies st
  \/ refetched w (Account.sessionToken st)
       (Account.movies (state_after (run (Account.handleAddMovie w) st ls))).
Proof. unfold refetched, list_request. exec; from_refetch. Qed.

Lemma updateMovieStatus_cache w id newStatus st ls :
  Account.movies (state_after (run (Account.updateMovieStatus w id newStatus) st ls))
  = Account.movies st
  \/ refetched w (Account.sessionToken st)
       (Account.movies
          (state_after (run (Account.updateMovieStatus w id newStatus) st ls))).
Proof. unfold refetched, list_request. exec; from_refetch. Qed.

Lemma markWatched_cache w movie st ls :
  Account.movies (state_after (run (Account.markWatched w movie) st ls))
  = Account.movies st
  \/ refetched w (Account.sessionToken st)
       (Account.movies (state_after (run (Account.markWatched w movie) st ls))).
Proof. unfold refetched, list_request. exec; from_refetch. Qed.

Lemma deleteMovie_cache w id st ls :
  Account.movies (state_after (run (Account.deleteMovie w id) st ls))
  = Account.movies st
  \/ refetched w (Account.sessionToken st)
       (Account.movies (state_after (run (Account.deleteMovie w id) st ls))).
Proof. unfold refetched, list_request. exec; from_refetch. Qed.

End Cache.

(** X20: the cached list is only ever replaced by a refetch.  After the
    list fetch and after each of the four mutations (create, status
    update, mark-watched, delete), whatever the outcome, the cached list
    is either the one held before or the parsed body of a success response
    to the authenticated GET of /movies: no mutation edits the cache
    itself. *)
Theorem X20_cache_changes_only_by_refetch `{Host} (w : World) (st : Account.State)
    (ls : gmap jsstring jsstring) :
  let unchanged_or_refetched (now : list Movie.t) :=
    now = Account.movies st \/ refetched w (Account.sessionToken st) now in
  unchanged_or_refetched
    (Account.movies (state_after (run (Account.fetchMovies w) st ls)))
  /\ unchanged_or_refetched
       (Account.movies (state_after (run (Account.handleAddMovie w) st ls)))
  /\ (forall id newStatus,
        unchanged_or_refetched
          (Account.movies
             (state_after (run (Account.updateMovieStatus w id newStatus) st ls))))
  /\ (forall movie,
        unchanged_or_refetched
          (Account.movies (state_after (run (Account.markWatched w movie) st ls))))
  /\ (forall id,
        unchanged_or_refetched
          (Account.movies (state_after (run (Account.deleteMovie w id) st ls)))).
Proof.
  cbv zeta. refine (conj _ (conj _ (conj _ (conj _ _)))); intros.
  - apply fetchMovies_cache.
  - apply handleAddMovie_cache.
  - apply updateMovieStatus_cache.
  - apply markWatched_cache.
  - apply deleteMovie_cache.
Qed.

(** ** Searching and filtering the list *)

Lemma list_filter_sublist {A} (keep : A -> bool) (l : list A) :
  sublist (List.filter keep l) l.
Proof.
  induction l as [|x l IH]; simpl; [constructor|].
  destruct (keep x); now constructor.
Qed.

Lemma list_filter_commute {A} (f g : A -> bool) (l : list A) :
  List.filter f (List.filter g l) = List.filter g (List.filter f l).
Proof.
  induction l as [|x l IH]; simpl; [reflexivity|].
  destruct (f x) eqn:Ef, (g x) eqn:Eg; simpl; rewrite ?Ef, ?Eg, IH; reflexivity.
Qed.

Lemma list_filter_idempotent {A} (f : A -> bool) (l : list A) :
  List.filter f (List.filter f l) = List.filter f l.
Proof.
  induction l as [|x l IH]; simpl; [reflexivity|].
  destruct (f x) eqn:Ef; simpl; rewrite ?Ef, IH; reflexivity.
Qed.

Lemma list_filter_all {A} (f : A -> bool) (l : list A) :
  (forall x, f x = true) -> List.filter f l = l.
Proof.
  intros Hf. induction l as [|x l IH]; simpl; [reflexivity|].
  now rewrite Hf, IH.
Qed.

Lemma blank_query_displays_all `{Host} (movies : list Movie.t) (query : jsstring) :
  trim query = [] -> Account.filteredMovies movies Account.ALL query = movies.
Proof.
  intros Hq. unfold Account.filteredMovies. simpl.
  apply list_filter_all. intros m. rewrite Hq, toLowerCase_empty. reflexivity.
Qed.

(** X21: the two filters of the account screen compose.  The displayed
    list is always a sublist of the cached one, in its order, so it is
    never longer; the filter ALL with a blank query displays the cached
    list itself; a status filter displays exactly the records of that
    status among those the search alone displays, so the two filters can
    be applied in either order; filtering what is displayed again changes
    nothing; and the displayed list of two lists put together is the two
    displayed lists put together. *)
Theorem X21_filters_compose `{Host} (movies : list Movie.t) (f : Account.Filter)
    (query : jsstring) :
  sublist (Account.filteredMovies movies f query) movies
  /\ (length (Account.filteredMovies movies f query) <= length movies)%nat
  /\ (trim query = [] -> Account.filteredMovies movies Account.ALL query = movies)
  /\ (forall s,
        Account.filteredMovies movies (Account.Only s) query
        = Account.statusFiltered
            (Account.filteredMovies movies Account.ALL query) (Account.Only s))
  /\ Account.filteredMovies (Account.filteredMovies movies f query) f query
     = Account.filteredMovies movies f query
  /\ (forall more,
        Account.filteredMovies (movies ++ more) f query
        = Account.filteredMovies movies f query
          ++ Account.filteredMovies more f query).
Proof.
  assert (Hsub : sublist (Account.filteredMovies movies f query) movies).
  { unfold Account.filteredMovies. etransitivity; [apply list_filter_sublist|].
    destruct f; simpl; [reflexivity | apply list_filter_sublist]. }
  refine (conj Hsub (conj _ (conj _ (conj _ (conj _ _))))).
  - now apply sublist_length.
  - apply blank_query_displays_all.
  - intros s. unfold Account.filteredMovies. simpl. apply list_filter_commute.
  - unfold Account.filteredMovies. destruct f as [|s]; simpl.
    + apply list_filter_idempotent.
    + set (bys := fun m => str_eqb (Movie.status m) (Account.literal s)).
      match goal with
      | |- List.filter ?q _ = _ => set (byq := q)
      end.
      rewrite (list_filter_commute bys byq (List.filter bys movies)).
      now rewrite list_filter_idempotent, list_filter_idempotent.
  - intros more. unfold Account.filteredMovies.
    destruct f as [|s]; simpl; now rewrite !List.filter_app.
Qed.

(** X21, run on the sample host: a query of spaces under the filter ALL. *)
Lemma X21_filters_witness :
  @Account.filteredMovies Sample.sampleHost
    [Sample.movie_A (str "a"); Sample.movie_B (str "b")] Account.ALL (str "   ")
  = [Sample.movie_A (str "a"); Sample.movie_B (str "b")].
Proof.
  apply (proj1 (proj2 (proj2
           (@X21_filters_compose Sample.sampleHost
              [Sample.movie_A (str "a"); Sample.movie_B (str "b")]
              Account.ALL (str "   "))))).
  reflexivity.
Defined.

(** ** The stars of a record *)

(** The star renderer of the account screen never throws: both counts it
    hands to [repeat] are finite and not negative, whatever the rating. *)
Lemma account_renderStars_total (rating : option float) :
  exists filled empty : nat,
    AccountView.renderStars rating
    = Some (List.repeat 0x2605 filled ++ List.repeat 0x2606 empty).
Proof.
  destruct rating as [r|]; [|exists O, O; reflexivity].
  unfold AccountView.renderStars.
  destruct (negb (truthy_num r) || (r <? 1)%float) eqn:E;
    [exists O, O; reflexivity|].
  apply orb_false_iff in E as [Ht H1]. apply negb_false_iff in Ht.
  unfold truthy_num in Ht. apply andb_true_iff in Ht as [Hn _].
  apply negb_true_iff in Hn.
  destruct (math_min_five r Hn H1) as [Hlo Hhi].
  destruct (truncated_between _ Hlo Hhi) as [n [Hn0 En]].
  destruct (five_minus_between _ Hlo Hhi) as [k [Hk0 Ek]].
  unfold JSNumber.repeat_num. rewrite En, Ek. unfold repeat.
  destruct (Z.ltb_spec n 0); [lia|]. destruct (Z.ltb_spec k 0); [lia|].
  simpl. unfold AccountView.star, AccountView.hollow.
  rewrite !concat_repeat_unit. eexists _, _. reflexivity.
Qed.

(** X22: the star renderer of the account screen.  It never throws: for
    every rating it returns filled stars followed by empty ones.  A missing
    rating, a rating of 0 or NaN and any rating below 1 render as the empty
    string; each of the five ratings the create form offers renders as
    that many filled stars followed by empty ones up to five, as the
    discovery screen's renderer does for it; every rating above 5, the
    positive infinity among them, renders five filled stars; but a
    fractional rating, which the rating prompt accepts, is truncated
    twice: 2.5 renders two filled and two empty stars, four glyphs.  The
    discovery renderer, unlike this one, shows one star for a rating of
    0. *)
Theorem X22_account_stars :
  (forall rating,
     exists filled empty : nat,
       AccountView.renderStars rating
       = Some (List.repeat 0x2605 filled ++ List.repeat 0x2606 empty))
  /\ (forall rating,
        (rating = None
         \/ exists x, rating = Some x
                      /\ (truthy_num x = false \/ (x <? 1)%float = true)) ->
        AccountView.renderStars rating = Some [])
  /\ (forall k : Z,
        (1 <= k <= 5)%Z ->
        AccountView.renderStars (Some (JSNumber.of_Z k))
        = Some (List.repeat 0x2605 (Z.to_nat k)
                ++ List.repeat 0x2606 (5 - Z.to_nat k))
        /\ AccountView.renderStars (Some (JSNumber.of_Z k))
           = Discover.renderStars (JSNumber.of_Z k))
  /\ (forall x,
        (5 <? x)%float = true ->
        AccountView.renderStars (Some x) = Some (List.repeat 0x2605 5))
  /\ AccountView.renderStars (Some 2.5%float)
     = Some [0x2605; 0x2605; 0x2606; 0x2606]
  /\ (AccountView.renderStars (Some 0%float) = Some []
      /\ Discover.renderStars 0%float
         = Some [0x2605; 0x2606; 0x2606; 0x2606; 0x2606]).
Proof.
  refine (conj _ (conj _ (conj _ (conj _ (conj _ _))))).
  - apply account_renderStars_total.
  - intros rating [-> | [x [-> [Hx | Hx]]]]; [reflexivity| |];
      unfold AccountView.renderStars; rewrite Hx; simpl;
      [reflexivity | now rewrite orb_true_r].
  - intros k Hk.
    assert (Hc : (k = 1 \/ k = 2 \/ k = 3 \/ k = 4 \/ k = 5)%Z) by lia.
    destruct Hc as [-> | [-> | [-> | [-> | ->]]]];
      split; vm_compute; reflexivity.
  - intros x Hx. destruct (above_five x Hx) as [Ht [H1 Hm]].
    unfold AccountView.renderStars. rewrite Ht, H1, Hm.
    vm_compute. reflexivity.
  - vm_compute. reflexivity.
  - split; vm_compute; reflexivity.
Qed.

(** X22, run: the rating 3 picked in the form, no rating, and the ratings
    7 and infinity. *)
Lemma X22_account_stars_witness :
  AccountView.renderStars (Some (JSNumber.of_Z 3))
  = Some [0x2605; 0x2605; 0x2605; 0x2606; 0x2606]
  /\ AccountView.renderStars None = Some []
  /\ AccountView.renderStars (Some 7%float) = Some (List.repeat 0x2605 5)
  /\ AccountView.renderStars (Some infinity) = Some (List.repeat 0x2605 5).
Proof.
  split; [|split; [|split]].
  - exact (proj1 (proj1 (proj2 (proj2 X22_account_stars)) 3%Z ltac:(lia))).
  - apply (proj1 (proj2 X22_account_stars)). now left.
  - apply (proj1 (proj2 (proj2 (proj2 X22_account_stars)))). reflexivity.
  - apply (proj1 (proj2 (proj2 (proj2 X22_account_stars)))). reflexivity.
Defined.

(** ** The cards of the list *)

Section Cards.

Context {host : Host}.

Lemma str_eqb_false (a b : jsstring) : a <> b -> str_eqb a b = false.
Proof.
  intros Hne. destruct (str_eqb a b) eqn:E; [|reflexivity].
  apply str_eqb_eq in E. contradiction.
Qed.

Lemma filteredMovies_In movies f query m :
  In m (Account.filteredMovies movies f query) ->
  In m movies /\ Spec.status_selected f m.
Proof.
  unfold Account.filteredMovies. intros Hin.
  apply List.filter_In in Hin as [Hin _].
  destruct f as [|s]; simpl in *; [now split|].
  apply List.filter_In in Hin as [Hin Hs]. apply str_eqb_eq in Hs. now split.
Qed.

(** Every record renders as a card. *)
Lemma account_render_card_total (m : Movie.t) :
  exists card, AccountView.render_card m = Some card.
Proof.
  unfold AccountView.render_card.
  destruct (str_eqb (Movie.status m) (str "HAVE_WATCHED")); simpl;
    [|eexists; reflexivity].
  destruct (account_renderStars_total (Movie.rating m)) as [n [k ->]].
  simpl. eexists. reflexivity.
Qed.

End Cards.

(** X23: a record with an unknown status is shown as planned and found by
    no status filter.  A record whose status is not the literal
    HAVE_WATCHED always renders, with the pill "Plan to Watch" and the note
    "Planned watch. No review yet.", whatever rating and review it
    carries; if its status is not PLAN_TO_WATCH either, neither status
    filter displays it, while the filter ALL with a blank query does.  A
    record that is HAVE_WATCHED always renders too, whatever its rating,
    with the pill "Have Watched", the stars of its rating, the text "Not
    rated" and no star for a missing or zero rating, and "No written
    review yet." for a missing or empty review. *)
Theorem X23_card_of_a_record `{Host} (m : Movie.t) :
  (Movie.status m <> str "HAVE_WATCHED" ->
   exists card,
     AccountView.render_card m = Some card
     /\ AccountView.pill card = str "Plan to Watch"
     /\ AccountView.detail card
        = AccountView.Planned (str "Planned watch. No review yet."))
  /\ (Movie.status m <> str "HAVE_WATCHED" ->
      Movie.status m <> str "PLAN_TO_WATCH" ->
      forall movies query,
        In m movies ->
        (forall s, ~ In m (Account.filteredMovies movies (Account.Only s) query))
        /\ (trim query = [] ->
            In m (Account.filteredMovies movies Account.ALL query)))
  /\ (Movie.status m = str "HAVE_WATCHED" ->
      exists card stars,
        AccountView.render_card m = Some card
        /\ AccountView.key card = Movie.id m
        /\ AccountView.heading card = Movie.title m
        /\ AccountView.pill card = str "Have Watched"
        /\ AccountView.renderStars (Movie.rating m) = Some stars
        /\ AccountView.detail card
           = AccountView.Watched stars
               (AccountView.score_text (Movie.rating m))
               (or_else (Movie.review m) (str "No written review yet."))
        /\ (truthy_num_opt (Movie.rating m) = false ->
            stars = []
            /\ AccountView.score_text (Movie.rating m) = str "Not rated")
        /\ (present (Movie.review m) = None ->
            or_else (Movie.review m) (str "No written review yet.")
            = str "No written review yet.")).
Proof.
  refine (conj _ (conj _ _)).
  - intros Hw. unfold AccountView.render_card.
    rewrite (str_eqb_false _ _ Hw). simpl. eexists. repeat split.
  - intros Hw Hp movies query Hin. split.
    + intros s Hs. apply filteredMovies_In in Hs as [_ Hs]. simpl in Hs.
      destruct s; simpl in Hs; congruence.
    + intros Hq.
      rewrite (blank_query_displays_all movies query Hq). exact Hin.
  - intros Hw. unfold AccountView.render_card.
    rewrite Hw. replace (str_eqb (str "HAVE_WATCHED") (str "HAVE_WATCHED")) with true
      by (symmetry; now apply str_eqb_eq).
    destruct (account_renderStars_total (Movie.rating m)) as [n [k Es]].
    rewrite Es. simpl. eexists _, _.
    refine (conj eq_refl (conj eq_refl (conj eq_refl (conj eq_refl
              (conj eq_refl (conj eq_refl (conj _ _))))))).
    + intros Hr. unfold AccountView.renderStars, AccountView.score_text in *.
      destruct (Movie.rating m) as [x|]; simpl in *.
      * rewrite Hr in *. simpl in Es. split; congruence.
      * split; congruence.
    + unfold present, or_else. destruct (Movie.review m) as [[|c r]|];
        simpl; intros; congruence.
Qed.

(** X23, run on the sample host: a record with the status DROPPED, and a
    watched record rated 3. *)
Lemma X23_card_witness :
  (exists card,
     @AccountView.render_card Sample.sampleHost Cases.odd_status = Some card
     /\ AccountView.pill card = str "Plan to Watch"
     /\ AccountView.detail card
        = AccountView.Planned (str "Planned watch. No review yet."))
  /\ ~ In Cases.odd_status
         (@Account.filteredMovies Sample.sampleHost
            [Sample.rated_three; Cases.odd_status]
            (Account.Only Account.PLAN_TO_WATCH) [])
  /\ (exists card,
        @AccountView.render_card Sample.sampleHost Sample.rated_three = Some card
        /\ AccountView.pill card = str "Have Watched"
        /\ AccountView.detail card
           = AccountView.Watched [0x2605; 0x2605; 0x2605; 0x2606; 0x2606]
               (str "3/5") (str "fine")).
Proof.
  split; [|split].
  - apply (proj1 (@X23_card_of_a_record Sample.sampleHost Cases.odd_status)).
    vm_compute. discriminate.
  - apply (proj1 (proj2 (@X23_card_of_a_record Sample.sampleHost Cases.odd_status))).
    + vm_compute. discriminate.
    + vm_compute. discriminate.
    + right. left. reflexivity.
  - destruct (proj2 (proj2 (@X23_card_of_a_record Sample.sampleHost
                              Sample.rated_three)) eq_refl)
      as (card & stars & Hc & _ & _ & Hp & Hs & Hd & _).
    exists card. split; [exact Hc|]. split; [exact Hp|].
    rewrite Hd. vm_compute in Hs. injection Hs as <-.
    vm_compute. reflexivity.
Defined.

(** ** The list area *)

Section Listing.

Context {host : Host}.

Lemma render_card_identity (m : Movie.t) (card : AccountView.Card) :
  AccountView.render_card m = Some card ->
  AccountView.key card = Movie.id m /\ AccountView.heading card = Movie.title m.
Proof.
  unfold AccountView.render_card.
  match goal with
  | |- context [mbind _ ?d] => destruct d as [x|]
  end; simpl; [|discriminate].
  intros [= <-]. split; reflexivity.
Qed.

Lemma rendered_cards_follow (l : list Movie.t) (cs : list AccountView.Card) :
  mapM AccountView.render_card l = Some cs ->
  map AccountView.key cs = map Movie.id l
  /\ map AccountView.heading cs = map Movie.title l
  /\ length cs = length l.
Proof.
  intros Hm. apply mapM_Some in Hm.
  induction Hm as [|m c l cs Hc _ (IHk & IHh & IHl)]; [repeat split|].
  destruct (render_card_identity m c Hc) as [Hk Hh].
  simpl. now rewrite Hk, Hh, IHk, IHh, IHl.
Qed.

Lemma displayed_sublist movies f query :
  sublist (Account.filteredMovies movies f query) movies.
Proof.
  unfold Account.filteredMovies. etransitivity; [apply list_filter_sublist|].
  destruct f; simpl; [reflexivity | apply list_filter_sublist].
Qed.

(** The account screen renders in every state. *)
Lemma account_render_total (st : Account.State) :
  exists view, AccountView.render st = Some view.
Proof.
  unfold AccountView.render.
  destruct (truthy_opt (Account.currentUser st)); [|eexists; reflexivity].
  assert (Hcards : exists cs,
            mapM AccountView.render_card (Account.displayed st) = Some cs).
  { induction (Account.displayed st) as [|m l [cs IH]]; [exists []; reflexivity|].
    destruct (account_render_card_total m) as [c Hc].
    exists (c :: cs). simpl. rewrite Hc. simpl. rewrite IH. reflexivity. }
  destruct Hcards as [cs ->]. eexists. reflexivity.
Qed.

End Listing.

(** X24: what is listed is what is displayed.  The account screen renders
    in every state, whatever the cached records carry; with a current user
    the cards are those of the displayed records, one each and in their
    order, and the note for an empty view shows exactly when the list is
    not loading and no record is displayed; without a current user no
    card is listed and the create form is hidden; the counter reads
    "Showing n of m movies" with n the number of displayed and m the
    number of cached records, n at most m; and the refresh button is
    disabled exactly without a session. *)
Theorem X24_listing_matches_display `{Host} (st : Account.State) :
  exists view,
  AccountView.render st = Some view
  /\ AccountView.showing view
  = str "Showing " ++ of_N (N.of_nat (length (Account.displayed st)))
    ++ str " of " ++ of_N (N.of_nat (length (Account.movies st))) ++ str " movies"
  /\ (length (Account.displayed st) <= length (Account.movies st))%nat
  /\ AccountView.refresh_disabled view = negb (truthy_opt (Account.sessionToken st))
  /\ AccountView.show_form view = truthy_opt (Account.currentUser st)
  /\ match AccountView.listing view with
     | AccountView.Records loading empty_note cards =>
         truthy_opt (Account.currentUser st) = true
         /\ loading = Account.loadingMovies st
         /\ map AccountView.key cards = map Movie.id (Account.displayed st)
         /\ map AccountView.heading cards = map Movie.title (Account.displayed st)
         /\ (empty_note = true <-> loading = false /\ cards = [])
     | AccountView.LoggedOut _ =>
         truthy_opt (Account.currentUser st) = false
     end.
Proof.
  destruct (account_render_total st) as [view Hr]. exists view.
  split; [exact Hr|]. revert Hr.
  unfold AccountView.render. intros Hr.
  destruct (truthy_opt (Account.currentUser st)) eqn:Hu.
  - destruct (mapM AccountView.render_card (Account.displayed st)) as [cs|] eqn:Hm;
      simpl in Hr; [|discriminate].
    injection Hr as <-. simpl.
    destruct (rendered_cards_follow _ _ Hm) as (Hk & Hh & Hl).
    refine (conj eq_refl (conj _ (conj eq_refl (conj eq_refl _)))).
    + unfold Account.displayed. apply sublist_length, displayed_sublist.
    + refine (conj eq_refl (conj eq_refl (conj Hk (conj Hh _)))).
      rewrite andb_true_iff, negb_true_iff, bool_decide_eq_true.
      split; intros [Hload Hnone]; (split; [exact Hload|]).
      * rewrite Hnone in Hl. now destruct cs.
      * rewrite Hnone in Hl. now destruct (Account.displayed st).
  - simpl in Hr. injection Hr as <-. simpl.
    refine (conj eq_refl (conj _ (conj eq_refl (conj eq_refl eq_refl)))).
    unfold Account.displayed. apply sublist_length, displayed_sublist.
Qed.

(** X24, run on the sample host: one record cached and displayed; and the
    same record with a search that finds none. *)
Lemma X24_listing_witness :
  (exists view cards,
     @AccountView.render Sample.sampleHost Cases.watched_form = Some view
     /\ AccountView.showing view = str "Showing 1 of 1 movies"
     /\ AccountView.listing view = AccountView.Records false false cards
     /\ map AccountView.key cards = [str "m1"]
     /\ map AccountView.heading cards = [str "Heat"])
  /\ (exists view,
        @AccountView.render Sample.sampleHost Cases.searching = Some view
        /\ AccountView.showing view = str "Showing 0 of 1 movies"
        /\ AccountView.listing view = AccountView.Records false true []).
Proof.
  split.
  - destruct (@X24_listing_matches_display Sample.sampleHost Cases.watched_form)
      as (view & Hr & Hs & _ & _ & _ & Hl).
    assert (Hview : exists cards,
              AccountView.listing view = AccountView.Records false false cards).
    { vm_compute in Hr. injection Hr as <-. eexists. reflexivity. }
    destruct Hview as [cards Hc]. rewrite Hc in Hl.
    destruct Hl as (_ & _ & Hk & Hh & _).
    exists view, cards. split; [exact Hr|]. split; [|split; [exact Hc|]].
    + rewrite Hs. vm_compute. reflexivity.
    + split; [rewrite Hk | rewrite Hh]; vm_compute; reflexivity.
  - destruct (@X24_listing_matches_display Sample.sampleHost Cases.searching)
      as (view & Hr & Hs & _).
    exists view. split; [exact Hr|]. split.
    + rewrite Hs. vm_compute. reflexivity.
    + vm_compute in Hr. injection Hr as <-. reflexivity.
Defined.
